(** * DocuMind: a shallow embedding of the retrieval-augmented pipeline

    The development follows the Python sources file by file:
    - [document_processor.py]: extraction of pages and chunking,
    - [vector_store.py]: the persistent index and its start-up recovery,
    - [llm_handler.py]: the availability probe and the generation calls,
    - [app.py]: the chat step that ties retrieval and generation together.

    Python strings are modelled as [string], one [ascii] per code point
    (code points below 256); Python integers as [Z]; an exception that
    leaves a function as the [Raise] case of [result]. *)

From Stdlib Require Import ZArith Ascii String DecimalString Floats Sorting.Sorted.
From Stdlib Require Import DecimalZ DecimalPos.
From stdpp Require Import base option list strings gmap sorting.

Local Open Scope Z_scope.
Set Warnings "-register-all".

(** ** Exceptions and results *)

(** The exception classes the sources raise, catch or let through.  Every
    class is a subclass of [Exception]; [OtherError] stands for any class
    that no handler of the sources names. *)
Inductive exn_class :=
  | ExceptionC
  | ValueErrorC
  | KeyErrorC
  | IndexErrorC
  | TypeErrorC
  | AttributeErrorC
  | InconsistentHashErrorC
  | OtherError (name : string).

(** An exception value: its class and the text [str(e)] gives. *)
Record exn := Exn { exn_cls : exn_class; exn_str : string }.

Inductive result (A : Type) :=
  | Ok (a : A)
  | Raise (e : exn).
Arguments Ok {A} a.
Arguments Raise {A} e.

Global Instance result_ret : MRet result := fun _ a => Ok a.
Global Instance result_bind : MBind result := fun _ _ k m =>
  match m with
  | Ok a => k a
  | Raise e => Raise e
  end.

Definition is_ok {A} (r : result A) : bool :=
  match r with Ok _ => true | Raise _ => false end.

(** [for x in xs: acc = body(acc, x)] where the body may raise. *)
Fixpoint for_each {A S} (body : S -> A -> result S) (xs : list A) (acc : S)
  : result S :=
  match xs with
  | [] => Ok acc
  | x :: xs' => acc' ← body acc x; for_each body xs' acc'
  end.

(** ** Effects

    Code that talks to the outside (the file system, the clock, a child
    process) threads a state [S] and may raise: an exception leaves the
    state as it was when it was raised. *)
Definition M (S A : Type) : Type := S -> result A * S.

Global Instance M_ret {S} : MRet (M S) := fun _ a s => (Ok a, s).
Global Instance M_bind {S} : MBind (M S) := fun _ _ k m s =>
  match m s with
  | (Ok a, s') => k a s'
  | (Raise e, s') => (Raise e, s')
  end.

Definition raise {S A} (e : exn) : M S A := fun s => (Raise e, s).
Definition gets {S A} (f : S -> A) : M S A := fun s => (Ok (f s), s).
Definition modify {S} (f : S -> S) : M S unit := fun s => (Ok tt, f s).
Definition lift_result {S A} (r : result A) : M S A := fun s => (r, s).

(** [try: body  except C1: h1  except C2: h2 ...]: the first clause whose
    class test accepts the exception handles it; with none, it goes on. *)
Fixpoint find_handler {S A} (clauses : list ((exn -> bool) * (exn -> M S A)))
    (e : exn) : M S A :=
  match clauses with
  | [] => raise e
  | (accepts, handler) :: rest =>
      if accepts e then handler e else find_handler rest e
  end.

Definition try_except {S A} (body : M S A)
    (clauses : list ((exn -> bool) * (exn -> M S A))) : M S A :=
  fun s =>
    match body s with
    | (Ok a, s') => (Ok a, s')
    | (Raise e, s') => find_handler clauses e s'
    end.

(** [except Exception] and a bare [except] accept every class modelled. *)
Definition any_exception (e : exn) : bool := true.

(** ** Python built-ins used by the sources *)
Module Py.

Definition lf : string := String "010"%char EmptyString.
Definition squote : string := String "039"%char EmptyString.
Definition dquote : string := String "034"%char EmptyString.

Definition len (s : string) : Z := Z.of_nat (String.length s).

(** [str.isspace] on one code point below 256. *)
Definition isspace (c : ascii) : bool :=
  let n := nat_of_ascii c in
  ((9 <=? n) && (n <=? 13) || (28 <=? n) && (n <=? 32)
   || (n =? 133) || (n =? 160))%nat.

Fixpoint lstrip (s : string) : string :=
  match s with
  | String c s' => if isspace c then lstrip s' else s
  | EmptyString => EmptyString
  end.

Fixpoint rstrip (s : string) : string :=
  match s with
  | String c s' =>
      match rstrip s' with
      | EmptyString => if isspace c then EmptyString else String c EmptyString
      | r => String c r
      end
  | EmptyString => EmptyString
  end.

(** [s.strip()] *)
Definition strip (s : string) : string := rstrip (lstrip s).

(** Truth value of a string: [if s:] *)
Definition nonempty (s : string) : bool :=
  match s with EmptyString => false | _ => true end.

(** [sub in s] *)
Fixpoint contains (sub s : string) : bool :=
  String.prefix sub s ||
  match s with
  | String _ s' => contains sub s'
  | EmptyString => false
  end.

(** [sep.join(parts)] *)
Fixpoint join (sep : string) (parts : list string) : string :=
  match parts with
  | [] => EmptyString
  | [p] => p
  | p :: ps => p +:+ sep +:+ join sep ps
  end.

(** [str(n)] for an integer. *)
Definition str_of_int (n : Z) : string := NilZero.string_of_int (Z.to_int n).

(** [list(s)]: the characters of [s], each as a string. *)
Fixpoint chars (s : string) : list string :=
  match s with
  | String c s' => String c EmptyString :: chars s'
  | EmptyString => []
  end.

(** [s[1:]] *)
Definition drop1 (s : string) : string :=
  match s with String _ s' => s' | EmptyString => EmptyString end.

(** [s.lower()] on code points below 256. *)
Definition lower_char (c : ascii) : ascii :=
  let n := nat_of_ascii c in
  if ((65 <=? n) && (n <=? 90)
      || (192 <=? n) && (n <=? 222) && negb (n =? 215))%nat
  then ascii_of_nat (n + 32) else c.

Fixpoint lower (s : string) : string :=
  match s with
  | String c s' => String (lower_char c) (lower s')
  | EmptyString => EmptyString
  end.

(** [l[i]] for [i] in [range(len(...))]. *)
Definition index {A} (l : list A) (i : nat) : result A :=
  match l !! i with
  | Some a => Ok a
  | None => Raise (Exn IndexErrorC "list index out of range")
  end.

(** [enumerate(xs, start)] *)
Fixpoint enumerate {A} (start : Z) (xs : list A) : list (Z * A) :=
  match xs with
  | [] => []
  | x :: xs' => (start, x) :: enumerate (start + 1) xs'
  end.

End Py.

(** ** Decoded JSON

    The values [json.loads] gives, which are the Python values the
    handler of [llm_handler.py] stores and returns.  An object lists
    each of its keys once. *)
Module Json.

Inductive value :=
  | Null
  | Bool (b : bool)
  | Int (z : Z)
  | Float (f : float)
  | Str (s : string)
  | List (l : list value)
  | Dict (d : list (string * value)).

(** [bool(v)] *)
Definition truthy (v : value) : bool :=
  match v with
  | Null => false
  | Bool b => b
  | Int z => negb (z =? 0)
  | Float f => negb (PrimFloat.eqb f 0%float)
  | Str s => Py.nonempty s
  | List l => match l with [] => false | _ => true end
  | Dict d => match d with [] => false | _ => true end
  end.

(** [type(v).__name__] *)
Definition type_name (v : value) : string :=
  match v with
  | Null => "NoneType"
  | Bool _ => "bool"
  | Int _ => "int"
  | Float _ => "float"
  | Str _ => "str"
  | List _ => "list"
  | Dict _ => "dict"
  end.

Fixpoint assoc (d : list (string * value)) (key : string) : option value :=
  match d with
  | [] => None
  | (k, v) :: d' => if decide (k = key) then Some v else assoc d' key
  end.

(** [v.get(key, default)]: only a dict has the method. *)
Definition get (v : value) (key : string) (dflt : value) : result value :=
  match v with
  | Dict d => Ok (default dflt (assoc d key))
  | _ =>
      Raise (Exn AttributeErrorC
        (Py.squote +:+ type_name v +:+ Py.squote
         +:+ " object has no attribute " +:+ Py.squote +:+ "get" +:+ Py.squote))
  end.

(** [s + v] for a string [s] *)
Definition str_add (s : string) (v : value) : result string :=
  match v with
  | Str s' => Ok (s +:+ s')
  | _ =>
      Raise (Exn TypeErrorC
        ("can only concatenate str (not " +:+ Py.dquote +:+ type_name v
         +:+ Py.dquote +:+ ") to str"))
  end.

(** [v + s] for a string [s] *)
Definition add_str (v : value) (s : string) : result string :=
  match v with
  | Str s' => Ok (s' +:+ s)
  | List _ =>
      Raise (Exn TypeErrorC
        ("can only concatenate list (not " +:+ Py.dquote +:+ "str"
         +:+ Py.dquote +:+ ") to list"))
  | _ =>
      Raise (Exn TypeErrorC
        ("unsupported operand type(s) for +: " +:+ Py.squote +:+ type_name v
         +:+ Py.squote +:+ " and " +:+ Py.squote +:+ "str" +:+ Py.squote))
  end.

End Json.

(** ** The text splitter

    [document_processor.py] imports [RecursiveCharacterTextSplitter] from
    the langchain library and configures it in [DocumentProcessor.__init__].
    The class is library code; its methods are transcribed here under the
    library's names, with the settings the source leaves at their defaults
    ([keep_separator=True], [is_separator_regex=False],
    [strip_whitespace=True], [length_function=len]). *)
Module TextSplitter.

Record t := Make {
  chunk_size : Z;
  chunk_overlap : Z;
  separators : list string
}.

(** The constructor refuses an overlap larger than the chunk size. *)
Definition init (chunk_size chunk_overlap : Z) (separators : list string)
  : result t :=
  if chunk_overlap >? chunk_size then
    Raise (Exn ValueErrorC
      ("Got a larger chunk overlap (" +:+ Py.str_of_int chunk_overlap +:+
       ") than chunk size (" +:+ Py.str_of_int chunk_size +:+
       "), should be smaller."))
  else Ok (Make chunk_size chunk_overlap separators).

(** [re.split("(" + re.escape(sep) + ")", text)] for a non-empty [sep]:
    the stretches between successive leftmost occurrences of [sep],
    with [sep] itself between any two of them.  [skip] counts the
    characters of a matched separator still to pass over; [cur] holds
    the current stretch, last character first. *)
Fixpoint re_split_capture (sep text : string) (skip : nat) (cur : list ascii)
  : list string :=
  match text with
  | EmptyString => [string_of_list_ascii (rev cur)]
  | String c rest =>
      match skip with
      | S k => re_split_capture sep rest k cur
      | O =>
          if String.prefix sep text then
            string_of_list_ascii (rev cur) :: sep ::
              re_split_capture sep rest (String.length sep - 1) []
          else re_split_capture sep rest O (c :: cur)
      end
  end.

(** [[_splits[i] + _splits[i + 1] for i in range(1, len(_splits), 2)]],
    given [_splits[1:]]. *)
Fixpoint glue_pairs (l : list string) : list string :=
  match l with
  | a :: b :: r => (a +:+ b) :: glue_pairs r
  | _ => []
  end.

(** [_split_text_with_regex(text, separator, keep_separator=True)] *)
Definition _split_text_with_regex (text separator : string) : list string :=
  let splits :=
    if Py.nonempty separator then
      let _splits := re_split_capture separator text 0 [] in
      let splits := glue_pairs (tail _splits) in
      let splits :=
        if Nat.even (length _splits)
        then splits ++ option_list (last _splits) else splits in
      option_list (head _splits) ++ splits
    else Py.chars text in
  filter (fun s => s ≠ EmptyString) splits.

(** [_join_docs]: [None] when nothing but white space is left. *)
Definition _join_docs (docs : list string) (separator : string)
  : option string :=
  let text := Py.strip (Py.join separator docs) in
  if Py.nonempty text then Some text else None.

Definition sep_if (b : bool) (separator_len : Z) : Z :=
  if b then separator_len else 0.

(** The [while] loop of [_merge_splits]: pieces are dropped from the
    front of [current_doc] while more than [chunk_overlap] characters
    are kept, or while the next piece of length [_len] would not fit. *)
Fixpoint pop_overlap (sp : t) (separator_len _len : Z)
    (current_doc : list string) (total : Z) : result (list string * Z) :=
  if (total >? chunk_overlap sp)
     || ((total + _len + sep_if (0 <? length current_doc)%nat separator_len
            >? chunk_size sp) && (total >? 0))
  then
    match current_doc with
    | [] => Raise (Exn IndexErrorC "list index out of range")
    | d :: rest =>
        pop_overlap sp separator_len _len rest
          (total - (Py.len d
                    + sep_if (1 <? length current_doc)%nat separator_len))
    end
  else Ok (current_doc, total).

Record merge_state := MergeState {
  docs : list string;
  current_doc : list string;
  total : Z
}.

(** One turn of the [for d in splits] loop of [_merge_splits]. *)
Definition merge_step (sp : t) (separator : string)
    (st : merge_state) (d : string) : result merge_state :=
  let separator_len := Py.len separator in
  let _len := Py.len d in
  st ←
    (if total st + _len
          + sep_if (0 <? length (current_doc st))%nat separator_len
        >? chunk_size sp
     then
       if (0 <? length (current_doc st))%nat then
         let docs' :=
           docs st ++ option_list (_join_docs (current_doc st) separator) in
         '(cur, tot) ←
           pop_overlap sp separator_len _len (current_doc st) (total st);
         Ok (MergeState docs' cur tot)
       else Ok st
     else Ok st);
  let cur := current_doc st ++ [d] in
  Ok (MergeState (docs st) cur
        (total st + (_len + sep_if (1 <? length cur)%nat separator_len))).

Definition _merge_splits (sp : t) (splits : list string) (separator : string)
  : result (list string) :=
  st ← for_each (merge_step sp separator) splits (MergeState [] [] 0);
  Ok (docs st ++ option_list (_join_docs (current_doc st) separator)).


(** The second half of [_split_text]: split on [separator], merge the
    short pieces and hand each long one to [deeper] (the recursive call
    on [new_separators]), or keep it whole when there is none. *)
Definition split_and_merge (sp : t) (separator : string)
    (deeper : option (string -> result (list string))) (text : string)
  : result (list string) :=
  let splits := _split_text_with_regex text separator in
  let _separator := EmptyString in
  let flush (final_chunks _good_splits : list string) :=
    if (0 <? length _good_splits)%nat then
      merged_text ← _merge_splits sp _good_splits _separator;
      Ok (final_chunks ++ merged_text)
    else Ok final_chunks in
  '(final_chunks, _good_splits) ←
    for_each
      (fun '(final_chunks, _good_splits) s =>
         if Py.len s <? chunk_size sp then
           Ok (final_chunks, _good_splits ++ [s])
         else
           final_chunks ← flush final_chunks _good_splits;
           match deeper with
           | None => Ok (final_chunks ++ [s], [])
           | Some split_deeper =>
               other_info ← split_deeper s;
               Ok (final_chunks ++ other_info, [])
           end)
      splits ([], []);
  flush final_chunks _good_splits.

(** [_split_text(text, separators)].  The recursion follows the
    separator loop: a separator that does not qualify is passed over,
    which is the loop's next turn, and the recursive call on the long
    pieces takes the separators after the chosen one
    ([_split_text_select] below states it with [select_separator]). *)
Fixpoint _split_text (sp : t) (separators : list string) (text : string)
  {struct separators} : result (list string) :=
  match separators with
  | [] => Raise (Exn IndexErrorC "list index out of range")
  | _s :: rest =>
      let deeper :=
        match rest with
        | [] => None
        | _ => Some (_split_text sp rest)
        end in
      if decide (_s = EmptyString) then split_and_merge sp _s None text
      else if Py.contains _s text then split_and_merge sp _s deeper text
      else
        match rest with
        | [] => split_and_merge sp _s None text
        | _ => _split_text sp rest text
        end
  end.

Definition split_text (sp : t) (text : string) : result (list string) :=
  _split_text sp (separators sp) text.

End TextSplitter.

(** ** document_processor.py *)
Module DocumentProcessor.

(** What the file readers of the extraction functions deliver:
    [PdfReader(path).pages] with [extract_text()] of each page,
    the paragraph texts of [docx.Document(path)], the text [open(path)]
    reads, and [os.path.splitext]. *)
Class Files := {
  pdf_page_texts : string -> result (list string);
  docx_paragraph_texts : string -> result (list string);
  read_utf8 : string -> result string;
  splitext : string -> string * string
}.

Record page_data := PageData {
  pd_text : string;
  pd_page : Z;
  pd_total_pages : Z
}.

Record metadata := Metadata {
  document : string;
  page : option Z;
  chunk_id : string;
  source_type : string
}.

Record chunk := Chunk {
  text : string;
  meta : metadata
}.

Record t := Make {
  chunk_size : Z;
  chunk_overlap : Z;
  text_splitter : TextSplitter.t
}.

(** [DocumentProcessor.__init__].  The separator strings are the ones
    the source spells: it writes each with a doubled backslash, so
    the first is four characters long (a backslash, the letter n, a
    backslash, the letter n) and holds no line feed. *)
Definition configured_separators : list string := ["\n\n"; "\n"; " "; ""].

Definition __init__ (chunk_size chunk_overlap : Z) : result t :=
  text_splitter ←
    TextSplitter.init chunk_size chunk_overlap configured_separators;
  Ok (Make chunk_size chunk_overlap text_splitter).

Definition default_chunk_size : Z := 1000.
Definition default_chunk_overlap : Z := 200.

(** [try: ... except Exception as e: raise Exception(prefix + str(e))] *)
Definition reraise {A} (prefix : string) (r : result A) : result A :=
  match r with
  | Ok a => Ok a
  | Raise e => Raise (Exn ExceptionC (prefix +:+ exn_str e))
  end.

Definition extract_text_from_pdf `{Files} (file_path : string)
  : result (list page_data) :=
  reraise "Error reading PDF: "
    (pages ← pdf_page_texts file_path;
     Ok (fold_left
           (fun pages_data '(page_num, text) =>
              if Py.nonempty (Py.strip text)
              then pages_data ++ [PageData text page_num (Z.of_nat (length pages))]
              else pages_data)
           (Py.enumerate 1 pages) [])).

Definition extract_text_from_docx `{Files} (file_path : string)
  : result (list page_data) :=
  reraise "Error reading DOCX: "
    (paragraphs ← docx_paragraph_texts file_path;
     let text :=
       Py.join "\n"
         (filter (fun p => Py.nonempty (Py.strip p) = true) paragraphs) in
     Ok [PageData text 1 1]).

Definition extract_text_from_txt `{Files} (file_path : string)
  : result (list page_data) :=
  reraise "Error reading TXT: "
    (text ← read_utf8 file_path;
     Ok [PageData text 1 1]).

(** The identifier [f"{filename}_page{page_num}_chunk{chunk_idx}"]. *)
Definition format_chunk_id (filename : string) (page_num chunk_idx : Z)
  : string :=
  filename +:+ "_page" +:+ Py.str_of_int page_num
           +:+ "_chunk" +:+ Py.str_of_int chunk_idx.

(** The inner loop of [process_document]: the chunks of one page. *)
Definition add_page_chunks (filename file_ext : string) (page_num : Z)
    (text_chunks : list string) (all_chunks : list chunk) : list chunk :=
  fold_left
    (fun all_chunks '(chunk_idx, c) =>
       all_chunks ++
         [Chunk c (Metadata filename (Some page_num)
                     (format_chunk_id filename page_num chunk_idx)
                     (Py.drop1 file_ext))])
    (Py.enumerate 0 text_chunks) all_chunks.

Definition extract `{Files} (file_ext file_path : string)
  : result (list page_data) :=
  if decide (file_ext = ".pdf") then extract_text_from_pdf file_path
  else if decide (file_ext = ".docx") then extract_text_from_docx file_path
  else if decide (file_ext = ".txt") then extract_text_from_txt file_path
  else Raise (Exn ValueErrorC ("Unsupported file type: " +:+ file_ext)).

Definition process_document `{Files} (self : t) (file_path filename : string)
  : result (list chunk) :=
  let file_ext := Py.lower (snd (splitext filename)) in
  pages_data ← extract file_ext file_path;
  for_each
    (fun all_chunks page_data =>
       text_chunks ←
         TextSplitter.split_text (text_splitter self) (pd_text page_data);
       Ok (add_page_chunks filename file_ext (pd_page page_data)
             text_chunks all_chunks))
    pages_data [].

End DocumentProcessor.

(** ** vector_store.py *)
Module VectorStore.
Import DocumentProcessor.

(** The embedding model ([SentenceTransformer.encode] on one text) and
    the distance of the collection ([hnsw:space = cosine]).  Distances
    are floating-point numbers in the source; only their order is used,
    and it is taken total and transitive. *)
Class Space := {
  vector : Type;
  encode : string -> vector;
  dist : Type;
  distance : vector -> vector -> dist;
  dist_le : relation dist;
  dist_le_dec :: RelDecision dist_le;
  dist_le_total :: Total dist_le;
  dist_le_trans :: Transitive dist_le
}.

Section with_space.
Context `{Space}.

Record entry := Entry {
  e_embedding : vector;
  e_document : string;
  e_metadata : metadata
}.

(** *** The chromadb collection

    [self.collection] is an object of the chromadb library (0.4 and
    later, the versions with [PersistentClient]).  Its records are keyed
    by id.  [Collection.add] checks the batch (ids present, one
    embedding, document and metadata per id, no id twice) and then
    stores each record whose id the collection does not hold yet: a
    record whose id is already there is passed over with a logged
    warning, and the stored one stays ([Collection.upsert], which the
    source does not call, is the method that overwrites). *)
Definition collection_add (col : gmap string entry) (ids : list string)
    (embeddings : list vector) (documents : list string)
    (metadatas : list metadata) : result (gmap string entry) :=
  if decide (ids = []) then
    Raise (Exn ValueErrorC "Expected IDs to be a non-empty list")
  else if negb ((length embeddings =? length ids)%nat
                && (length documents =? length ids)%nat
                && (length metadatas =? length ids)%nat) then
    Raise (Exn ValueErrorC "Unequal lengths for fields")
  else if decide (NoDup ids) then
    Ok (fold_left
          (fun col '(id, (emb, (doc, md))) =>
             match col !! id with
             | Some _ => col
             | None => <[id := Entry emb doc md]> col
             end)
          (zip ids (zip embeddings (zip documents metadatas))) col)
  else Raise (Exn (OtherError "DuplicateIDError")
                "Expected IDs to be unique").

(** [Collection.count] *)
Definition collection_count (col : gmap string entry) : Z :=
  Z.of_nat (size col).

(** What [Collection.query] returns for the fields the source includes:
    one inner list per query embedding. *)
Record query_result := QueryResult {
  qr_documents : list (list string);
  qr_metadatas : list (list metadata);
  qr_distances : list (list dist)
}.

Definition closer (q : vector) (a b : string * entry) : Prop :=
  dist_le (distance q (e_embedding a.2)) (distance q (e_embedding b.2)).

Global Instance closer_dec q : RelDecision (closer q).
Proof. intros a b. unfold closer. apply _. Defined.

(** The [n_results] records nearest to [q], nearest first; all records
    when the collection holds fewer (the library lowers [n_results] to
    the size of the collection).  The library's index search is taken
    to be exact. *)
Definition nearest (col : gmap string entry) (q : vector) (n_results : Z)
  : list (string * entry) :=
  take (Z.to_nat n_results) (merge_sort (closer q) (map_to_list col)).

(** [Collection.query]: a number of results below one is refused. *)
Definition collection_query (col : gmap string entry)
    (query_embeddings : list vector) (n_results : Z) : result query_result :=
  if n_results <=? 0 then
    Raise (Exn TypeErrorC
      ("Number of requested results " +:+ Py.str_of_int n_results +:+
       ", cannot be negative, or zero."))
  else
    let hits := map (fun q => nearest col q n_results) query_embeddings in
    Ok (QueryResult
          (map (map (fun h => e_document h.2)) hits)
          (map (map (fun h => e_metadata h.2)) hits)
          (map (fun '(q, hs) => map (fun h => distance q (e_embedding h.2)) hs)
               (zip query_embeddings hits))).

(** *** The manager *)
Record t := Make {
  collection_name : string;
  client : string;
  collection : gmap string entry
}.

Definition default_collection_name : string := "documind_collection".

(** The services [__init__] calls: [chromadb.PersistentClient(path)],
    [shutil.rmtree(path, ignore_errors=True)] inside its own
    [try/except Exception: pass], [os.makedirs(path, exist_ok=True)],
    [int(time.time())], the loading of the embedding model, and the
    client's [get_collection] and [create_collection]. *)
Class Storage (W : Type) := {
  persistent_client : string -> M W unit;
  rmtree : string -> W -> W;
  makedirs : string -> M W unit;
  unix_time : W -> Z;
  load_embedding_model : string -> M W unit;
  get_collection : string -> string -> M W (gmap string entry);
  create_collection : string -> string -> M W (gmap string entry)
}.

Definition is_inconsistent_hash (e : exn) : bool :=
  match exn_cls e with InconsistentHashErrorC => true | _ => false end.

Definition db_path : string := "./chroma_db".

Definition fresh_path (now : Z) : string :=
  "./chroma_db_" +:+ Py.str_of_int now.

Section with_storage.
Context {W : Type} `{Storage W}.

(** The last resort of both handlers: a new directory named after the
    clock. *)
Definition open_fresh : M W string :=
  now ← gets unix_time;
  _ ← makedirs (fresh_path now);
  _ ← persistent_client (fresh_path now);
  mret (fresh_path now).

Definition open_at (path : string) : M W string :=
  _ ← persistent_client path; mret path.

(** The client of [__init__]: the path it ends up open at. *)
Definition open_client : M W string :=
  try_except (open_at db_path)
    [ (is_inconsistent_hash, fun _ =>
         _ ← modify (rmtree db_path);
         try_except (open_at db_path)
           [ (is_inconsistent_hash, fun _ => open_fresh) ]);
      (any_exception, fun _ =>
         _ ← modify (rmtree db_path);
         try_except (open_at db_path)
           [ (any_exception, fun _ => open_fresh) ]) ].

Definition __init__ (collection_name : string) : M W t :=
  client ← open_client;
  _ ← load_embedding_model "all-MiniLM-L6-v2";
  collection ←
    try_except (get_collection client collection_name)
      [ (any_exception, fun _ => create_collection client collection_name) ];
  mret (Make collection_name client collection).

End with_storage.

(** [generate_embeddings] *)
Definition generate_embeddings (texts : list string) : list vector :=
  map encode texts.

(** The body [create_vector_store] and [add_documents] share: embed the
    texts and add them to the collection under their chunk ids. *)
Definition add_chunks (self : t) (chunks : list chunk) : result t :=
  let texts := map text chunks in
  let metadatas := map meta chunks in
  let ids := map (fun c => chunk_id (meta c)) chunks in
  let embeddings := generate_embeddings texts in
  collection ← collection_add (collection self) ids embeddings texts metadatas;
  Ok (Make (collection_name self) (client self) collection).

(** [create_vector_store] adds the chunks and returns the collection. *)
Definition create_vector_store (self : t) (chunks : list chunk)
  : result (t * gmap string entry) :=
  self ← add_chunks self chunks;
  Ok (self, collection self).

(** [add_documents] *)
Definition add_documents (self : t) (chunks : list chunk) : result t :=
  add_chunks self chunks.

Record search_hit := SearchHit {
  hit_text : string;
  hit_metadata : metadata;
  hit_distance : dist
}.

(** [search_similar] *)
Definition search_similar (self : t) (query : string) (k : Z)
  : result (list search_hit) :=
  query_embedding ← Py.index (generate_embeddings [query]) 0;
  results ← collection_query (collection self) [query_embedding] k;
  match qr_documents results with
  | [] => Ok []
  | [] :: _ => Ok []
  | documents0 :: _ =>
      for_each
        (fun formatted_results i =>
           metadatas0 ← Py.index (qr_metadatas results) 0;
           distances0 ← Py.index (qr_distances results) 0;
           d ← Py.index documents0 i;
           m ← Py.index metadatas0 i;
           x ← Py.index distances0 i;
           Ok (formatted_results ++ [SearchHit d m x]))
        (seq 0 (length documents0)) []
  end.

Record collection_stats := Stats {
  total_documents : Z;
  stats_collection_name : string
}.

(** [get_collection_stats] *)
Definition get_collection_stats (self : t) : collection_stats :=
  Stats (collection_count (collection self)) (collection_name self).

End with_space.
End VectorStore.

(** ** llm_handler.py *)
Module LLMHandler.
Import DocumentProcessor VectorStore.

(** What [subprocess.run(..., capture_output=True, text=True)] returns. *)
Record completed := Completed {
  stdout : string;
  stderr : string
}.

(** The services the handler calls: [json.loads], [str] on a decoded
    value that is not a string, [subprocess.run] with its argument list
    and time-out (it raises on a time-out or when the program cannot be
    launched), [os.environ.get], and the path of [ollama_worker.py]
    beside the module. *)
Class Runtime (W : Type) := {
  json_loads : string -> result Json.value;
  py_str : Json.value -> string;
  subprocess_run : list string -> Z -> M W completed;
  environ_get : string -> W -> option string;
  worker_script : string
}.

(** The fields of an [LLMHandler] object. *)
Record t := Make {
  model : string;
  ollama_error_message : Json.value;
  ollama_python : string;
  ollama_available : bool
}.

(** The object together with the world it acts on, the argument lists of
    the child processes started so far, and the number of calls of
    [generate_answer] so far (both kept for the statements only). *)
Record state (W : Type) := State {
  self : t;
  world : W;
  spawned : list (list string);
  answer_calls : nat
}.
Arguments State {W}.
Arguments self {W}.
Arguments world {W}.
Arguments spawned {W}.
Arguments answer_calls {W}.

(** A citation record of the answer. *)
Record source := Source {
  src_document : string;
  src_page : Json.value;
  src_text : string
}.

Definition default_model : string := "llama3.1:8b".

Definition not_configured_message : string :=
  "Secondary venv Python not configured. Set OLLAMA_PY to the python.exe "
  +:+ "of the Ollama venv (e.g., C:\GIT\DocuMind\.venv_ollama\Scripts\python.exe).".

Definition system_prompt : string :=
  "You are an intelligent document assistant. Your task is to answer questions based ONLY on the provided context from documents."
  +:+ Py.lf +:+ Py.lf
  +:+ "Guidelines:" +:+ Py.lf
  +:+ "1. Answer the question using only the information from the provided sources" +:+ Py.lf
  +:+ "2. Be concise and accurate" +:+ Py.lf
  +:+ "3. If the context doesn't contain relevant information, say so" +:+ Py.lf
  +:+ "4. Reference specific sources when making claims (e.g., " +:+ Py.dquote
  +:+ "According to Source 1..." +:+ Py.dquote +:+ ")" +:+ Py.lf
  +:+ "5. Maintain a professional and helpful tone" +:+ Py.lf
  +:+ "6. Do not make up information or use knowledge outside the provided context"
  +:+ Py.lf.

Definition summary_system_prompt : string :=
  "You are a helpful assistant that creates concise summaries.".

Definition unavailable_prefix : string := "LLM is unavailable. ".
Definition no_response_message : string := "No response from Ollama worker.".
Definition venv_hint : string :=
  "Please ensure the Ollama worker venv is configured.".

Section with_runtime.
Context `{Space} {W : Type} `{Runtime W}.

(** [f"{v}"] *)
Definition format (v : Json.value) : string :=
  match v with
  | Json.Str s => s
  | _ => py_str v
  end.

Definition set_error_message (v : Json.value) : M (state W) unit :=
  modify (fun st =>
    State (Make (model (self st)) v (ollama_python (self st))
             (ollama_available (self st)))
      (world st) (spawned st) (answer_calls st)).

Definition set_available (b : bool) : M (state W) unit :=
  modify (fun st =>
    State (Make (model (self st)) (ollama_error_message (self st))
             (ollama_python (self st)) b)
      (world st) (spawned st) (answer_calls st)).

(** [subprocess.run(argv, capture_output=True, text=True, timeout=...)] *)
Definition spawn (argv : list string) (timeout : Z) : M (state W) completed :=
  fun st =>
    let '(r, w) := subprocess_run argv timeout (world st) in
    (r, State (self st) w (spawned st ++ [argv]) (answer_calls st)).

(** The command line of the availability check. *)
Definition check_argv (python : string) : list string :=
  [python; worker_script; "--check"].

(** The body of the inner [try] of [__init__]: decode the check's
    output. *)
Definition read_check (out : string) : M (state W) bool :=
  try_except
    (data ← lift_result (json_loads (Py.strip out));
     ok_field ← lift_result (Json.get data "ok" Json.Null);
     let ok := Json.truthy ok_field in
     _ ← (if negb ok then
            err ← lift_result (Json.get data "error" (Json.Str "Unknown error"));
            set_error_message err
          else mret tt);
     mret ok)
    [ (any_exception, fun _ =>
         _ ← set_error_message (Json.Str (Py.strip out)); mret false) ].

(** [LLMHandler.__init__], run on the object with its fields at their
    first values. *)
Definition probe : M (state W) unit :=
  python ← gets (fun st => ollama_python (self st));
  if Py.nonempty python then
    try_except
      (res ← spawn (check_argv python) 8;
       ok ← (if Py.nonempty (stdout res) then read_check (stdout res)
             else mret false);
       _ ← (if Py.nonempty (stderr res) && negb ok then
              message ← gets (fun st => ollama_error_message (self st));
              joined ← lift_result (Json.add_str message Py.lf);
              set_error_message
                (Json.Str (Py.strip (joined +:+ Py.strip (stderr res))))
            else mret tt);
       _ ← set_available ok;
       message ← gets (fun st => ollama_error_message (self st));
       if negb ok && negb (Json.truthy message) then
         set_error_message (Json.Str "Ollama worker check failed.")
       else mret tt)
      [ (any_exception, fun e =>
           _ ← set_available false;
           set_error_message
             (Json.Str ("Failed to execute Ollama worker: " +:+ exn_str e))) ]
  else set_error_message (Json.Str not_configured_message).

Definition __init__ (model : string) (ollama_python_path : option string)
    (w : W) : result unit * state W :=
  let python :=
    match ollama_python_path with
    | Some p => if Py.nonempty p then p
                else default EmptyString (environ_get "OLLAMA_PY" w)
    | None => default EmptyString (environ_get "OLLAMA_PY" w)
    end in
  probe (State (Make model (Json.Str EmptyString) python false) w [] 0).

(** [create_context] *)
Definition create_context (relevant_docs : list search_hit) : result string :=
  context_parts ←
    for_each
      (fun context_parts '(i, doc) =>
         let metadata := hit_metadata doc in
         let text := hit_text doc in
         page ←
           match page metadata with
           | Some p => Ok p
           | None => Raise (Exn KeyErrorC (Py.squote +:+ "page" +:+ Py.squote))
           end;
         Ok (context_parts ++
               [Py.lf +:+ "Source " +:+ Py.str_of_int i +:+ " (Document: "
                +:+ document metadata +:+ ", Page: " +:+ Py.str_of_int page
                +:+ "):" +:+ Py.lf +:+ text +:+ Py.lf]))
      (Py.enumerate 1 relevant_docs) [];
  Ok (Py.join Py.lf context_parts).

(** The loop that formats the sources, the same in both branches of
    [generate_answer]. *)
Definition format_sources (relevant_docs : list search_hit) : list source :=
  fold_left
    (fun sources doc =>
       sources ++
         [Source (document (hit_metadata doc))
            (match page (hit_metadata doc) with
             | Some p => Json.Int p
             | None => Json.Str "N/A"
             end)
            (hit_text doc)])
    relevant_docs [].

Definition user_prompt (context query : string) : string :=
  "Context from documents:" +:+ Py.lf +:+ context +:+ Py.lf +:+ Py.lf
  +:+ "Question: " +:+ query +:+ Py.lf +:+ Py.lf
  +:+ "Please provide a comprehensive answer based on the context above. Reference the sources you use.".

Definition chat_argv (self : t) (user_prompt : string) : list string :=
  [ ollama_python self; worker_script;
    "--model"; model self;
    "--mode"; "chat";
    "--system"; system_prompt;
    "--user"; user_prompt;
    "--temperature"; "0.7";
    "--num_predict"; "500" ].

(** The decoding of the chat output: the inner [try] of
    [generate_answer]. *)
Definition read_answer (out : string) : result Json.value :=
  match
    (payload ← json_loads (Py.strip out);
     ok_field ← Json.get payload "ok" Json.Null;
     if Json.truthy ok_field then Json.get payload "answer" (Json.Str EmptyString)
     else
       err ← Json.get payload "error" (Json.Str "Unknown error");
       Ok (Json.Str ("Error generating response: " +:+ format err)))
  with
  | Ok answer => Ok answer
  | Raise _ => Ok (Json.Str (Py.strip out))
  end.

(** From the finished child process to the answer. *)
Definition answer_of_output (res : completed) : result Json.value :=
  answer ← (if Py.nonempty (stdout res) then read_answer (stdout res)
            else Ok (Json.Str EmptyString));
  let answer :=
    if negb (Json.truthy answer) && Py.nonempty (stderr res)
    then Json.Str ("Error generating response: " +:+ Py.strip (stderr res))
    else answer in
  let answer :=
    if negb (Json.truthy answer) then Json.Str no_response_message
    else answer in
  Ok answer.

Definition count_answer_call : M (state W) unit :=
  modify (fun st =>
    State (self st) (world st) (spawned st) (S (answer_calls st))).

(** [generate_answer] *)
Definition generate_answer (query : string) (relevant_docs : list search_hit)
  : M (state W) (Json.value * list source) :=
  _ ← count_answer_call;
  self ← gets self;
  if negb (ollama_available self) then
    answer ←
      lift_result (Json.str_add unavailable_prefix (ollama_error_message self));
    mret (Json.Str answer, format_sources relevant_docs)
  else
    context ← lift_result (create_context relevant_docs);
    answer ←
      try_except
        (res ← spawn (chat_argv self (user_prompt context query)) 60;
         lift_result (answer_of_output res))
        [ (any_exception, fun e =>
             mret (Json.Str ("Error generating response: " +:+ exn_str e
                             +:+ Py.lf +:+ venv_hint))) ];
    mret (answer, format_sources relevant_docs).

Definition summary_argv (self : t) (text : string) : list string :=
  [ ollama_python self; worker_script;
    "--model"; model self;
    "--mode"; "summary";
    "--system"; summary_system_prompt;
    "--user";
    "Please provide a concise summary of the following text:"
      +:+ Py.lf +:+ Py.lf +:+ text;
    "--temperature"; "0.5";
    "--num_predict"; "200" ].

Definition read_summary (out : string) : result Json.value :=
  match
    (payload ← json_loads (Py.strip out);
     ok_field ← Json.get payload "ok" Json.Null;
     if Json.truthy ok_field then Json.get payload "answer" (Json.Str EmptyString)
     else
       err ← Json.get payload "error" (Json.Str "Unknown error");
       Ok (Json.Str ("Error generating summary: " +:+ format err)))
  with
  | Ok answer => Ok answer
  | Raise _ => Ok (Json.Str (Py.strip out))
  end.

Definition summary_of_output (res : completed) : result Json.value :=
  if Py.nonempty (stdout res) then read_summary (stdout res)
  else if Py.nonempty (stderr res) then
    Ok (Json.Str ("Error generating summary: " +:+ Py.strip (stderr res)))
  else Ok (Json.Str no_response_message).

(** [generate_summary] *)
Definition generate_summary (text : string) : M (state W) Json.value :=
  self ← gets self;
  if negb (ollama_available self) then
    answer ←
      lift_result (Json.str_add unavailable_prefix (ollama_error_message self));
    mret (Json.Str answer)
  else
    try_except
      (res ← spawn (summary_argv self text) 60;
       lift_result (summary_of_output res))
      [ (any_exception, fun e =>
           mret (Json.Str ("Error generating summary: " +:+ exn_str e
                           +:+ Py.lf +:+ venv_hint))) ].

End with_runtime.
End LLMHandler.

(** ** app.py: the chat step *)
Module App.
Import DocumentProcessor VectorStore LLMHandler.

(** One entry of [st.session_state.chat_history]; a user entry has no
    ["sources"] key. *)
Record chat_turn := Turn {
  role : string;
  content : Json.value;
  sources : option (list source)
}.

Definition no_information_message : string :=
  "I couldn't find relevant information in the documents to answer your question.".

Section with_services.
Context `{Space} {W : Type} `{Runtime W}.

Record session := Session {
  vector_store : option (gmap string entry);
  chat_history : list chat_turn;
  documents_indexed : list string
}.

(** The two cached components and the session state. *)
Record app := Make {
  vector_manager : VectorStore.t;
  llm_handler : LLMHandler.state W;
  session_state : session
}.

(** [st.session_state.chat_history.append(turn)] *)
Definition append_turn (turn : chat_turn) : M app unit :=
  modify (fun a =>
    Make (vector_manager a) (llm_handler a)
      (Session (vector_store (session_state a))
         (chat_history (session_state a) ++ [turn])
         (documents_indexed (session_state a)))).

(** A method call on [llm_handler]. *)
Definition on_llm_handler {A} (m : M (LLMHandler.state W) A) : M app A :=
  fun a =>
    let '(r, l) := m (llm_handler a) in
    (r, Make (vector_manager a) l (session_state a)).

(** The body of [if query:] (the rendering calls of streamlit, which
    show what is appended to the history, are left out). *)
Definition answer_query (query : string) : M app unit :=
  _ ← append_turn (Turn "user" (Json.Str query) None);
  vm ← gets vector_manager;
  relevant_docs ← lift_result (search_similar vm query 4);
  if (0 <? length relevant_docs)%nat then
    '(answer, sources) ← on_llm_handler (generate_answer query relevant_docs);
    append_turn (Turn "assistant" answer (Some sources))
  else
    append_turn (Turn "assistant" (Json.Str no_information_message) (Some [])).

(** The chat input of one script run: [typed] is what [st.chat_input]
    returns. *)
Definition chat (typed : option string) : M app unit :=
  a ← gets session_state;
  match vector_store a with
  | None => mret tt
  | Some _ =>
      match typed with
      | Some query => if Py.nonempty query then answer_query query else mret tt
      | None => mret tt
      end
  end.

End with_services.
End App.

(** ** Concrete services for the examples *)
Module Examples.
Import DocumentProcessor.

(** [os.path.splitext] on a plain file name: the extension starts at the
    last dot, unless the name has no dot past its first character. *)
Fixpoint last_dot (s : string) : option (string * string) :=
  match s with
  | EmptyString => None
  | String c s' =>
      match last_dot s' with
      | Some (stem, ext) => Some (String c stem, ext)
      | None =>
          if Ascii.eqb c "."%char then Some (EmptyString, s) else None
      end
  end.

Definition splitext_plain (name : string) : string * string :=
  match name with
  | String c rest =>
      match last_dot rest with
      | Some (stem, ext) => (String c stem, ext)
      | None => (name, EmptyString)
      end
  | EmptyString => (EmptyString, EmptyString)
  end.

Definition missing {A} : result A :=
  Raise (Exn (OtherError "FileNotFoundError") "No such file or directory").

(** A directory with one PDF of three pages, the second one blank. *)
Definition files : Files := {|
  pdf_page_texts path :=
    if decide (path = "/tmp/upload1.pdf")
    then Ok ["Alpha beta gamma."; "   "; "Delta epsilon zeta eta theta."]
    else missing;
  docx_paragraph_texts _ := missing;
  read_utf8 _ := missing;
  splitext := splitext_plain
|}.

Definition processor : DocumentProcessor.t :=
  DocumentProcessor.Make 20 5
    (TextSplitter.Make 20 5 configured_separators).

Definition report_chunks : list chunk :=
  let md page_num id := Metadata "Report.PDF" (Some page_num) id "pdf" in
  [ Chunk "Alpha beta gamma." (md 1 "Report.PDF_page1_chunk0");
    Chunk "Delta epsilon zeta" (md 3 "Report.PDF_page3_chunk0");
    Chunk "zeta eta theta." (md 3 "Report.PDF_page3_chunk1") ].

(** The example of the specification's section 8. *)
Definition two_paragraphs : string :=
  "Paragraph one." +:+ Py.lf +:+ Py.lf
  +:+ "Paragraph two is longer than chunk size...".

(** An embedding on the number line: a text goes to its length, and the
    distance of two points is the absolute difference. *)
Definition by_length : VectorStore.Space := {|
  VectorStore.vector := Z;
  VectorStore.encode := Py.len;
  VectorStore.dist := Z;
  VectorStore.distance a b := Z.abs (a - b);
  VectorStore.dist_le := Z.le
|}.

Definition note_id : string := "notes.txt_page1_chunk0".

Definition note : chunk :=
  Chunk "first draft" (Metadata "notes.txt" (Some 1) note_id "txt").

(** The same identifier with another text, as a second upload of an
    edited [notes.txt] gives. *)
Definition note_revised : chunk :=
  Chunk "second draft, longer" (Metadata "notes.txt" (Some 1) note_id "txt").

Definition other_note : chunk :=
  Chunk "appendix" (Metadata "extra.txt" (Some 1) "extra.txt_page1_chunk0" "txt").

Definition entry_of (c : chunk) : @VectorStore.entry by_length :=
  VectorStore.Entry (VectorStore.encode (text c)) (text c) (meta c).

(** An index that holds the first draft and the appendix. *)
Definition store : @VectorStore.t by_length :=
  VectorStore.Make VectorStore.default_collection_name VectorStore.db_path
    (<[note_id := entry_of note]>
       (<["extra.txt_page1_chunk0" := entry_of other_note]> ∅)).

(** A disk whose answers to the successive calls of [PersistentClient]
    are scripted; once the script is used up every call succeeds.  No
    collection exists on it yet. *)
Record disk := Disk {
  pending : list (result unit);
  clock : Z
}.

Definition scripted_storage : @VectorStore.Storage by_length disk := {|
  VectorStore.persistent_client _ d :=
    match pending d with
    | [] => (Ok tt, d)
    | r :: rest => (r, Disk rest (clock d))
    end;
  VectorStore.rmtree _ d := d;
  VectorStore.makedirs _ d := (Ok tt, d);
  VectorStore.unix_time := clock;
  VectorStore.load_embedding_model _ d := (Ok tt, d);
  VectorStore.get_collection _ _ d :=
    (Raise (Exn ValueErrorC "Collection does not exist."), d);
  VectorStore.create_collection _ _ d := (Ok ∅, d)
|}.

Definition hash_error : exn :=
  Exn InconsistentHashErrorC "Inconsistent hashes in migration files".

Definition locked_error : exn :=
  Exn (OtherError "OperationalError") "unable to open database file".

(** The store is inconsistent, and after the directory is removed the
    reopening fails for another reason; a third call would succeed. *)
Definition damaged_disk : disk := Disk [Raise hash_error; Raise locked_error] 1730000000.

(** A host whose answers to the successive calls of [subprocess.run]
    are scripted (a call past the script finds no program to start), and
    whose environment may set [OLLAMA_PY]. *)
Record host := Host {
  replies : list (result LLMHandler.completed);
  env_ollama_py : option string
}.

Definition quoted (s : string) : string := Py.dquote +:+ s +:+ Py.dquote.

(** The worker's replies used below, as [print(json.dumps(...))] writes
    them. *)
Definition reply_ok : string :=
  "{" +:+ quoted "ok" +:+ ": true}" +:+ Py.lf.

Definition reply_refused : string :=
  "{" +:+ quoted "ok" +:+ ": false, " +:+ quoted "error" +:+ ": "
  +:+ quoted "connection refused" +:+ "}" +:+ Py.lf.

Definition reply_answer : string :=
  "{" +:+ quoted "ok" +:+ ": true, " +:+ quoted "answer" +:+ ": "
  +:+ quoted "See Source 1." +:+ "}" +:+ Py.lf.

Definition reply_number : string :=
  "{" +:+ quoted "ok" +:+ ": true, " +:+ quoted "answer" +:+ ": 42}" +:+ Py.lf.

Definition reply_traceback : string :=
  "Traceback (most recent call last): boom" +:+ Py.lf.

(** [json.loads] on those replies; any other text is refused, as the
    traceback is. *)
Definition decode (s : string) : result Json.value :=
  if decide (s = Py.strip reply_ok) then
    Ok (Json.Dict [("ok", Json.Bool true)])
  else if decide (s = Py.strip reply_refused) then
    Ok (Json.Dict [("ok", Json.Bool false);
                   ("error", Json.Str "connection refused")])
  else if decide (s = Py.strip reply_answer) then
    Ok (Json.Dict [("ok", Json.Bool true);
                   ("answer", Json.Str "See Source 1.")])
  else if decide (s = Py.strip reply_number) then
    Ok (Json.Dict [("ok", Json.Bool true); ("answer", Json.Int 42)])
  else Raise (Exn ValueErrorC "Expecting value: line 1 column 1 (char 0)").

Definition scripted_runtime : LLMHandler.Runtime host := {|
  LLMHandler.json_loads := decode;
  LLMHandler.py_str v :=
    match v with
    | Json.Int z => Py.str_of_int z
    | Json.Bool true => "True"
    | Json.Bool false => "False"
    | _ => "None"
    end;
  LLMHandler.subprocess_run _ _ h :=
    match replies h with
    | [] => (Raise (Exn (OtherError "FileNotFoundError")
                      "[Errno 2] No such file or directory"), h)
    | r :: rest => (r, Host rest (env_ollama_py h))
    end;
  LLMHandler.environ_get name h :=
    if decide (name = "OLLAMA_PY") then env_ollama_py h else None;
  LLMHandler.worker_script := "/app/ollama_worker.py"
|}.

Definition python : string := "/venv/bin/python".

(** A handler whose check was refused, and one whose check passed. *)
Definition refused : LLMHandler.t :=
  LLMHandler.Make LLMHandler.default_model (Json.Str "connection refused")
    python false.

Definition ready : LLMHandler.t :=
  LLMHandler.Make LLMHandler.default_model (Json.Str EmptyString) python true.

Definition on_host (self : LLMHandler.t) (h : host) : LLMHandler.state host :=
  LLMHandler.State self h [] 0.

(** Two retrieved chunks, the second without a page. *)
Definition hits : list (@VectorStore.search_hit by_length) :=
  [ @VectorStore.SearchHit by_length "first draft" (meta note) 6;
    @VectorStore.SearchHit by_length "loose sheet"
      (Metadata "sheet.txt" None "sheet.txt_page1_chunk0" "txt") 9 ].

(** The host on which the chat process prints a traceback. *)
Definition crashing : host :=
  Host [Ok (LLMHandler.Completed reply_traceback EmptyString)] None.

(** The context [create_context] builds for the first hit alone. *)
Definition first_hit_context : string :=
  Py.lf +:+ "Source 1 (Document: notes.txt, Page: 1):" +:+ Py.lf
  +:+ "first draft" +:+ Py.lf.

(** The application after another session cleared the shared index: the
    collection is empty, this session still holds its collection
    object. *)
Definition cleared : @App.app by_length host :=
  App.Make
    (VectorStore.Make VectorStore.default_collection_name VectorStore.db_path ∅)
    (on_host ready (Host [] None))
    (App.Session (Some ∅) [] ["notes.txt"]).


Definition open_chunk : TextSplitter.merge_state :=
  TextSplitter.MergeState ["Paragraph"]
    [" one." +:+ Py.lf +:+ Py.lf +:+ "Paragraph"; " two"] 20.

End Examples.

(** ** Vocabulary of the statements *)

(** The characters of a list of pieces, counted. *)
Definition pieces_len (pieces : list string) : Z :=
  foldr (fun s n => Py.len s + n) 0 pieces.

(** The last [n] characters of [s] (all of [s] when it is shorter). *)
Definition tail_chars (n : nat) (s : string) : string :=
  String.substring (String.length s - n) n s.

(** Each chunk but the last hands its last [n] characters to the next
    one, which starts with them. *)
Definition carries_tail (n : nat) (chunks : list string) : Prop :=
  forall (i : nat) a b,
    chunks !! i = Some a -> chunks !! S i = Some b ->
    String.prefix (tail_chars n a) b = true.

(** The recursive call of [_split_text] on the separators that remain. *)
Definition deeper (sp : TextSplitter.t) (new_separators : list string)
  : option (string -> result (list string)) :=
  match new_separators with
  | [] => None
  | _ => Some (TextSplitter._split_text sp new_separators)
  end.

(** The separators as [langchain] spells them by default: real line
    feeds. *)
Definition line_feed_separators : list string :=
  [Py.lf +:+ Py.lf; Py.lf; " "; EmptyString].



(** One turn of the merging loop, from [st] to [st'] on the piece [d]:
    either [d] joins the open chunk, or the open chunk is closed (its
    pieces joined and stripped) and the next one opens with whole
    trailing pieces of it, [chunk_overlap] characters at most, and then
    [d]. *)
Definition advances_with_overlap (sp : TextSplitter.t)
    (st : TextSplitter.merge_state) (d : string)
    (st' : TextSplitter.merge_state) : Prop :=
  TextSplitter.total st' = pieces_len (TextSplitter.current_doc st')
  /\ ((TextSplitter.docs st' = TextSplitter.docs st
       /\ TextSplitter.current_doc st' = TextSplitter.current_doc st ++ [d])
      \/ (TextSplitter.docs st'
          = TextSplitter.docs st
            ++ option_list
                 (TextSplitter._join_docs (TextSplitter.current_doc st)
                    EmptyString)
          /\ exists kept,
               kept `suffix_of` TextSplitter.current_doc st
               /\ pieces_len kept <= TextSplitter.chunk_overlap sp
               /\ TextSplitter.current_doc st' = kept ++ [d])).


(** *** The chunker in the words of the claim *)










Section document_processor_vocabulary.
Import DocumentProcessor.

(** The chunk [process_document] makes of the piece [ic.2], number
    [ic.1] of its page. *)
Definition chunk_of (filename file_ext : string) (page_num : Z)
    (ic : Z * string) : chunk :=
  Chunk ic.2 (Metadata filename (Some page_num)
                (format_chunk_id filename page_num ic.1) (Py.drop1 file_ext)).

Definition page_chunks (self : t) (filename file_ext : string)
    (pd : page_data) (text_chunks : list string) : list chunk :=
  map (chunk_of filename file_ext (pd_page pd)) (Py.enumerate 0 text_chunks).

End document_processor_vocabulary.

Section vector_store_vocabulary.
Import DocumentProcessor VectorStore.
Context `{Space}.

(** The hit [search_similar] formats for a stored record. *)
Definition hit_of (q : vector) (h : string * entry) : search_hit :=
  SearchHit (e_document h.2) (e_metadata h.2) (distance q (e_embedding h.2)).

End vector_store_vocabulary.

Section llm_handler_vocabulary.
Import DocumentProcessor VectorStore LLMHandler.
Context `{Space} {W : Type} `{!Runtime W}.

(** The citation of one retrieved chunk. *)
Definition citation (doc : search_hit) : source :=
  Source (document (hit_metadata doc))
    (match page (hit_metadata doc) with
     | Some p => Json.Int p
     | None => Json.Str "N/A"
     end)
    (hit_text doc).

(** The state a call of [generate_answer] that starts no process leaves:
    only the count of calls moves. *)
Definition counted (st : state W) : state W :=
  State (self st) (world st) (spawned st) (S (answer_calls st)).

(** What an available handler makes of the outcome of the chat process. *)
Definition answer_of_outcome (outcome : result completed) : Json.value :=
  match outcome with
  | Ok res =>
      match answer_of_output res with
      | Ok answer => answer
      | Raise e =>
          Json.Str ("Error generating response: " +:+ exn_str e
                    +:+ Py.lf +:+ venv_hint)
      end
  | Raise e =>
      Json.Str ("Error generating response: " +:+ exn_str e
                +:+ Py.lf +:+ venv_hint)
  end.

(** A call a user of the handler makes after construction. *)
Inductive call :=
  | AnswerCall (query : string) (relevant_docs : list search_hit)
  | SummaryCall (text : string).

(** The state a call leaves, whether it returns or raises. *)
Definition after_call (st : state W) (c : call) : state W :=
  match c with
  | AnswerCall query relevant_docs => (generate_answer query relevant_docs st).2
  | SummaryCall text => (generate_summary text st).2
  end.

Definition after_calls (st : state W) (calls : list call) : state W :=
  fold_left after_call calls st.

(** Between [st] and [st'] the object is the same, the processes started
    are none when it is unavailable, and none of them is the check. *)
Definition no_new_check (st st' : state W) : Prop :=
  self st' = self st
  /\ exists started,
       spawned st' = spawned st ++ started
       /\ Forall (fun argv => argv <> check_argv (ollama_python (self st)))
            started
       /\ (ollama_available (self st) = false -> started = []).

End llm_handler_vocabulary.

(** * Further code *)

(** ** ollama_worker.py *)
Module OllamaWorker.

(** The arguments as [argparse] hands them to [main]. *)
Record args := Args {
  check : bool;
  model : string;
  mode : string;
  system : string;
  user : string;
  temperature : float;
  num_predict : Z
}.

(** One entry of the [messages] list. *)
Record message := Message {
  msg_role : string;
  msg_content : string
}.

(** What [parser.parse_args()] makes of the command line: the
    arguments; or the end of the run by [SystemExit], with status 2,
    the usage on the standard error and nothing on the standard output
    when the command line is refused, and with the help text on the
    standard output and status 0 for [-h]. *)
Inductive parsed :=
  | Parsed (a : args)
  | Refused
  | Helped (help : string).

(** What a run leaves: its standard output and its exit status. *)
Record finished := Finished {
  out : string;
  status : Z
}.

(** What the worker calls: the import of the [ollama] package at the
    top of the file, [parse_args] of the parser [main] builds,
    [ollama.list()], [ollama.chat(model, messages, options)] with the
    two options it sets, and [json.dumps]. *)
Class Ollama (O : Type) := {
  import_ollama : result unit;
  parse_args : list string -> parsed;
  ollama_list : M O unit;
  ollama_chat : string -> list message -> float -> Z -> M O Json.value;
  json_dumps : Json.value -> string
}.

Section with_ollama.
Context {O : Type} `{Ollama O}.

(** The object of a failure: [{"ok": False, "error": text}] *)
Definition failure (text : string) : Json.value :=
  Json.Dict [("ok", Json.Bool false); ("error", Json.Str text)].

(** The messages of a chat: an empty prompt is left out. *)
Definition messages_of (a : args) : list message :=
  (if Py.nonempty (system a) then [Message "system" (system a)] else [])
  ++ (if Py.nonempty (user a) then [Message "user" (user a)] else []).

(** The object [main] passes to [json.dumps]. *)
Definition reply (a : args) : M O Json.value :=
  if check a then
    try_except
      (_ ← ollama_list; mret (Json.Dict [("ok", Json.Bool true)]))
      [ (any_exception, fun e => mret (failure (exn_str e))) ]
  else
    try_except
      (response ←
         ollama_chat (model a) (messages_of a) (temperature a) (num_predict a);
       message ← lift_result (Json.get response "message" (Json.Dict []));
       content ← lift_result (Json.get message "content" (Json.Str EmptyString));
       mret (Json.Dict [("ok", Json.Bool true); ("answer", content)]))
      [ (any_exception, fun e => mret (failure (exn_str e))) ].

(** [print(json.dumps(v))] *)
Definition printed (v : Json.value) : string := json_dumps v +:+ Py.lf.

(** [main]: the command line is parsed outside any [try], so a run
    that [parse_args] ends prints nothing of its own. *)
Definition main (argv : list string) : M O finished :=
  match parse_args argv with
  | Refused => mret (Finished EmptyString 2)
  | Helped help => mret (Finished help 0)
  | Parsed a => v ← reply a; mret (Finished (printed v) 0)
  end.

(** One run of the file on the command line [argv]: when the import
    fails the failure is printed and the run ends, with [sys.exit(0)],
    before [main]. *)
Definition run (argv : list string) : M O finished :=
  match import_ollama with
  | Raise e =>
      mret (Finished
              (printed (failure ("Failed to import ollama: " +:+ exn_str e)))
              0)
  | Ok _ => main argv
  end.

End with_ollama.
End OllamaWorker.

(** ** vector_store.py: clearing *)
Module VectorStoreManager.
Import VectorStore.

(** What [clear_vector_store] calls beyond the services of
    [VectorStore.Storage]: the client's [delete_collection], and [print]
    on the standard output. *)
Class Clearing (W : Type) := {
  delete_collection : string -> string -> M W unit;
  print : string -> W -> W
}.

Section with_clearing.
Context `{Space} {W : Type} `{!Storage W} `{!Clearing W}.

(** [clear_vector_store]: the manager after the call. *)
Definition clear_vector_store (self : t) : M W t :=
  try_except
    (_ ← delete_collection (client self) (collection_name self);
     collection ← create_collection (client self) (collection_name self);
     mret (Make (collection_name self) (client self) collection))
    [ (any_exception, fun e =>
         _ ← modify (print ("Error clearing vector store: " +:+ exn_str e));
         mret self) ].

End with_clearing.
End VectorStoreManager.

(** ** document_processor.py: statistics *)
Module DocumentStats.
Import DocumentProcessor.

(** Python's [/] on two integers, which gives a float. *)
Class Division := {
  true_divide : Z -> Z -> float
}.

(** The average is the integer [0] for no chunks and a float
    otherwise. *)
Inductive number :=
  | IntNumber (z : Z)
  | FloatNumber (f : float).

Record stats := Stats {
  total_chunks : Z;
  total_characters : Z;
  avg_chunk_size : number;
  documents : Z
}.

(** [sum(len(chunk['text']) for chunk in chunks)] *)
Definition sum_of_lengths (chunks : list chunk) : Z :=
  fold_left (fun total c => total + Py.len (text c)) chunks 0.

(** [get_document_stats] *)
Definition get_document_stats `{Division} (chunks : list chunk) : stats :=
  let total_chars := sum_of_lengths chunks in
  let avg_chunk_size :=
    if (0 <? length chunks)%nat
    then FloatNumber (true_divide total_chars (Z.of_nat (length chunks)))
    else IntNumber 0 in
  Stats (Z.of_nat (length chunks)) total_chars avg_chunk_size
    (Z.of_nat (size (list_to_set (map (fun c => document (meta c)) chunks)
                       : gset string))).

End DocumentStats.

(** ** app.py: the sidebar *)
Module Sidebar.
Import DocumentProcessor VectorStore LLMHandler App VectorStoreManager.

(** An uploaded file: its name, and the temporary file its bytes are
    written to, at which the readers of [Files] find them. *)
Record upload := Upload {
  up_name : string;
  up_tmp_path : string
}.

Section with_services.
Context `{Files} `{Space} {W S : Type} `{!Runtime W}
        `{!Storage S} `{!Clearing S}.

(** The application, the world of the store, and the lines shown with
    [st.error] (the other rendering calls are left out). *)
Record page := Page {
  core : @App.app _ W;
  disk : S;
  errors : list string
}.

Definition show_error (line : string) : M page unit :=
  modify (fun pg => Page (core pg) (disk pg) (errors pg ++ [line])).

Definition modify_session (f : session -> session) : M page unit :=
  modify (fun pg =>
    Page (App.Make (vector_manager (core pg)) (llm_handler (core pg))
            (f (session_state (core pg))))
      (disk pg) (errors pg)).

(** [if name not in documents_indexed: documents_indexed.append(name)] *)
Definition remember_document (name : string) (s : session) : session :=
  if decide (name ∈ documents_indexed s) then s
  else Session (vector_store s) (chat_history s) (documents_indexed s ++ [name]).

(** One turn of [for uploaded_file in uploaded_files]: the chunks of a
    file that is processed are collected and its name remembered; the
    exception of a file that is not is shown, and the loop goes on. *)
Definition process_upload (doc_processor : DocumentProcessor.t)
    (all_chunks : list chunk) (uploaded_file : upload)
  : M page (list chunk) :=
  match process_document doc_processor (up_tmp_path uploaded_file)
          (up_name uploaded_file) with
  | Ok chunks =>
      _ ← modify_session (remember_document (up_name uploaded_file));
      mret (all_chunks ++ chunks)
  | Raise e =>
      _ ← show_error ("Error processing " +:+ up_name uploaded_file +:+ ": "
                      +:+ exn_str e);
      mret all_chunks
  end.

Fixpoint process_uploads (doc_processor : DocumentProcessor.t)
    (uploaded_files : list upload) (all_chunks : list chunk)
  : M page (list chunk) :=
  match uploaded_files with
  | [] => mret all_chunks
  | f :: rest =>
      all_chunks ← process_upload doc_processor all_chunks f;
      process_uploads doc_processor rest all_chunks
  end.

(** The body of the [Process Documents] button. *)
Definition process_documents (uploaded_files : list upload) : M page unit :=
  doc_processor ←
    lift_result (DocumentProcessor.__init__ default_chunk_size
                   default_chunk_overlap);
  all_chunks ← process_uploads doc_processor uploaded_files [];
  if (0 <? length all_chunks)%nat then
    vm ← gets (fun pg => vector_manager (core pg));
    '(vm', col) ← lift_result (create_vector_store vm all_chunks);
    modify (fun pg =>
      Page (App.Make vm' (llm_handler (core pg))
              (Session (Some col) (chat_history (session_state (core pg)))
                 (documents_indexed (session_state (core pg)))))
        (disk pg) (errors pg))
  else mret tt.

(** A method call on [vector_manager] that acts on the store. *)
Definition on_disk (m : M S VectorStore.t) : M page unit :=
  fun pg =>
    let '(r, d) := m (disk pg) in
    match r with
    | Ok vm =>
        (Ok tt, Page (App.Make vm (llm_handler (core pg))
                        (session_state (core pg))) d (errors pg))
    | Raise e => (Raise e, Page (core pg) d (errors pg))
    end.

(** The body of the [Clear All Data] button, up to [st.rerun()]. *)
Definition clear_all_data : M page unit :=
  _ ← modify_session (fun _ => Session None [] []);
  vm ← gets (fun pg => vector_manager (core pg));
  on_disk (clear_vector_store vm).

(** The chat input on the page. *)
Definition chat_on_page (typed : option string) : M page unit :=
  fun pg =>
    let '(r, a) := App.chat typed (core pg) in
    (r, Page a (disk pg) (errors pg)).

End with_services.
End Sidebar.

(** ** Further examples *)
Module MoreExamples.
Import DocumentProcessor.

(** The pages of the PDF of [Examples.files]. *)
Definition report_pages : list string :=
  ["Alpha beta gamma."; "   "; "Delta epsilon zeta eta theta."].

(** The chunks of that PDF under the default sizes: one per page that
    is not blank. *)
Definition report_whole_chunks : list chunk :=
  let md page_num id := Metadata "Report.PDF" (Some page_num) id "pdf" in
  [ Chunk "Alpha beta gamma." (md 1 "Report.PDF_page1_chunk0");
    Chunk "Delta epsilon zeta eta theta." (md 3 "Report.PDF_page3_chunk0") ].

(** The PDF as an upload of the sidebar. *)
Definition report_upload : Sidebar.upload :=
  Sidebar.Upload "Report.PDF" "/tmp/upload1.pdf".

(** A chunk whose identifier [Examples.store] does not hold. *)
Definition memo : chunk :=
  Chunk "memo" (Metadata "memo.txt" (Some 1) "memo.txt_page1_chunk0" "txt").

(** The exception of [Examples.missing]. *)
Definition not_found : exn :=
  Exn (OtherError "FileNotFoundError") "No such file or directory".

(** A handler whose check reported a number as its error. *)
Definition numbered_reason : LLMHandler.t :=
  LLMHandler.Make LLMHandler.default_model (Json.Int 42) Examples.python false.

(** The reply of a check that reports a number as its error, as
    [print(json.dumps(...))] writes it. *)
Definition reply_numbered : string :=
  "{" +:+ Examples.quoted "ok" +:+ ": false, " +:+ Examples.quoted "error"
  +:+ ": 42}" +:+ Py.lf.

(** [json.loads] on that reply and on those of the examples. *)
Definition decode_numbered (s : string) : result Json.value :=
  if decide (s = Py.strip reply_numbered) then
    Ok (Json.Dict [("ok", Json.Bool false); ("error", Json.Int 42)])
  else Examples.decode s.

Definition numbered_runtime : LLMHandler.Runtime Examples.host := {|
  LLMHandler.json_loads := decode_numbered;
  LLMHandler.py_str := @LLMHandler.py_str _ Examples.scripted_runtime;
  LLMHandler.subprocess_run :=
    @LLMHandler.subprocess_run _ Examples.scripted_runtime;
  LLMHandler.environ_get := @LLMHandler.environ_get _ Examples.scripted_runtime;
  LLMHandler.worker_script := @LLMHandler.worker_script _ Examples.scripted_runtime
|}.

(** The host on which the check prints that reply. *)
Definition numbering : Examples.host :=
  Examples.Host [Ok (LLMHandler.Completed reply_numbered EmptyString)] None.

(** The host on which the check is refused. *)
Definition refusing : Examples.host :=
  Examples.Host [Ok (LLMHandler.Completed Examples.reply_refused EmptyString)]
    None.

(** The host on which the chat process answers. *)
Definition answering : Examples.host :=
  Examples.Host [Ok (LLMHandler.Completed Examples.reply_answer EmptyString)]
    None.

(** A client on the scripted disk that deletes what it is asked to, and
    a standard output that is not kept. *)
Definition scripted_clearing : VectorStoreManager.Clearing Examples.disk := {|
  VectorStoreManager.delete_collection _ _ d := (Ok tt, d);
  VectorStoreManager.print _ d := d
|}.

(** Python's [/] on two integers from 0 to 2^53, which convert to
    floats exactly. *)
Definition float_division : DocumentStats.Division := {|
  DocumentStats.true_divide a b :=
    PrimFloat.div (PrimFloat.of_uint63 (Uint63.of_Z a))
      (PrimFloat.of_uint63 (Uint63.of_Z b))
|}.

(** The page of a session that has indexed nothing yet, with a handler
    whose check was refused. *)
Definition fresh_page
  : @Sidebar.page Examples.by_length Examples.host Examples.disk :=
  Sidebar.Page
    (App.Make
       (VectorStore.Make VectorStore.default_collection_name
          VectorStore.db_path ∅)
       (Examples.on_host Examples.refused (Examples.Host [] None))
       (App.Session None [] []))
    (Examples.Disk [] 1730000000) [].

End MoreExamples.

(** ** Further vocabulary *)

(** Decimal digits, for the numerals inside a chunk identifier. *)
Definition is_digit (c : ascii) : bool :=
  let n := nat_of_ascii c in ((48 <=? n) && (n <=? 57))%nat.

Fixpoint all_digits (s : string) : bool :=
  match s with
  | EmptyString => true
  | String c s' => is_digit c && all_digits s'
  end.

(** The text a failing reader's exception is wrapped in. *)
Definition reading_error (kind : string) (e : exn) : exn :=
  Exn ExceptionC ("Error reading " +:+ kind +:+ ": " +:+ exn_str e).

Section vector_store_further_vocabulary.
Import DocumentProcessor VectorStore.
Context `{Space}.

(** The record [add] stores for a chunk: the embedding of its text, the
    text and the metadata. *)
Definition entry_for (c : chunk) : entry :=
  Entry (encode (text c)) (text c) (meta c).

(** A chunk under its identifier, as a key and a record. *)
Definition keyed (c : chunk) : string * entry :=
  (chunk_id (meta c), entry_for c).

(** The hit a search for [query] reports for a chunk. *)
Definition hit_for (query : string) (c : chunk) : search_hit :=
  SearchHit (text c) (meta c) (distance (encode query) (encode (text c))).

(** The chunk [c] is at least as near to [query] as [c'] is. *)
Definition nearer (query : string) (c c' : chunk) : Prop :=
  dist_le (distance (encode query) (encode (text c)))
    (distance (encode query) (encode (text c'))).

End vector_store_further_vocabulary.

Section llm_handler_further_vocabulary.
Import DocumentProcessor VectorStore LLMHandler.
Context `{Space} {W : Type} `{!Runtime W}.

(** The interpreter [__init__] settles on: the argument when it is a
    non-empty path, the environment's [OLLAMA_PY] otherwise, the empty
    string when neither is set. *)
Definition chosen_python (ollama_python_path : option string) (w : W)
  : string :=
  match ollama_python_path with
  | Some p => if Py.nonempty p then p
              else default EmptyString (environ_get "OLLAMA_PY" w)
  | None => default EmptyString (environ_get "OLLAMA_PY" w)
  end.

(** The check passed: the process ran, printed something, and what it
    printed decodes to an object whose ["ok"] is true in Python's
    sense. *)
Definition check_passed (python : string) (w : W) : Prop :=
  exists res w' data ok_field,
    python <> EmptyString
    /\ subprocess_run (check_argv python) 8 w = (Ok res, w')
    /\ stdout res <> EmptyString
    /\ json_loads (Py.strip (stdout res)) = Ok data
    /\ Json.get data "ok" Json.Null = Ok ok_field
    /\ Json.truthy ok_field = true.

(** The same as a computation. *)
Definition check_passes (python : string) (w : W) : bool :=
  Py.nonempty python
  && match subprocess_run (check_argv python) 8 w with
     | (Ok res, _) =>
         Py.nonempty (stdout res)
         && match json_loads (Py.strip (stdout res)) with
            | Ok data =>
                match Json.get data "ok" Json.Null with
                | Ok ok_field => Json.truthy ok_field
                | Raise _ => false
                end
            | Raise _ => false
            end
     | (Raise _, _) => false
     end.

(** One part of the context, for the chunk numbered [i]. *)
Definition context_part (i : Z) (doc : search_hit) (page_num : Z) : string :=
  Py.lf +:+ "Source " +:+ Py.str_of_int i +:+ " (Document: "
  +:+ document (hit_metadata doc) +:+ ", Page: " +:+ Py.str_of_int page_num
  +:+ "):" +:+ Py.lf +:+ hit_text doc +:+ Py.lf.

(** The command line of a call that generates: the chat or the summary
    command line of the handler, for some prompt. *)
Definition generation_argv (self : t) (argv : list string) : Prop :=
  (exists prompt, argv = chat_argv self prompt)
  \/ (exists text, argv = summary_argv self text).

End llm_handler_further_vocabulary.

Section sidebar_vocabulary.
Import DocumentProcessor VectorStore LLMHandler App Sidebar.
Context `{Files}.

(** The processor [DocumentProcessor()] builds, with the default sizes. *)
Definition default_processor : DocumentProcessor.t :=
  DocumentProcessor.Make default_chunk_size default_chunk_overlap
    (TextSplitter.Make default_chunk_size default_chunk_overlap
       configured_separators).

(** What processing an upload gives. *)
Definition processed (f : upload) : result (list chunk) :=
  process_document default_processor (up_tmp_path f) (up_name f).

(** The chunks an upload brings to the batch: none when it fails. *)
Definition chunks_of_upload (f : upload) : list chunk :=
  match processed f with
  | Ok chunks => chunks
  | Raise _ => []
  end.

(** The lines shown for an upload: one when it fails. *)
Definition error_lines (f : upload) : list string :=
  match processed f with
  | Ok _ => []
  | Raise e =>
      ["Error processing " +:+ up_name f +:+ ": " +:+ exn_str e]
  end.

(** The chunks of a batch of uploads, in the order of the uploads. *)
Definition batch (uploaded_files : list upload) : list chunk :=
  concat (map chunks_of_upload uploaded_files).

(** [if name not in names: names.append(name)] on the list alone. *)
Definition remember (names : list string) (name : string) : list string :=
  if decide (name ∈ names) then names else names ++ [name].

(** The names of the uploads of a batch that were processed. *)
Definition processed_names (uploaded_files : list upload) : list string :=
  map up_name (filter (fun f => is_ok (processed f) = true) uploaded_files).

End sidebar_vocabulary.


Section sidebar_page_vocabulary.
Import DocumentProcessor VectorStore LLMHandler App VectorStoreManager Sidebar.
Context `{Files} `{Space} {W S : Type} `{!Runtime W}
        `{!Storage S} `{!Clearing S}.

(** The page after the loop over the uploads. *)
Definition after_uploads (uploaded_files : list upload) (pg : @page _ W S)
  : @page _ W S :=
  Page
    (App.Make (vector_manager (core pg)) (llm_handler (core pg))
       (Session (vector_store (session_state (core pg)))
          (chat_history (session_state (core pg)))
          (fold_left remember (processed_names uploaded_files)
             (documents_indexed (session_state (core pg))))))
    (disk pg) (errors pg ++ concat (map error_lines uploaded_files)).

End sidebar_page_vocabulary.


(** * Properties *)

(** Unfolds the plumbing of the effectful code, so that a run can be
    followed branch by branch. *)
Ltac unfold_effects :=
  unfold try_except, modify, gets, lift_result;
  unfold mbind, M_bind, mret, M_ret.

(** ** Loops that append *)

Lemma fold_left_snoc {A B} (f : A -> B) (l : list A) (acc : list B) :
  fold_left (fun acc x => acc ++ [f x]) l acc = acc ++ map f l.
Proof.
  revert acc. induction l as [|x l IH]; intros acc; simpl.
  - by rewrite app_nil_r.
  - rewrite IH. by rewrite <- app_assoc.
Qed.

Lemma fold_left_snoc_pair {A B C} (f : A * B -> C) (l : list (A * B))
    (acc : list C) :
  fold_left (fun acc '(a, b) => acc ++ [f (a, b)]) l acc = acc ++ map f l.
Proof.
  revert acc. induction l as [|[a b] l IH]; intros acc; simpl.
  - by rewrite app_nil_r.
  - rewrite IH. by rewrite <- app_assoc.
Qed.

Lemma enumerate_lookup {A} (xs : list A) (start : Z) (i : nat) (x : A) :
  xs !! i = Some x -> Py.enumerate start xs !! i = Some (start + Z.of_nat i, x).
Proof.
  revert start i. induction xs as [|y xs IH]; intros start i Hx; [done|].
  destruct i as [|i]; simpl in *.
  - inversion Hx; subst. by rewrite Z.add_0_r.
  - rewrite (IH (start + 1) i Hx). do 2 f_equal. lia.
Qed.

Lemma enumerate_elem_of {A} (xs : list A) (start n : Z) (x : A) :
  (n, x) ∈ Py.enumerate start xs ->
  exists i : nat, xs !! i = Some x /\ n = start + Z.of_nat i.
Proof.
  revert start. induction xs as [|y xs IH]; intros start Hin; simpl in Hin.
  - by apply elem_of_nil in Hin.
  - apply elem_of_cons in Hin as [Heq|Hin].
    + inversion Heq; subst. exists 0%nat. split; [done|lia].
    + destruct (IH _ Hin) as (i & Hi & ->). exists (S i). split; [done|lia].
Qed.

Lemma enumerate_length {A} (xs : list A) (start : Z) :
  length (Py.enumerate start xs) = length xs.
Proof. revert start. induction xs; intros; simpl; auto. Qed.

(** ** document_processor.py *)
Section document_processor.
Import DocumentProcessor.
Context `{Files}.

Lemma add_page_chunks_spec filename file_ext page_num text_chunks all_chunks :
  add_page_chunks filename file_ext page_num text_chunks all_chunks
  = all_chunks
    ++ map (chunk_of filename file_ext page_num) (Py.enumerate 0 text_chunks).
Proof.
  unfold add_page_chunks.
  apply (fold_left_snoc_pair (chunk_of filename file_ext page_num)).
Qed.

Lemma process_pages_spec (self : t) filename file_ext pages_data acc chunks :
  for_each
    (fun all_chunks page_data =>
       text_chunks ←
         TextSplitter.split_text (text_splitter self) (pd_text page_data);
       Ok (add_page_chunks filename file_ext (pd_page page_data)
             text_chunks all_chunks))
    pages_data acc = Ok chunks ->
  exists splits,
    Forall2
      (fun pd ts =>
         TextSplitter.split_text (text_splitter self) (pd_text pd) = Ok ts)
      pages_data splits
    /\ chunks
       = acc ++ concat (zip_with (page_chunks self filename file_ext)
                          pages_data splits).
Proof.
  revert acc. induction pages_data as [|pd pages IH]; intros acc Hrun.
  - simpl in Hrun. inversion Hrun; subst. exists []. split; [constructor|].
    simpl. by rewrite app_nil_r.
  - simpl in Hrun. unfold mbind at 1, result_bind in Hrun.
    unfold mbind at 1, result_bind in Hrun.
    destruct (TextSplitter.split_text (text_splitter self) (pd_text pd))
      as [ts|e] eqn:Hsplit; [|done].
    apply IH in Hrun as (splits & Hall & ->).
    exists (ts :: splits). split; [by constructor|].
    rewrite add_page_chunks_spec. simpl. by rewrite <- app_assoc.
Qed.

Lemma pdf_pages_numbered (pages : list (Z * string)) (total lo : Z) acc :
  Forall (fun '(n, _) => lo <= n <= total) pages ->
  Forall (fun pd => lo <= pd_page pd <= pd_total_pages pd) acc ->
  Forall (fun pd => lo <= pd_page pd <= pd_total_pages pd)
    (fold_left
       (fun pages_data '(page_num, text) =>
          if Py.nonempty (Py.strip text)
          then pages_data ++ [PageData text page_num total]
          else pages_data)
       pages acc).
Proof.
  revert acc. induction pages as [|[n t] pages IH]; intros acc Hp Hacc; [done|].
  simpl. inversion Hp; subst. apply IH; [done|].
  destruct (Py.nonempty (Py.strip t)); [|done].
  apply Forall_app. split; [done|]. constructor; [done|constructor].
Qed.

Lemma enumerate_range {A} (xs : list A) (start : Z) :
  Forall (fun '(n, _) => start <= n <= start + Z.of_nat (length xs) - 1)
    (Py.enumerate start xs).
Proof.
  apply Forall_forall. intros [n x] Hin.
  apply enumerate_elem_of in Hin as (i & Hi & ->).
  apply lookup_lt_Some in Hi. lia.
Qed.

(** Page numbers start at one: every extracted page is numbered between 1
    and the number of pages of its file. *)
Lemma extract_pages_one_based file_ext file_path pages_data :
  extract file_ext file_path = Ok pages_data ->
  Forall (fun pd => 1 <= pd_page pd <= pd_total_pages pd) pages_data.
Proof.
  unfold extract. intros Hex.
  repeat case_decide.
  - unfold extract_text_from_pdf, reraise in Hex.
    destruct (pdf_page_texts file_path) as [pages|e]; [|done].
    simpl in Hex. inversion Hex; subst; clear Hex.
    apply (pdf_pages_numbered (Py.enumerate 1 pages)
             (Z.of_nat (length pages)) 1 []); [|constructor].
    eapply Forall_impl; [apply enumerate_range|]. intros [n x]; simpl. lia.
  - unfold extract_text_from_docx, reraise in Hex.
    destruct (docx_paragraph_texts file_path); [|done].
    simpl in Hex. inversion Hex; subst. constructor; [simpl; lia|constructor].
  - unfold extract_text_from_txt, reraise in Hex.
    destruct (read_utf8 file_path); [|done].
    simpl in Hex. inversion Hex; subst. constructor; [simpl; lia|constructor].
  - done.
Qed.

Example process_report :
  @process_document Examples.files Examples.processor
    "/tmp/upload1.pdf" "Report.PDF"
  = Ok Examples.report_chunks.
Proof. vm_compute. reflexivity. Qed.

Lemma zip_with_concat_elem {A B C} (f : A -> B -> list C) l1 l2 (c : C) :
  c ∈ concat (zip_with f l1 l2) ->
  exists (p : nat) a b, l1 !! p = Some a /\ l2 !! p = Some b /\ c ∈ f a b.
Proof.
  revert l2. induction l1 as [|a l1 IH]; intros [|b l2] Hin; simpl in Hin;
    try by apply elem_of_nil in Hin.
  apply elem_of_app in Hin as [Hin|Hin].
  - by exists 0%nat, a, b.
  - destruct (IH _ Hin) as (p & a' & b' & ? & ? & ?). by exists (S p), a', b'.
Qed.

Lemma zip_with_concat_intro {A B C} (f : A -> B -> list C) l1 l2
    (p : nat) a b (c : C) :
  l1 !! p = Some a -> l2 !! p = Some b -> c ∈ f a b ->
  c ∈ concat (zip_with f l1 l2).
Proof.
  revert l2 p. induction l1 as [|a' l1 IH]; intros [|b' l2] [|p] Ha Hb Hc;
    simpl in *; try done.
  - inversion Ha; inversion Hb; subst. apply elem_of_app. by left.
  - apply elem_of_app. right. by eapply IH.
Qed.

(** C8.  Every chunk of a successfully processed document is the piece
    number [i] (counted from 0 within its page) of some extracted page,
    that page carries a number of at least 1, and the chunk's identifier
    is the file name, [_page], the page number, [_chunk] and [i] in
    decimal; conversely every piece of every page is such a chunk, so
    the numbering starts again at 0 on each page.  The identifier is the
    function [format_chunk_id] of the file name, the page number and the
    index. *)
Theorem chunk_id_format (self : t) (file_path filename : string)
    (chunks : list chunk) :
  process_document self file_path filename = Ok chunks ->
  exists pages_data splits,
    extract (Py.lower (splitext filename).2) file_path = Ok pages_data
    /\ Forall2
         (fun pd ts =>
            TextSplitter.split_text (text_splitter self) (pd_text pd) = Ok ts)
         pages_data splits
    /\ (forall c, c ∈ chunks ->
          exists (p i : nat) pd ts,
            pages_data !! p = Some pd /\ splits !! p = Some ts
            /\ ts !! i = Some (text c)
            /\ 1 <= pd_page pd
            /\ document (meta c) = filename
            /\ page (meta c) = Some (pd_page pd)
            /\ chunk_id (meta c)
               = filename +:+ "_page" +:+ Py.str_of_int (pd_page pd)
                          +:+ "_chunk" +:+ Py.str_of_int (Z.of_nat i))
    /\ (forall (p i : nat) pd ts piece,
          pages_data !! p = Some pd -> splits !! p = Some ts ->
          ts !! i = Some piece ->
          exists c, c ∈ chunks /\ text c = piece
            /\ chunk_id (meta c)
               = format_chunk_id filename (pd_page pd) (Z.of_nat i)).
Proof.
  unfold process_document. intros Hrun.
  unfold mbind at 1, result_bind in Hrun.
  destruct (extract (Py.lower (splitext filename).2) file_path)
    as [pages_data|e] eqn:Hex; [|done].
  apply process_pages_spec in Hrun as (splits & Hsplits & ->).
  exists pages_data, splits. repeat split; try done.
  - intros c Hc. simpl in Hc.
    apply zip_with_concat_elem in Hc as (p & pd & ts & Hpd & Hts & Hc).
    unfold page_chunks in Hc. apply list_elem_of_fmap in Hc as ([n piece] & -> & Hin).
    apply enumerate_elem_of in Hin as (i & Hi & ->).
    exists p, i, pd, ts. simpl. repeat split; try done.
    apply extract_pages_one_based in Hex.
    rewrite Forall_lookup in Hex. by apply (Hex p pd Hpd).
  - intros p i pd ts piece Hpd Hts Hi.
    exists (chunk_of filename (Py.lower (splitext filename).2) (pd_page pd)
              (0 + Z.of_nat i, piece)).
    split; [|done]. simpl.
    eapply zip_with_concat_intro; [done..|].
    unfold page_chunks. apply list_elem_of_fmap. eexists. split; [done|].
    apply list_elem_of_lookup. exists i. by apply enumerate_lookup.
Qed.

End document_processor.

Section document_processor_examples.
Import DocumentProcessor.

(** The theorem at the three-page PDF of the examples. *)
Lemma chunk_id_format_witness :
  exists pages_data splits,
    @extract Examples.files ".pdf" "/tmp/upload1.pdf" = Ok pages_data
    /\ Forall2
         (fun pd ts =>
            TextSplitter.split_text
              (text_splitter Examples.processor) (pd_text pd) = Ok ts)
         pages_data splits
    /\ (forall c, c ∈ Examples.report_chunks ->
          exists (p i : nat) pd ts,
            pages_data !! p = Some pd /\ splits !! p = Some ts
            /\ ts !! i = Some (text c)
            /\ 1 <= pd_page pd
            /\ document (meta c) = "Report.PDF"
            /\ page (meta c) = Some (pd_page pd)
            /\ chunk_id (meta c)
               = "Report.PDF" +:+ "_page" +:+ Py.str_of_int (pd_page pd)
                          +:+ "_chunk" +:+ Py.str_of_int (Z.of_nat i))
    /\ (forall (p i : nat) pd ts piece,
          pages_data !! p = Some pd -> splits !! p = Some ts ->
          ts !! i = Some piece ->
          exists c, c ∈ Examples.report_chunks /\ text c = piece
            /\ chunk_id (meta c)
               = format_chunk_id "Report.PDF" (pd_page pd) (Z.of_nat i)).
Proof.
  apply (@chunk_id_format Examples.files Examples.processor
           "/tmp/upload1.pdf" "Report.PDF" Examples.report_chunks).
  vm_compute. reflexivity.
Defined.

End document_processor_examples.

(** ** The text splitter *)
Section text_splitter.
Import TextSplitter.

(** The processor of the examples is the one the constructor builds. *)
Example processor_init :
  DocumentProcessor.__init__ 20 5 = Ok Examples.processor.
Proof. reflexivity. Qed.


(** The same text with the library's own separators: the first cut falls
    on the blank line, and the second chunk does not start with the last
    five characters of the first. *)
Example split_two_paragraphs_line_feeds :
  split_text (Make 20 5 line_feed_separators) Examples.two_paragraphs
  = Ok [ "Paragraph one."; "Paragraph two is"; "is longer than";
         "than chunk size..." ]
  /\ ~ carries_tail 5 [ "Paragraph one."; "Paragraph two is";
                        "is longer than"; "than chunk size..." ].
Proof.
  split; [vm_compute; reflexivity|].
  intros Hc. specialize (Hc 0%nat _ _ eq_refl eq_refl). vm_compute in Hc. done.
Qed.




Lemma sep_if_0 (b : bool) : sep_if b 0 = 0.
Proof. by destruct b. Qed.

(** The [while] loop keeps whole trailing pieces, of at most
    [chunk_overlap] characters in all. *)
Lemma pop_overlap_keeps_suffix (sp : t) (_len : Z) (cur : list string) :
  0 <= chunk_overlap sp ->
  exists kept,
    pop_overlap sp 0 _len cur (pieces_len cur) = Ok (kept, pieces_len kept)
    /\ kept `suffix_of` cur
    /\ pieces_len kept <= chunk_overlap sp.
Proof.
  intros Hov. induction cur as [|d rest IH].
  - exists []. simpl.
    replace (0 >? chunk_overlap sp) with false by (symmetry; lia).
    rewrite andb_false_r. simpl. repeat split; [done|lia].
  - destruct IH as (kept & Hrun & Hsuf & Hle).
    cbn [pop_overlap].
    destruct ((pieces_len (d :: rest) >? chunk_overlap sp)
              || ((pieces_len (d :: rest) + _len
                   + sep_if (0 <? length (d :: rest))%nat 0
                   >? chunk_size sp) && (pieces_len (d :: rest) >? 0)))
      eqn:Hcond.
    + exists kept. rewrite sep_if_0.
      replace (pieces_len (d :: rest) - (Py.len d + 0)) with (pieces_len rest)
        by (simpl; lia).
      repeat split; [done| |done]. by apply suffix_cons_r.
    + exists (d :: rest). apply orb_false_iff in Hcond as [Hgt _].
      repeat split; [done|lia].
Qed.

Lemma pieces_len_snoc (l : list string) (d : string) :
  pieces_len (l ++ [d]) = pieces_len l + Py.len d.
Proof. induction l as [|x l IH]; simpl; lia. Qed.

Lemma merge_step_overlap (sp : t) (st : merge_state) (d : string) :
  0 <= chunk_overlap sp ->
  total st = pieces_len (current_doc st) ->
  exists st',
    merge_step sp EmptyString st d = Ok st'
    /\ advances_with_overlap sp st d st'.
Proof.
  intros Hov Htot. unfold merge_step, advances_with_overlap.
  change (Py.len EmptyString) with 0. rewrite !sep_if_0.
  destruct (total st + Py.len d + 0 >? chunk_size sp).
  - destruct (0 <? length (current_doc st))%nat.
    + destruct (pop_overlap_keeps_suffix sp (Py.len d) (current_doc st) Hov)
        as (kept & Hrun & Hsuf & Hle).
      rewrite Htot, Hrun. simpl. eexists. split; [done|]. simpl.
      rewrite sep_if_0, pieces_len_snoc. split; [lia|].
      right. split; [done|]. by exists kept.
    + simpl. eexists. split; [done|]. simpl.
      rewrite sep_if_0, pieces_len_snoc. split; [lia|]. by left.
  - simpl. eexists. split; [done|]. simpl.
    rewrite sep_if_0, pieces_len_snoc. split; [lia|]. by left.
Qed.

Local Arguments String.append !s1 s2 : simpl nomatch.

(** ** The text splitter: cutting *)






Lemma prefix_empty (p : string) :
  p <> EmptyString -> String.prefix p EmptyString = false.
Proof. by destruct p. Qed.









(** ** The text splitter: recombining *)








(** ** The text splitter: the whole *)

















End text_splitter.

(** ** vector_store.py *)
Section vector_store.
Import DocumentProcessor VectorStore.
Context `{Space}.

Lemma collection_add_step_keeps
    (records : list (string * (vector * (string * metadata))))
    (col : gmap string entry) (id : string) (e : entry) :
  col !! id = Some e ->
  fold_left
    (fun col '(id, (emb, (doc, md))) =>
       match col !! id with
       | Some _ => col
       | None => <[id := Entry emb doc md]> col
       end)
    records col !! id = Some e.
Proof.
  revert col. induction records as [|[id' [emb [doc md]]] records IH];
    intros col Hcol; [done|].
  simpl. apply IH. destruct (col !! id') eqn:Hid'; [done|].
  rewrite lookup_insert_ne; [done|]. intros ->. congruence.
Qed.

(** Whatever the batch, a record the collection holds stays as it is. *)
Lemma collection_add_keeps (col col' : gmap string entry) ids embeddings
    documents metadatas (id : string) (e : entry) :
  collection_add col ids embeddings documents metadatas = Ok col' ->
  col !! id = Some e -> col' !! id = Some e.
Proof.
  unfold collection_add. intros Hadd Hcol.
  repeat case_match; try done.
  inversion Hadd; subst. by apply collection_add_step_keeps.
Qed.

(** C2, amended.  Adding a chunk whose identifier the index holds does
    not add a second entry and leaves the count of [get_collection_stats]
    as it was; the entry the index held stays, the chunk's text,
    metadata and embedding are not stored. *)
Theorem add_existing_id_ignored (self : t) (c : chunk) (e : entry) :
  collection self !! chunk_id (meta c) = Some e ->
  exists self',
    add_documents self [c] = Ok self'
    /\ get_collection_stats self' = get_collection_stats self
    /\ collection self' !! chunk_id (meta c) = Some e
    /\ collection self' = collection self.
Proof.
  intros Hheld. destruct self as [name cl col]. cbn [collection] in Hheld.
  unfold add_documents, add_chunks, collection_add.
  cbn [collection collection_name client map length generate_embeddings].
  destruct (decide ([chunk_id (meta c)] = [])) as [|_]; [done|].
  rewrite !Nat.eqb_refl. cbn [andb negb].
  destruct (decide (NoDup [chunk_id (meta c)])) as [_|Hdup].
  - cbn [zip zip_with fold_left]. rewrite Hheld.
    eexists. split; [done|]. cbn [collection]. by repeat split.
  - destruct Hdup. apply NoDup_singleton.
Qed.

Lemma for_each_app {A S} (body : S -> A -> result S) (xs ys : list A)
    (acc : S) :
  for_each body (xs ++ ys) acc = acc' ← for_each body xs acc; for_each body ys acc'.
Proof.
  revert acc. induction xs as [|x xs IH]; intros acc; [done|].
  simpl. destruct (body acc x); simpl; [apply IH|done].
Qed.

(** The formatting loop of [search_similar] over the first [n] rows of a
    result that has its three columns filled from the same records. *)
Lemma format_loop (q : vector) (ranked : list (string * entry)) (n : nat) :
  (n <= length ranked)%nat ->
  for_each
    (fun formatted_results i =>
       d ← Py.index (map (fun h => e_document h.2) ranked) i;
       m ← Py.index (map (fun h => e_metadata h.2) ranked) i;
       x ← Py.index (map (fun h => distance q (e_embedding h.2)) ranked) i;
       Ok (formatted_results ++ [SearchHit d m x]))
    (seq 0 n) []
  = Ok (map (hit_of q) (take n ranked)).
Proof.
  induction n as [|n IH]; intros Hn; [done|].
  rewrite seq_S, for_each_app, IH by lia. simpl.
  destruct (lookup_lt_is_Some_2 ranked n) as [h Hh]; [lia|].
  unfold Py.index. simpl. rewrite !list_lookup_fmap, Hh. simpl.
  by rewrite (take_S_r _ _ _ Hh), map_app.
Qed.

Global Instance closer_total (q : vector) : Total (closer q).
Proof. intros a b. unfold closer. apply dist_le_total. Qed.

Global Instance closer_trans (q : vector) : Transitive (closer q).
Proof. intros a b c. unfold closer. apply dist_le_trans. Qed.

(** C6.  When the index holds fewer entries than the [k] asked for, the
    search does not fail and returns every entry once, nearest first:
    as many hits as the index has entries, in ascending order of
    distance; none on an empty index. *)
Theorem search_returns_all (self : t) (query : string) (k : Z) :
  Z.of_nat (size (collection self)) < k ->
  exists hits,
    search_similar self query k = Ok hits
    /\ length hits = size (collection self)
    /\ hits ≡ₚ map (hit_of (encode query)) (map_to_list (collection self))
    /\ StronglySorted dist_le (map hit_distance hits)
    /\ (collection self = ∅ -> hits = []).
Proof.
  intros Hk.
  set (q := encode query).
  set (ranked := merge_sort (closer q) (map_to_list (collection self))).
  assert (Hperm : ranked ≡ₚ map_to_list (collection self))
    by apply merge_sort_Permutation.
  assert (Hlen : length ranked = size (collection self)).
  { by rewrite Hperm, length_map_to_list. }
  assert (Hnear : nearest (collection self) q k = ranked).
  { unfold nearest. apply take_ge. fold ranked. lia. }
  exists (map (hit_of q) ranked).
  split; [|split; [|split; [|split]]].
  - unfold search_similar, collection_query. simpl. fold q.
    replace (k <=? 0) with false by (symmetry; lia).
    simpl. rewrite Hnear.
    destruct ranked as [|h ranked'] eqn:Hranked; [done|].
    rewrite <- Hranked.
    replace (map (fun h => e_document h.2) ranked)
      with (e_document h.2 :: map (fun h => e_document h.2) ranked')
      by (by rewrite Hranked).
    change (e_document h.2 :: map (fun h => e_document h.2) ranked')
      with (map (fun h => e_document h.2) (h :: ranked')).
    rewrite <- Hranked.
    rewrite (format_loop q ranked (length (map (fun h => e_document h.2) ranked))).
    + by rewrite length_map, firstn_all.
    + by rewrite length_map.
  - by rewrite length_map.
  - by rewrite Hperm.
  - rewrite <- list_fmap_compose.
    apply (StronglySorted_fmap _ (closer q)); [done|].
    apply StronglySorted_merge_sort; apply _.
  - intros Hempty. rewrite Hempty, map_size_empty in Hlen.
    destruct ranked; [done|discriminate].
Qed.

Section recovery.
Context {W : Type} `{!Storage W}.

(** The handler for other start-up errors goes on to the fresh directory
    whatever the reopening raises. *)
Lemma open_client_other_error (w w1 w2 : W) (e1 e2 : exn) :
  persistent_client db_path w = (Raise e1, w1) ->
  is_inconsistent_hash e1 = false ->
  persistent_client db_path (rmtree db_path w1) = (Raise e2, w2) ->
  open_client w = open_fresh w2.
Proof.
  intros Ho1 Hc1 Ho2. unfold open_client, try_except, open_at.
  unfold mbind at 1, M_bind. rewrite Ho1. simpl. rewrite Hc1. simpl.
  unfold mbind at 1, M_bind. unfold modify at 1.
  unfold mbind at 1, M_bind. by rewrite Ho2.
Qed.

(** The handler for [InconsistentHashError] goes on to the fresh
    directory when the reopening raises [InconsistentHashError] again. *)
Lemma open_client_hash_error_twice (w w1 w2 : W) (e1 e2 : exn) :
  persistent_client db_path w = (Raise e1, w1) ->
  is_inconsistent_hash e1 = true ->
  persistent_client db_path (rmtree db_path w1) = (Raise e2, w2) ->
  is_inconsistent_hash e2 = true ->
  open_client w = open_fresh w2.
Proof.
  intros Ho1 Hc1 Ho2 Hc2. unfold open_client, try_except, open_at.
  unfold mbind at 1, M_bind. rewrite Ho1. simpl. rewrite Hc1.
  unfold mbind at 1, M_bind. unfold modify at 1.
  unfold mbind at 1, M_bind. rewrite Ho2. simpl. by rewrite Hc2.
Qed.

(** C7 at the input where the code leaves the chain: the first opening
    raises [InconsistentHashError], the directory is removed, and the
    reopening raises an exception of another class.  That exception
    leaves [open_client], and with it [__init__]: the fresh directory is
    not tried. *)
Theorem reopen_error_escapes (w w1 w2 : W) (e1 e2 : exn) (name : string) :
  persistent_client db_path w = (Raise e1, w1) ->
  is_inconsistent_hash e1 = true ->
  persistent_client db_path (rmtree db_path w1) = (Raise e2, w2) ->
  is_inconsistent_hash e2 = false ->
  open_client w = (Raise e2, w2)
  /\ __init__ name w = (Raise e2, w2).
Proof.
  intros Ho1 Hc1 Ho2 Hc2.
  assert (Hopen : open_client w = (Raise e2, w2)).
  { unfold open_client, try_except, open_at.
    unfold mbind at 1, M_bind. rewrite Ho1. simpl. rewrite Hc1.
    unfold mbind at 1, M_bind. unfold modify at 1.
    unfold mbind at 1, M_bind. rewrite Ho2. simpl. by rewrite Hc2. }
  split; [done|]. unfold __init__. unfold mbind at 1, M_bind. by rewrite Hopen.
Qed.

End recovery.

End vector_store.

Section vector_store_examples.
Import DocumentProcessor VectorStore.

(** C2, as stated, fails: the index holds the first draft under the
    identifier; after the revised chunk with the same identifier is
    added, the first draft is still what the index holds. *)
Lemma add_existing_id_not_replaced :
  exists self',
    @add_documents Examples.by_length Examples.store [Examples.note_revised]
    = Ok self'
    /\ collection self' !! Examples.note_id
       = Some (Examples.entry_of Examples.note)
    /\ collection self' !! Examples.note_id
       <> Some (Examples.entry_of Examples.note_revised).
Proof.
  eexists. split; [vm_compute; reflexivity|].
  split; [vm_compute; reflexivity|]. vm_compute. intros [=].
Qed.

Lemma add_existing_id_ignored_witness :
  exists self',
    @add_documents Examples.by_length Examples.store [Examples.note_revised]
    = Ok self'
    /\ get_collection_stats self' = get_collection_stats Examples.store
    /\ collection self' !! chunk_id (meta Examples.note_revised)
       = Some (Examples.entry_of Examples.note)
    /\ collection self' = collection Examples.store.
Proof.
  apply (@add_existing_id_ignored Examples.by_length Examples.store
           Examples.note_revised (Examples.entry_of Examples.note)).
  vm_compute. reflexivity.
Defined.

(** A search for five entries in the index of two. *)
Example search_two_entries :
  @search_similar Examples.by_length Examples.store "draft" 5
  = Ok [ @SearchHit Examples.by_length "appendix" (meta Examples.other_note) 3;
         @SearchHit Examples.by_length "first draft" (meta Examples.note) 6 ].
Proof. vm_compute. reflexivity. Qed.

Lemma search_returns_all_witness :
  exists hits,
    @search_similar Examples.by_length Examples.store "draft" 5 = Ok hits
    /\ length hits = size (collection Examples.store)
    /\ hits ≡ₚ map (hit_of (@encode Examples.by_length "draft"))
                 (map_to_list (collection Examples.store))
    /\ StronglySorted (@dist_le Examples.by_length) (map hit_distance hits)
    /\ (collection Examples.store = ∅ -> hits = []).
Proof.
  apply (@search_returns_all Examples.by_length Examples.store "draft" 5).
  vm_compute. reflexivity.
Defined.

(** On the damaged disk the fresh directory would open. *)
Example fresh_directory_would_open :
  @open_fresh Examples.by_length Examples.disk Examples.scripted_storage
    (Examples.Disk [] 1730000000)
  = (Ok "./chroma_db_1730000000", Examples.Disk [] 1730000000).
Proof. vm_compute. reflexivity. Qed.

Lemma reopen_error_escapes_witness :
  @open_client Examples.by_length Examples.disk Examples.scripted_storage
    Examples.damaged_disk
  = (Raise Examples.locked_error, Examples.Disk [] 1730000000)
  /\ @__init__ Examples.by_length Examples.disk Examples.scripted_storage
       default_collection_name Examples.damaged_disk
     = (Raise Examples.locked_error, Examples.Disk [] 1730000000).
Proof.
  apply (@reopen_error_escapes Examples.by_length Examples.disk
           Examples.scripted_storage Examples.damaged_disk
           (Examples.Disk [Raise Examples.locked_error] 1730000000)
           (Examples.Disk [] 1730000000)
           Examples.hash_error Examples.locked_error default_collection_name);
    reflexivity.
Defined.

End vector_store_examples.

(** ** llm_handler.py *)
Section llm_handler.
Import DocumentProcessor VectorStore LLMHandler.
Context `{Space} {W : Type} `{!Runtime W}.

Lemma format_sources_map (relevant_docs : list search_hit) :
  format_sources relevant_docs = map citation relevant_docs.
Proof. exact (fold_left_snoc citation relevant_docs []). Qed.

Lemma generate_answer_unavailable (st : state W) (query : string)
    (relevant_docs : list search_hit) (reason : string) :
  ollama_available (self st) = false ->
  ollama_error_message (self st) = Json.Str reason ->
  generate_answer query relevant_docs st
  = (Ok (Json.Str (unavailable_prefix +:+ reason),
         format_sources relevant_docs), counted st).
Proof.
  intros Hoff Hmsg. unfold generate_answer, count_answer_call.
  unfold_effects. simpl.
  rewrite Hoff, Hmsg. reflexivity.
Qed.

Lemma generate_summary_unavailable (st : state W) (text : string)
    (reason : string) :
  ollama_available (self st) = false ->
  ollama_error_message (self st) = Json.Str reason ->
  generate_summary text st
  = (Ok (Json.Str (unavailable_prefix +:+ reason)), st).
Proof.
  intros Hoff Hmsg. unfold generate_summary. unfold_effects. simpl.
  rewrite Hoff, Hmsg. reflexivity.
Qed.

(** C3, amended.  A handler that is not available, with the text
    [reason] recorded as the cause, answers every query and every list
    of retrieved chunks without raising, with the string
    ["LLM is unavailable. "] followed by [reason] (a full stop and a
    space, no colon); [generate_summary] returns the same string for
    every text. *)
Theorem unavailable_answer (st : state W) (query text : string)
    (relevant_docs : list search_hit) (reason : string) :
  ollama_available (self st) = false ->
  ollama_error_message (self st) = Json.Str reason ->
  (exists sources st',
     generate_answer query relevant_docs st
     = (Ok (Json.Str ("LLM is unavailable. " +:+ reason), sources), st'))
  /\ generate_summary text st
     = (Ok (Json.Str ("LLM is unavailable. " +:+ reason)), st).
Proof.
  intros Hoff Hmsg. split.
  - eexists _, _. by apply generate_answer_unavailable.
  - by apply generate_summary_unavailable.
Qed.

(** C10, amended.  A handler that is not available, and whose recorded
    reason is a text, still returns the whole list of citations: one
    record per retrieved chunk, in the order of retrieval, with the
    chunk's document, its page (["N/A"] when the metadata has none) and
    its text; and it starts no process. *)
Theorem unavailable_keeps_citations (st : state W) (query : string)
    (relevant_docs : list search_hit) (reason : string) :
  ollama_available (self st) = false ->
  ollama_error_message (self st) = Json.Str reason ->
  exists answer sources st',
    generate_answer query relevant_docs st = (Ok (answer, sources), st')
    /\ length sources = length relevant_docs
    /\ (forall (i : nat) doc,
          relevant_docs !! i = Some doc ->
          sources !! i
          = Some (Source (document (hit_metadata doc))
                    (match page (hit_metadata doc) with
                     | Some p => Json.Int p
                     | None => Json.Str "N/A"
                     end)
                    (hit_text doc)))
    /\ spawned st' = spawned st
    /\ world st' = world st.
Proof.
  intros Hoff Hmsg. eexists _, _, _.
  split; [by apply generate_answer_unavailable|].
  rewrite format_sources_map. split; [by rewrite length_map|].
  split; [|done]. intros i doc Hdoc.
  by rewrite list_lookup_fmap, Hdoc.
Qed.

Lemma read_answer_ok (out : string) :
  exists answer, read_answer out = Ok answer.
Proof. unfold read_answer. case_match; eauto. Qed.

Lemma answer_of_output_ok (res : completed) :
  exists answer, answer_of_output res = Ok answer.
Proof.
  unfold answer_of_output. destruct (Py.nonempty (stdout res)).
  - destruct (read_answer_ok (stdout res)) as [a ->]. simpl. eauto.
  - simpl. eauto.
Qed.

Lemma generate_answer_available (st : state W) (query context : string)
    (relevant_docs : list search_hit) (outcome : result completed) (w' : W) :
  ollama_available (self st) = true ->
  create_context relevant_docs = Ok context ->
  subprocess_run (chat_argv (self st) (user_prompt context query)) 60 (world st)
  = (outcome, w') ->
  generate_answer query relevant_docs st
  = (Ok (answer_of_outcome outcome, format_sources relevant_docs),
     State (self st) w'
       (spawned st ++ [chat_argv (self st) (user_prompt context query)])
       (S (answer_calls st))).
Proof.
  intros Hon Hctx Hrun.
  unfold generate_answer, count_answer_call, spawn. unfold_effects. simpl.
  rewrite Hon, Hctx. simpl. rewrite Hrun.
  destruct outcome as [res|e]; simpl; [|done].
  by destruct (answer_of_output res).
Qed.

(** C4, amended.  An available handler whose context is built returns
    from every outcome of the chat process without raising.  When the
    process raises (a time-out, a failed launch), the answer is the
    error text with the hint about the worker's environment; when it
    prints nothing on either stream, the answer is the fixed message;
    when what it prints is not JSON, the answer is that output with the
    white space at both ends stripped, provided something is left. *)
Theorem live_attempt_returns (st : state W) (query context : string)
    (relevant_docs : list search_hit) (outcome : result completed) (w' : W) :
  ollama_available (self st) = true ->
  create_context relevant_docs = Ok context ->
  subprocess_run (chat_argv (self st) (user_prompt context query)) 60 (world st)
  = (outcome, w') ->
  exists answer st',
    generate_answer query relevant_docs st
    = (Ok (answer, format_sources relevant_docs), st')
    /\ match outcome with
       | Raise e =>
           answer
           = Json.Str ("Error generating response: " +:+ exn_str e +:+ Py.lf
                       +:+ "Please ensure the Ollama worker venv is configured.")
       | Ok res =>
           (stdout res = EmptyString -> stderr res = EmptyString ->
            answer = Json.Str "No response from Ollama worker.")
           /\ (stdout res <> EmptyString ->
               is_ok (json_loads (Py.strip (stdout res))) = false ->
               Py.strip (stdout res) <> EmptyString ->
               answer = Json.Str (Py.strip (stdout res)))
       end.
Proof.
  intros Hon Hctx Hrun. eexists _, _.
  split; [by eapply generate_answer_available|].
  destruct outcome as [[out err]|e]; [|done]. simpl. split.
  - intros -> ->. reflexivity.
  - intros Hout Hbad Hleft. unfold answer_of_output. simpl.
    destruct out as [|c out']; [done|]. simpl Py.nonempty. cbv iota.
    unfold read_answer.
    destruct (json_loads (Py.strip (String c out'))) as [v|e]; [done|].
    simpl mbind. cbv iota. cbn [mbind result_bind].
    destruct (Py.strip (String c out')) as [|c' s'] eqn:Hs; [done|].
    reflexivity.
Qed.

Lemma no_new_check_refl (st : state W) : no_new_check st st.
Proof.
  split; [done|]. exists []. by rewrite app_nil_r.
Qed.

Lemma no_new_check_trans (st1 st2 st3 : state W) :
  no_new_check st1 st2 -> no_new_check st2 st3 -> no_new_check st1 st3.
Proof.
  intros (Hs12 & l12 & Hl12 & Hf12 & He12) (Hs23 & l23 & Hl23 & Hf23 & He23).
  split; [congruence|]. exists (l12 ++ l23).
  rewrite Hl23, Hl12, <- app_assoc. split; [done|].
  rewrite Hs12 in Hf23, He23. split.
  - by apply Forall_app.
  - intros Hoff. by rewrite He12, He23.
Qed.

Lemma chat_argv_not_check (self : t) (prompt python : string) :
  chat_argv self prompt <> check_argv python.
Proof. unfold chat_argv, check_argv. intros [=]. Qed.

Lemma summary_argv_not_check (self : t) (text python : string) :
  summary_argv self text <> check_argv python.
Proof. unfold summary_argv, check_argv. intros [=]. Qed.

Lemma generate_answer_no_check (st : state W) (query : string)
    (relevant_docs : list search_hit) :
  no_new_check st (generate_answer query relevant_docs st).2.
Proof.
  unfold generate_answer, count_answer_call, spawn. unfold_effects. simpl.
  destruct (ollama_available (self st)) eqn:Hav; simpl.
  - destruct (create_context relevant_docs) as [context|e]; simpl.
    + assert (Hone : forall w' calls,
                no_new_check st
                  (State (self st) w'
                     (spawned st
                      ++ [chat_argv (self st) (user_prompt context query)])
                     calls)).
      { intros w' calls. split; [done|]. eexists [_]. split; [done|].
        split; [|congruence].
        apply Forall_singleton, chat_argv_not_check. }
      destruct (subprocess_run _ 60 (world st)) as [[res|e] w'] eqn:Hrun;
        simpl; [|apply Hone].
      destruct (answer_of_output res); simpl; apply Hone.
    + split; [done|]. exists []. by rewrite app_nil_r.
  - destruct (Json.str_add _ _); simpl;
      (split; [done|]; exists []; by rewrite app_nil_r).
Qed.

Lemma generate_summary_no_check (st : state W) (text : string) :
  no_new_check st (generate_summary text st).2.
Proof.
  unfold generate_summary, spawn. unfold_effects. simpl.
  destruct (ollama_available (self st)) eqn:Hav; simpl.
  - assert (Hone : forall w',
              no_new_check st
                (State (self st) w'
                   (spawned st ++ [summary_argv (self st) text])
                   (answer_calls st))).
    { intros w'. split; [done|]. eexists [_]. split; [done|].
      split; [|congruence].
      apply Forall_singleton, summary_argv_not_check. }
    destruct (subprocess_run _ 60 (world st)) as [[res|e] w'] eqn:Hrun;
      simpl; [|apply Hone].
    destruct (summary_of_output res); simpl; apply Hone.
  - destruct (Json.str_add _ _); simpl;
      (split; [done|]; exists []; by rewrite app_nil_r).
Qed.

Lemma after_calls_no_check (st : state W) (calls : list call) :
  no_new_check st (after_calls st calls).
Proof.
  revert st. induction calls as [|c calls IH]; intros st.
  - apply no_new_check_refl.
  - simpl. eapply no_new_check_trans; [|apply IH].
    destruct c; [apply generate_answer_no_check|apply generate_summary_no_check].
Qed.

Lemma available_is_check_passes (model_name : string)
    (ollama_python_path : option string) (w : W) :
  ollama_available (self (__init__ model_name ollama_python_path w).2)
  = check_passes (chosen_python ollama_python_path w) w
  /\ ollama_python (self (__init__ model_name ollama_python_path w).2)
     = chosen_python ollama_python_path w
  /\ model (self (__init__ model_name ollama_python_path w).2) = model_name.
Proof.
  unfold __init__, probe, read_check, spawn, check_passes.
  fold (chosen_python ollama_python_path w).
  generalize (chosen_python ollama_python_path w). intros python.
  unfold set_error_message, set_available. unfold_effects. simpl.
  repeat (case_match; simpl in *; simplify_eq; auto).
  all: split; [|done].
  all: repeat match goal with
         | |- context [Py.nonempty ?x] => destruct (Py.nonempty x) eqn:?
         | |- context [Json.truthy ?x] => destruct (Json.truthy x) eqn:?
         end; simpl in *; congruence.
Qed.

Lemma check_passes_iff (python : string) (w : W) :
  check_passes python w = true <-> check_passed python w.
Proof.
  unfold check_passes, check_passed. split.
  - intros Hpass. apply andb_true_iff in Hpass as [Hpy Hpass].
    destruct (subprocess_run (check_argv python) 8 w) as [[res|e] w'] eqn:Hrun;
      [|done].
    apply andb_true_iff in Hpass as [Hout Hpass].
    destruct (json_loads (Py.strip (stdout res))) as [data|e] eqn:Hload;
      [|done].
    destruct (Json.get data "ok" Json.Null) as [ok_field|e] eqn:Hget; [|done].
    exists res, w', data, ok_field. repeat split; try done.
    + by intros ->.
    + intros Hs. by rewrite Hs in Hout.
  - intros (res & w' & data & ok_field & Hpy & Hrun & Hout & Hload & Hget & Hok).
    rewrite Hrun, Hload, Hget, Hok.
    destruct python; [done|]. by destruct (stdout res).
Qed.

(** Construction returns, and it starts at most one process, the check. *)
Lemma construction_checks_once (model_name : string)
    (ollama_python_path : option string) (w : W) :
  (__init__ model_name ollama_python_path w).1 = Ok tt
  /\ ((spawned (__init__ model_name ollama_python_path w).2 = []
       /\ ollama_available (self (__init__ model_name ollama_python_path w).2)
          = false)
      \/ spawned (__init__ model_name ollama_python_path w).2
         = [check_argv
              (ollama_python (self (__init__ model_name ollama_python_path w).2))]).
Proof.
  unfold __init__, probe, read_check, spawn.
  unfold set_error_message, set_available. unfold_effects. simpl.
  repeat (case_match; simpl in *; simplify_eq; auto).
Qed.

(** The check is started exactly when an interpreter is configured. *)
Lemma construction_spawns (model_name : string)
    (ollama_python_path : option string) (w : W) :
  spawned (__init__ model_name ollama_python_path w).2
  = if Py.nonempty (chosen_python ollama_python_path w)
    then [check_argv (chosen_python ollama_python_path w)] else [].
Proof.
  unfold __init__, probe, read_check, spawn.
  fold (chosen_python ollama_python_path w).
  generalize (chosen_python ollama_python_path w). intros python.
  unfold set_error_message, set_available. unfold_effects. simpl.
  repeat (case_match; simpl in *; simplify_eq; auto).
Qed.

(** One call starts at most one process, a generation of the handler's,
    and leaves the object as it was. *)
Lemma call_starts_generation (st : state W) (c : call) :
  self (after_call st c) = self st
  /\ exists started,
       spawned (after_call st c) = spawned st ++ started
       /\ (length started <= 1)%nat
       /\ Forall (generation_argv (self st)) started
       /\ (ollama_available (self st) = false -> started = []).
Proof.
  assert (Hnone : self st = self st
                  /\ exists started,
                       spawned st = spawned st ++ started
                       /\ (length started <= 1)%nat
                       /\ Forall (generation_argv (self st)) started
                       /\ (ollama_available (self st) = false ->
                           started = [])).
  { split; [done|]. exists [].
    rewrite app_nil_r. repeat split; [simpl; lia|constructor]. }
  assert (Hone : forall argv,
            ollama_available (self st) = true ->
            generation_argv (self st) argv ->
            self st = self st
            /\ exists started,
                 spawned st ++ [argv] = spawned st ++ started
                 /\ (length started <= 1)%nat
                 /\ Forall (generation_argv (self st)) started
                 /\ (ollama_available (self st) = false -> started = [])).
  { intros argv Hav Hgen. split; [done|]. exists [argv].
    repeat split; [simpl; lia|by constructor|congruence]. }
  destruct c as [query relevant_docs|text]; simpl.
  - unfold generate_answer, count_answer_call, spawn. unfold_effects. simpl.
    destruct (ollama_available (self st)) eqn:Hav; simpl.
    + destruct (create_context relevant_docs) as [context|e]; simpl;
        [|exact Hnone].
      destruct (subprocess_run _ 60 (world st)) as [[res|e] w'] eqn:Hrun;
        simpl.
      * destruct (answer_of_output res); simpl;
          (apply Hone; [reflexivity|left; eexists; reflexivity]).
      * apply Hone; [reflexivity|left; eexists; reflexivity].
    + destruct (Json.str_add _ _); simpl; exact Hnone.
  - unfold generate_summary, spawn. unfold_effects. simpl.
    destruct (ollama_available (self st)) eqn:Hav; simpl.
    + destruct (subprocess_run _ 60 (world st)) as [[res|e] w'] eqn:Hrun;
        simpl.
      * destruct (summary_of_output res); simpl;
          (apply Hone; [reflexivity|right; eexists; reflexivity]).
      * apply Hone; [reflexivity|right; eexists; reflexivity].
    + destruct (Json.str_add _ _); simpl; exact Hnone.
Qed.

Lemma after_calls_generation (st : state W) (calls : list call) :
  exists started,
    spawned (after_calls st calls) = spawned st ++ started
    /\ (length started <= length calls)%nat
    /\ Forall (generation_argv (self st)) started.
Proof.
  revert st. induction calls as [|c calls IH]; intros st.
  - exists []. rewrite app_nil_r. repeat split; [done|constructor].
  - simpl.
    destruct (call_starts_generation st c)
      as (Hself & first & Hfirst & Hlen & Hgen & _).
    destruct (IH (after_call st c)) as (rest & Hrest & Hlen' & Hgen').
    exists (first ++ rest). rewrite Hrest, Hfirst, <- app_assoc.
    split; [done|]. split; [rewrite length_app; lia|].
    rewrite Hself in Hgen'. by apply Forall_app.
Qed.

(** C9.  Availability is settled by the constructor and by nothing
    else.  The constructor returns; it starts the check, once, exactly
    when an interpreter is configured; and the handler is available
    afterwards exactly when the check passed (the process ran, printed
    something, and what it printed decodes to an object whose ["ok"] is
    true).  After that, whatever calls of [generate_answer] and
    [generate_summary] are made on a handler, in whatever order and
    whether they return or raise, the object keeps its fields (the
    availability flag and the recorded reason among them); the
    processes started are at most one per call, each with the chat or
    the summary command line, never the check; and an unavailable
    handler starts none and stays unavailable. *)
Theorem availability_fixed (model_name : string)
    (ollama_python_path : option string) (w : W)
    (st : state W) (calls : list call) :
  ((__init__ model_name ollama_python_path w).1 = Ok tt
   /\ (ollama_available (self (__init__ model_name ollama_python_path w).2)
       = true
       <-> check_passed (chosen_python ollama_python_path w) w)
   /\ ollama_python (self (__init__ model_name ollama_python_path w).2)
      = chosen_python ollama_python_path w
   /\ spawned (__init__ model_name ollama_python_path w).2
      = if Py.nonempty (chosen_python ollama_python_path w)
        then [check_argv (chosen_python ollama_python_path w)] else [])
  /\ self (after_calls st calls) = self st
  /\ ollama_available (self (after_calls st calls))
     = ollama_available (self st)
  /\ ollama_error_message (self (after_calls st calls))
     = ollama_error_message (self st)
  /\ exists started,
       spawned (after_calls st calls) = spawned st ++ started
       /\ (length started <= length calls)%nat
       /\ Forall (generation_argv (self st)) started
       /\ Forall (fun argv => argv <> check_argv (ollama_python (self st)))
            started
       /\ (ollama_available (self st) = false -> started = []).
Proof.
  split.
  - destruct (construction_checks_once model_name ollama_python_path w)
      as [Hret _].
    destruct (available_is_check_passes model_name ollama_python_path w)
      as (Hav & Hpy & _).
    split; [done|]. split; [rewrite Hav; apply check_passes_iff|].
    split; [done|apply construction_spawns].
  - destruct (after_calls_no_check st calls)
      as (Hself & started & Hstarted & Hnot & Hoff).
    destruct (after_calls_generation st calls)
      as (started' & Hstarted' & Hlen & Hgen).
    assert (started' = started) as ->.
    { rewrite Hstarted in Hstarted'. by apply app_inv_head in Hstarted'. }
    rewrite Hself. split; [done|]. split; [done|]. split; [done|].
    by exists started.
Qed.

End llm_handler.

Section llm_handler_examples.
Import DocumentProcessor VectorStore LLMHandler.

(** C3, as stated, fails: the answer of an unavailable handler has a
    full stop after ["LLM is unavailable"], not a colon. *)
Lemma unavailable_answer_has_no_colon :
  exists sources st',
    @generate_answer Examples.by_length _ Examples.scripted_runtime
      "What changed?" Examples.hits
      (Examples.on_host Examples.refused (Examples.Host [] None))
    = (Ok (Json.Str "LLM is unavailable. connection refused", sources), st')
    /\ Json.Str "LLM is unavailable. connection refused"
       <> Json.Str ("LLM is unavailable: " +:+ "connection refused").
Proof.
  eexists _, _. split; [vm_compute; reflexivity|]. intros [=].
Qed.

Lemma unavailable_answer_witness :
  (exists sources st',
     @generate_answer Examples.by_length _ Examples.scripted_runtime
       "What changed?" Examples.hits
       (Examples.on_host Examples.refused (Examples.Host [] None))
     = (Ok (Json.Str ("LLM is unavailable. " +:+ "connection refused"),
            sources), st'))
  /\ @generate_summary _ Examples.scripted_runtime "first draft"
       (Examples.on_host Examples.refused (Examples.Host [] None))
     = (Ok (Json.Str ("LLM is unavailable. " +:+ "connection refused")),
        Examples.on_host Examples.refused (Examples.Host [] None)).
Proof.
  apply (@unavailable_answer Examples.by_length _ Examples.scripted_runtime
           (Examples.on_host Examples.refused (Examples.Host [] None))
           "What changed?" "first draft" Examples.hits "connection refused");
    reflexivity.
Defined.

Lemma unavailable_keeps_citations_witness :
  exists answer sources st',
    @generate_answer Examples.by_length _ Examples.scripted_runtime
      "What changed?" Examples.hits
      (Examples.on_host Examples.refused (Examples.Host [] None))
    = (Ok (answer, sources), st')
    /\ length sources = length Examples.hits
    /\ (forall (i : nat) doc,
          Examples.hits !! i = Some doc ->
          sources !! i
          = Some (Source (document (hit_metadata doc))
                    (match page (hit_metadata doc) with
                     | Some p => Json.Int p
                     | None => Json.Str "N/A"
                     end)
                    (hit_text doc)))
    /\ spawned st' = []
    /\ world st' = Examples.Host [] None.
Proof.
  apply (@unavailable_keeps_citations Examples.by_length _
           Examples.scripted_runtime
           (Examples.on_host Examples.refused (Examples.Host [] None))
           "What changed?" Examples.hits "connection refused");
    reflexivity.
Defined.

(** C10, as stated, fails: a handler constructed against a check that
    reports the number 42 as its error is unavailable, and on the two
    retrieved chunks of the examples [generate_answer] raises a
    [TypeError] where it builds the answer, before the sources: no
    citation is returned. *)
Lemma unavailable_without_citations :
  ollama_available
    (self (@__init__ _ MoreExamples.numbered_runtime default_model
             (Some Examples.python) MoreExamples.numbering).2)
  = false
  /\ Examples.hits <> []
  /\ exists e st',
       @generate_answer Examples.by_length _ MoreExamples.numbered_runtime
         "What changed?" Examples.hits
         (@__init__ _ MoreExamples.numbered_runtime default_model
            (Some Examples.python) MoreExamples.numbering).2
       = (Raise e, st')
       /\ exn_cls e = TypeErrorC.
Proof.
  split; [vm_compute; reflexivity|]. split; [discriminate|].
  eexists _, _. split; [vm_compute; reflexivity|]. reflexivity.
Qed.

(** C4, as stated, fails: the output is not JSON, and the answer is not
    the output as printed, which ends with a line feed. *)
Lemma raw_output_is_stripped :
  is_ok (Examples.decode (Py.strip Examples.reply_traceback)) = false
  /\ exists sources st',
       @generate_answer Examples.by_length _ Examples.scripted_runtime
         "What changed?" (take 1 Examples.hits)
         (Examples.on_host Examples.ready Examples.crashing)
       = (Ok (Json.Str "Traceback (most recent call last): boom", sources),
          st')
       /\ Json.Str "Traceback (most recent call last): boom"
          <> Json.Str Examples.reply_traceback.
Proof.
  split; [vm_compute; reflexivity|].
  eexists _, _. split; [vm_compute; reflexivity|]. vm_compute. intros [=].
Qed.

(** A reply whose answer is a number is returned as that number. *)
Example answer_may_be_a_number :
  (@generate_answer Examples.by_length _ Examples.scripted_runtime
     "How many?" (take 1 Examples.hits)
     (Examples.on_host Examples.ready
        (Examples.Host [Ok (Completed Examples.reply_number EmptyString)]
           None))).1
  = Ok (Json.Int 42, map citation (take 1 Examples.hits)).
Proof. vm_compute. reflexivity. Qed.

Lemma live_attempt_returns_witness :
  exists answer st',
    @generate_answer Examples.by_length _ Examples.scripted_runtime
      "What changed?" (take 1 Examples.hits)
      (Examples.on_host Examples.ready Examples.crashing)
    = (Ok (answer, format_sources (take 1 Examples.hits)), st')
    /\ ((Examples.reply_traceback = EmptyString -> EmptyString = EmptyString ->
         answer = Json.Str "No response from Ollama worker.")
        /\ (Examples.reply_traceback <> EmptyString ->
            is_ok (Examples.decode (Py.strip Examples.reply_traceback)) = false ->
            Py.strip Examples.reply_traceback <> EmptyString ->
            answer = Json.Str (Py.strip Examples.reply_traceback))).
Proof.
  apply (@live_attempt_returns Examples.by_length _ Examples.scripted_runtime
           (Examples.on_host Examples.ready Examples.crashing)
           "What changed?" Examples.first_hit_context (take 1 Examples.hits)
           (Ok (Completed Examples.reply_traceback EmptyString))
           (Examples.Host [] None));
    reflexivity.
Defined.

End llm_handler_examples.

(** ** app.py *)
Section app.
Import DocumentProcessor VectorStore LLMHandler App.
Context `{Space} {W : Type} `{!Runtime W}.

(** C5.  When documents are indexed and the search for a question
    returns no hit, the chat step appends the question and then the
    fixed answer with an empty list of sources, and it leaves the
    handler untouched: [generate_answer] is not called and no process
    is started. *)
Theorem no_hit_fixed_answer (a : app) (query : string)
    (indexed : gmap string entry) :
  vector_store (session_state a) = Some indexed ->
  Py.nonempty query = true ->
  search_similar (vector_manager a) query 4 = Ok [] ->
  exists a',
    chat (Some query) a = (Ok tt, a')
    /\ chat_history (session_state a')
       = chat_history (session_state a)
         ++ [ Turn "user" (Json.Str query) None;
              Turn "assistant"
                (Json.Str "I couldn't find relevant information in the documents to answer your question.")
                (Some []) ]
    /\ llm_handler a' = llm_handler a
    /\ answer_calls (llm_handler a') = answer_calls (llm_handler a)
    /\ spawned (llm_handler a') = spawned (llm_handler a).
Proof.
  intros Hstore Hquery Hsearch.
  unfold chat, answer_query, append_turn. unfold_effects. simpl.
  rewrite Hstore, Hquery. simpl. rewrite Hsearch. simpl.
  eexists. split; [done|]. simpl. rewrite <- app_assoc. by repeat split.
Qed.

End app.

Section app_examples.
Import DocumentProcessor VectorStore LLMHandler App.

Lemma no_hit_fixed_answer_witness :
  exists a',
    @chat Examples.by_length _ Examples.scripted_runtime
      (Some "What changed?") Examples.cleared
    = (Ok tt, a')
    /\ chat_history (session_state a')
       = chat_history (session_state Examples.cleared)
         ++ [ Turn "user" (Json.Str "What changed?") None;
              Turn "assistant"
                (Json.Str "I couldn't find relevant information in the documents to answer your question.")
                (Some []) ]
    /\ llm_handler a' = llm_handler Examples.cleared
    /\ answer_calls (llm_handler a') = answer_calls (llm_handler Examples.cleared)
    /\ spawned (llm_handler a') = spawned (llm_handler Examples.cleared).
Proof.
  apply (@no_hit_fixed_answer Examples.by_length _ Examples.scripted_runtime
           Examples.cleared "What changed?" ∅); reflexivity.
Defined.

End app_examples.

(** * Further properties *)

(** ** Decimal numerals and chunk identifiers *)

Lemma append_inj_l (s a b : string) : s +:+ a = s +:+ b -> a = b.
Proof. induction s as [|c s IH]; simpl; [done|]. intros [=]. auto. Qed.

(** [str] of an integer determines the integer. *)
Lemma str_of_int_inj (a b : Z) : Py.str_of_int a = Py.str_of_int b -> a = b.
Proof.
  unfold Py.str_of_int. intros Heq.
  assert (Hnn : forall z, Z.to_int z <> Decimal.Pos Decimal.Nil
                          /\ Z.to_int z <> Decimal.Neg Decimal.Nil).
  { intros [|q|q]; simpl; split; try discriminate;
      intros [= Hq]; by apply (Unsigned.to_uint_nonnil q). }
  apply to_int_inj.
  assert (Some (Z.to_int a) = Some (Z.to_int b)) as [= ->]; [|done].
  rewrite <- (NilZero.isi (Z.to_int a)), <- (NilZero.isi (Z.to_int b));
    try apply Hnn.
  by rewrite Heq.
Qed.

Lemma string_of_uint_digits (d : Decimal.uint) :
  all_digits (NilEmpty.string_of_uint d) = true.
Proof. induction d; simpl; auto. Qed.

Lemma str_of_int_digits (z : Z) : 0 <= z -> all_digits (Py.str_of_int z) = true.
Proof.
  intros Hz. unfold Py.str_of_int.
  destruct z as [|q|q]; [done| |lia]. simpl.
  unfold NilZero.string_of_uint.
  destruct (Pos.to_uint q); first [done | apply string_of_uint_digits].
Qed.

(** Two numerals followed by an underscore and more text: the numerals
    and the rests agree when the whole texts do. *)
Lemma digits_then_underscore (d1 d2 r1 r2 : string) :
  all_digits d1 = true -> all_digits d2 = true ->
  d1 +:+ String "_"%char r1 = d2 +:+ String "_"%char r2 ->
  d1 = d2 /\ r1 = r2.
Proof.
  revert d2. induction d1 as [|c d1 IH]; intros [|c' d2] H1 H2 Heq;
    simpl in *.
  - by inversion Heq.
  - inversion Heq; subst. done.
  - inversion Heq; subst. done.
  - apply andb_true_iff in H1 as [_ H1]. apply andb_true_iff in H2 as [_ H2].
    inversion Heq; subst. destruct (IH d2 H1 H2) as [-> ->]; done.
Qed.

(** The identifier determines the page number and the index. *)
Lemma format_chunk_id_inj (filename : string) (p i p' i' : Z) :
  0 <= p -> 0 <= p' ->
  DocumentProcessor.format_chunk_id filename p i
  = DocumentProcessor.format_chunk_id filename p' i' ->
  p = p' /\ i = i'.
Proof.
  intros Hp Hp'. unfold DocumentProcessor.format_chunk_id. intros Heq.
  apply append_inj_l in Heq. apply (append_inj_l "_page") in Heq.
  apply digits_then_underscore in Heq as [Hpp Hrest];
    try by apply str_of_int_digits.
  apply str_of_int_inj in Hpp. apply (append_inj_l "chunk") in Hrest.
  apply str_of_int_inj in Hrest. done.
Qed.

(** ** document_processor.py: extraction *)
Section extraction.
Import DocumentProcessor.
Context `{Files}.

Lemma fold_left_filter_snoc {A B} (keep : A -> bool) (f : A -> B)
    (l : list A) (acc : list B) :
  fold_left (fun acc x => if keep x then acc ++ [f x] else acc) l acc
  = acc ++ map f (filter (fun x => keep x = true) l).
Proof.
  revert acc. induction l as [|x l IH]; intros acc; simpl.
  - by rewrite app_nil_r.
  - rewrite IH. rewrite filter_cons. destruct (keep x) eqn:Hk.
    + rewrite decide_True by done. simpl. by rewrite <- app_assoc.
    + rewrite decide_False by congruence. done.
Qed.

Lemma enumerate_lookup_inv {A} (xs : list A) (start n : Z) (i : nat) (x : A) :
  Py.enumerate start xs !! i = Some (n, x) ->
  n = start + Z.of_nat i /\ xs !! i = Some x.
Proof.
  revert start i. induction xs as [|y xs IH]; intros start i Hi; [done|].
  destruct i as [|i]; simpl in Hi.
  - inversion Hi; subst. split; [lia|done].
  - apply IH in Hi as [-> Hx]. split; [lia|done].
Qed.

Lemma pdf_loop_filter (total : Z) (l : list (Z * string))
    (acc : list page_data) :
  fold_left
    (fun pages_data '(page_num, text) =>
       if Py.nonempty (Py.strip text)
       then pages_data ++ [PageData text page_num total]
       else pages_data)
    l acc
  = acc ++ map (fun nt : Z * string => PageData nt.2 nt.1 total)
             (filter (fun nt : Z * string => Py.nonempty (Py.strip nt.2) = true)
                l).
Proof.
  rewrite <- (fold_left_filter_snoc
                (fun nt : Z * string => Py.nonempty (Py.strip nt.2))
                (fun nt : Z * string => PageData nt.2 nt.1 total)).
  revert acc. induction l as [|[n t] l IH]; intros acc; [done|]. simpl. apply IH.
Qed.

(** The pages [extract_text_from_pdf] keeps, as a filter over the
    numbered pages of the file. *)
Lemma extract_text_from_pdf_filter (file_path : string) (pages : list string) :
  pdf_page_texts file_path = Ok pages ->
  extract_text_from_pdf file_path
  = Ok (map (fun nt : Z * string =>
               PageData nt.2 nt.1 (Z.of_nat (length pages)))
          (filter (fun nt : Z * string => Py.nonempty (Py.strip nt.2) = true)
             (Py.enumerate 1 pages))).
Proof.
  intros Hread. unfold extract_text_from_pdf, reraise. rewrite Hread. simpl.
  f_equal. exact (pdf_loop_filter _ (Py.enumerate 1 pages) []).
Qed.

Lemma enumerate_filter_increasing {A} (keep : Z * A -> Prop)
    `{forall x, Decision (keep x)} (xs : list A) (start : Z) :
  StronglySorted Z.lt (map fst (filter keep (Py.enumerate start xs)))
  /\ Forall (fun n => start <= n) (map fst (filter keep (Py.enumerate start xs))).
Proof.
  revert start. induction xs as [|x xs IH]; intros start; simpl.
  - split; constructor.
  - destruct (IH (start + 1)) as [Hs Hf].
    rewrite filter_cons. destruct (decide (keep (start, x))); simpl.
    + split.
      * constructor; [done|]. eapply Forall_impl; [exact Hf|]. simpl. lia.
      * constructor; [lia|]. eapply Forall_impl; [exact Hf|]. simpl. lia.
    + split; [done|]. eapply Forall_impl; [exact Hf|]. simpl. lia.
Qed.

(** X1.  Blank pages of a PDF are dropped and the others keep their
    place in the file as their number: the pages extracted are exactly
    the non-blank pages, each numbered by its position counted from 1
    and carrying the page count of the file, in ascending order of
    number. *)
Theorem pdf_pages_keep_their_numbers (file_path : string)
    (pages : list string) :
  pdf_page_texts file_path = Ok pages ->
  exists pages_data,
    extract_text_from_pdf file_path = Ok pages_data
    /\ (forall pd,
          pd ∈ pages_data <->
          exists i : nat,
            pages !! i = Some (pd_text pd)
            /\ Py.strip (pd_text pd) <> EmptyString
            /\ pd_page pd = Z.of_nat i + 1
            /\ pd_total_pages pd = Z.of_nat (length pages))
    /\ StronglySorted Z.lt (map pd_page pages_data).
Proof.
  intros Hread. eexists. split; [by apply extract_text_from_pdf_filter|].
  split.
  - intros pd. rewrite list_elem_of_fmap. split.
    + intros ([n t] & -> & Hin). apply list_elem_of_filter in Hin as [Hkeep Hin].
      apply list_elem_of_lookup in Hin as [i Hi].
      apply enumerate_lookup_inv in Hi as [-> Hi]. simpl in *.
      exists i. repeat split; [done| |lia].
      intros Hs. by rewrite Hs in Hkeep.
    + intros (i & Hi & Hne & Hp & Ht). exists (pd_page pd, pd_text pd).
      split; [destruct pd; simpl in *; by subst|].
      apply list_elem_of_filter. split.
      * simpl. by destruct (Py.strip (pd_text pd)).
      * apply list_elem_of_lookup. exists i.
        rewrite (enumerate_lookup _ 1 _ _ Hi). do 2 f_equal. lia.
  - rewrite <- list_fmap_compose.
    apply (enumerate_filter_increasing
             (fun nt : Z * string => Py.nonempty (Py.strip nt.2) = true)).
Qed.

(** Whatever the format, the pages come in ascending order of number. *)
Lemma extract_pages_increasing (file_ext file_path : string) pages_data :
  extract file_ext file_path = Ok pages_data ->
  StronglySorted Z.lt (map pd_page pages_data).
Proof.
  unfold extract. intros Hex. repeat case_decide.
  - destruct (pdf_page_texts file_path) as [pages|e] eqn:Hread.
    + rewrite (extract_text_from_pdf_filter _ _ Hread) in Hex.
      inversion Hex; subst. rewrite <- list_fmap_compose.
      apply (enumerate_filter_increasing
               (fun nt : Z * string => Py.nonempty (Py.strip nt.2) = true)).
    + unfold extract_text_from_pdf, reraise in Hex. by rewrite Hread in Hex.
  - unfold extract_text_from_docx, reraise in Hex.
    destruct (docx_paragraph_texts file_path); [|done].
    simpl in Hex. inversion Hex; subst. repeat constructor.
  - unfold extract_text_from_txt, reraise in Hex.
    destruct (read_utf8 file_path); [|done].
    simpl in Hex. inversion Hex; subst. repeat constructor.
  - done.
Qed.

End extraction.

(** ** document_processor.py: the chunks of one document *)
Section chunks_of_a_document.
Import DocumentProcessor.
Context `{Files}.

Lemma page_chunk_ids_nodup (self : t) filename file_ext pd text_chunks :
  0 <= pd_page pd ->
  NoDup (map (fun c => chunk_id (meta c))
           (page_chunks self filename file_ext pd text_chunks)).
Proof.
  intros Hp. apply NoDup_alt. intros i j id Hi Hj.
  unfold page_chunks in *. rewrite !list_lookup_fmap in Hi, Hj.
  destruct (Py.enumerate 0 text_chunks !! i) as [[n x]|] eqn:Hei; [|done].
  destruct (Py.enumerate 0 text_chunks !! j) as [[m y]|] eqn:Hej; [|done].
  apply enumerate_lookup_inv in Hei as [-> _].
  apply enumerate_lookup_inv in Hej as [-> _].
  simpl in Hi, Hj. inversion Hi as [Hid]. inversion Hj as [Hjd].
  rewrite <- Hjd in Hid.
  apply format_chunk_id_inj in Hid as [_ Hij]; [lia|done..].
Qed.

Lemma all_chunk_ids_nodup (self : t) filename file_ext pages_data splits :
  StronglySorted Z.lt (map pd_page pages_data) ->
  Forall (fun pd => 0 <= pd_page pd) pages_data ->
  NoDup (map (fun c => chunk_id (meta c))
           (concat (zip_with (page_chunks self filename file_ext)
                      pages_data splits))).
Proof.
  revert splits. induction pages_data as [|pd pages IH];
    intros [|ts splits] Hsorted Hnonneg; simpl; try constructor.
  inversion Hsorted as [|? ? Hsorted' Hlt]; subst.
  inversion Hnonneg as [|? ? Hpd Hnonneg']; subst.
  rewrite map_app. apply NoDup_app. split; [by apply page_chunk_ids_nodup|].
  split; [|by apply IH].
  intros id Hhead Htail.
  apply list_elem_of_fmap in Hhead as (c & -> & Hc).
  apply list_elem_of_fmap in Htail as (c' & Heq & Hc').
  unfold page_chunks in Hc. apply list_elem_of_fmap in Hc as ([i x] & -> & _).
  apply zip_with_concat_elem in Hc' as (q & pd' & ts' & Hq & _ & Hc').
  unfold page_chunks in Hc'. apply list_elem_of_fmap in Hc' as ([j y] & -> & _).
  simpl in Heq.
  assert (Hin : pd_page pd' ∈ map pd_page pages).
  { apply list_elem_of_fmap. exists pd'. split; [done|].
    by apply list_elem_of_lookup_2 in Hq. }
  rewrite Forall_forall in Hlt. specialize (Hlt _ Hin).
  apply format_chunk_id_inj in Heq as [Hpp _]; [lia|done|lia].
Qed.

Lemma processed_ids_nodup (self : t) (file_path filename : string)
    (chunks : list chunk) :
  process_document self file_path filename = Ok chunks ->
  NoDup (map (fun c => chunk_id (meta c)) chunks).
Proof.
  unfold process_document. intros Hrun.
  unfold mbind at 1, result_bind in Hrun.
  destruct (extract (Py.lower (splitext filename).2) file_path)
    as [pages_data|e] eqn:Hex; [|done].
  apply process_pages_spec in Hrun as (splits & _ & ->). simpl.
  apply all_chunk_ids_nodup.
  - by eapply extract_pages_increasing.
  - apply extract_pages_one_based in Hex.
    eapply Forall_impl; [exact Hex|]. simpl. lia.
Qed.

(** X2.  The chunk identifiers of one successfully processed document
    are pairwise distinct: a page number and an index within the page
    can be read back from an identifier, and no two chunks of a document
    share both. *)
Theorem chunk_ids_distinct (self : t) (file_path filename : string)
    (chunks : list chunk) :
  process_document self file_path filename = Ok chunks ->
  NoDup (map (fun c => chunk_id (meta c)) chunks).
Proof. apply processed_ids_nodup. Qed.

End chunks_of_a_document.

(** ** vector_store.py: adding and searching *)
Section adding_and_searching.
Import DocumentProcessor VectorStore.
Context `{Space}.

Lemma insert_if_absent_union
    (records : list (string * (vector * (string * metadata))))
    (col : gmap string entry) :
  fold_left
    (fun col '(id, (emb, (doc, md))) =>
       match col !! id with
       | Some _ => col
       | None => <[id := Entry emb doc md]> col
       end)
    records col
  = col ∪ list_to_map
            (map (fun r : string * (vector * (string * metadata)) =>
                    (r.1, Entry r.2.1 r.2.2.1 r.2.2.2)) records).
Proof.
  revert col. induction records as [|[id [emb [doc md]]] records IH];
    intros col; simpl.
  - by rewrite (right_id_L ∅ (∪)).
  - rewrite IH. apply map_eq. intros i.
    rewrite !lookup_union.
    destruct (col !! id) eqn:Hid.
    + destruct (decide (i = id)) as [->|Hne].
      * rewrite Hid. by rewrite !union_Some_l.
      * by rewrite lookup_insert_ne.
    + destruct (decide (i = id)) as [->|Hne].
      * rewrite !lookup_insert_eq, Hid. simpl.
        by rewrite union_Some_l.
      * by rewrite !lookup_insert_ne.
Qed.

Lemma batch_records (chunks : list chunk) :
  map (fun r : string * (vector * (string * metadata)) =>
         (r.1, Entry r.2.1 r.2.2.1 r.2.2.2))
    (zip (map (fun c => chunk_id (meta c)) chunks)
       (zip (map encode (map text chunks))
          (zip (map text chunks) (map meta chunks))))
  = map keyed chunks.
Proof. induction chunks as [|c chunks IH]; simpl; [done|]. by rewrite IH. Qed.

(** What a call of [add_chunks] comes to. *)
Lemma add_chunks_union (self : t) (chunks : list chunk) :
  chunks <> [] ->
  NoDup (map (fun c => chunk_id (meta c)) chunks) ->
  add_chunks self chunks
  = Ok (Make (collection_name self) (client self)
          (collection self ∪ list_to_map (map keyed chunks))).
Proof.
  intros Hne Hnodup. unfold add_chunks, collection_add.
  destruct (decide (map (fun c => chunk_id (meta c)) chunks = [])) as [He|_].
  { destruct chunks; [done|discriminate]. }
  unfold generate_embeddings. rewrite !length_map, !Nat.eqb_refl. simpl.
  destruct (decide (NoDup (map (fun c => chunk_id (meta c)) chunks)));
    [|done].
  simpl. rewrite insert_if_absent_union.
  by rewrite (batch_records chunks).
Qed.

Lemma keyed_fst (chunks : list chunk) :
  (map keyed chunks).*1 = map (fun c => chunk_id (meta c)) chunks.
Proof. induction chunks; simpl; [done|]. by f_equal. Qed.

Lemma hits_of_keyed (query : string) (chunks : list chunk) :
  map (hit_of (encode query)) (map keyed chunks) = map (hit_for query) chunks.
Proof. induction chunks as [|c chunks IH]; simpl; [done|]. by rewrite IH. Qed.

(** A batch that is accepted is not empty and repeats no identifier. *)
Lemma add_chunks_accepted (self self' : t) (chunks : list chunk) :
  add_chunks self chunks = Ok self' ->
  chunks <> [] /\ NoDup (map (fun c => chunk_id (meta c)) chunks).
Proof.
  unfold add_chunks, collection_add. intros Hadd.
  destruct (decide (map (fun c => chunk_id (meta c)) chunks = [])) as [He|Hn];
    [done|].
  split; [intros ->; by apply Hn|].
  unfold generate_embeddings in Hadd.
  rewrite !length_map, !Nat.eqb_refl in Hadd. simpl in Hadd.
  by destruct (decide (NoDup (map (fun c => chunk_id (meta c)) chunks))).
Qed.

(** X3.  A batch that is not empty and repeats no identifier is always
    accepted, and it only adds: every entry the index held stays as it
    was, every chunk whose identifier was free is stored with its text,
    its metadata and the embedding of its text, and no other identifier
    appears. *)
Theorem add_documents_only_adds (self : t) (chunks : list chunk) :
  chunks <> [] ->
  NoDup (map (fun c => chunk_id (meta c)) chunks) ->
  exists self',
    add_documents self chunks = Ok self'
    /\ collection_name self' = collection_name self
    /\ client self' = client self
    /\ (forall id e,
          collection self !! id = Some e -> collection self' !! id = Some e)
    /\ (forall c,
          c ∈ chunks -> collection self !! chunk_id (meta c) = None ->
          collection self' !! chunk_id (meta c) = Some (entry_for c))
    /\ (forall id,
          collection self !! id = None ->
          id ∉ map (fun c => chunk_id (meta c)) chunks ->
          collection self' !! id = None).
Proof.
  intros Hne Hnodup. eexists. split; [by apply add_chunks_union|].
  cbn [collection_name client collection].
  split; [done|]. split; [done|]. split; [|split].
  - intros id e Hold. by apply lookup_union_Some_l.
  - intros c Hc Hfree. rewrite lookup_union_r by done.
    apply elem_of_list_to_map_1.
    + by rewrite keyed_fst.
    + apply list_elem_of_fmap. by exists c.
  - intros id Hfree Hout. rewrite lookup_union_r by done.
    apply not_elem_of_list_to_map_1. by rewrite keyed_fst.
Qed.

(** A batch that repeats an identifier is refused. *)
Lemma add_chunks_duplicate (self : t) (chunks : list chunk) :
  chunks <> [] ->
  ~ NoDup (map (fun c => chunk_id (meta c)) chunks) ->
  exists e, add_chunks self chunks = Raise e
            /\ exn_cls e = OtherError "DuplicateIDError".
Proof.
  intros Hne Hdup. unfold add_chunks, collection_add.
  destruct (decide (map (fun c => chunk_id (meta c)) chunks = [])) as [He|_].
  { destruct chunks; [done|discriminate]. }
  unfold generate_embeddings. rewrite !length_map, !Nat.eqb_refl. simpl.
  destruct (decide (NoDup (map (fun c => chunk_id (meta c)) chunks)));
    [done|].
  eexists. split; reflexivity.
Qed.

(** X4.  An empty batch and a batch that repeats an identifier are
    refused, the first with a [ValueError], the second with a
    [DuplicateIDError]; nothing of a refused batch is stored. *)
Theorem add_documents_refusals (self : t) (chunks : list chunk) :
  (chunks = [] ->
   exists e, add_documents self chunks = Raise e /\ exn_cls e = ValueErrorC)
  /\ (chunks <> [] ->
      ~ NoDup (map (fun c => chunk_id (meta c)) chunks) ->
      exists e, add_documents self chunks = Raise e
                /\ exn_cls e = OtherError "DuplicateIDError").
Proof.
  split.
  - intros ->. eexists. split; reflexivity.
  - intros Hne Hdup. by apply add_chunks_duplicate.
Qed.

(** The search, for a positive [k]: the [k] nearest records in order. *)
Lemma search_similar_ranked (self : t) (query : string) (k : Z) :
  0 < k ->
  search_similar self query k
  = Ok (map (hit_of (encode query))
          (take (Z.to_nat k)
             (merge_sort (closer (encode query))
                (map_to_list (collection self))))).
Proof.
  intros Hk. unfold search_similar, collection_query. simpl.
  replace (k <=? 0) with false by (symmetry; lia).
  simpl. unfold nearest.
  set (top := take (Z.to_nat k) _).
  destruct top as [|h top'] eqn:Htop; [done|].
  rewrite <- Htop.
  replace (map (fun h => e_document h.2) top)
    with (e_document h.2 :: map (fun h => e_document h.2) top')
    by (by rewrite Htop).
  change (e_document h.2 :: map (fun h => e_document h.2) top')
    with (map (fun h => e_document h.2) (h :: top')).
  rewrite <- Htop.
  rewrite (format_loop (encode query) top
             (length (map (fun h => e_document h.2) top))).
  - by rewrite length_map, firstn_all.
  - by rewrite length_map.
Qed.

(** X5.  Top-[k] retrieval.  A search with [k] below one is refused with
    a [TypeError].  Otherwise it returns the smaller of [k] and the size
    of the index many hits, in ascending order of distance, each the
    text, metadata and distance of a stored entry, and every stored
    entry that is left out is at least as far from the query as every
    hit. *)
Theorem search_similar_top_k (self : t) (query : string) (k : Z) :
  (k <= 0 ->
   exists e, search_similar self query k = Raise e /\ exn_cls e = TypeErrorC)
  /\ (0 < k ->
      exists ranked,
        ranked ≡ₚ map_to_list (collection self)
        /\ StronglySorted (closer (encode query)) ranked
        /\ search_similar self query k
           = Ok (map (hit_of (encode query)) (take (Z.to_nat k) ranked))
        /\ length (take (Z.to_nat k) ranked)
           = Nat.min (Z.to_nat k) (size (collection self))
        /\ (forall near far,
              near ∈ take (Z.to_nat k) ranked ->
              far ∈ drop (Z.to_nat k) ranked ->
              closer (encode query) near far)).
Proof.
  split.
  - intros Hk. unfold search_similar, collection_query. simpl.
    replace (k <=? 0) with true by (symmetry; lia).
    eexists. split; reflexivity.
  - intros Hk.
    exists (merge_sort (closer (encode query))
              (map_to_list (collection self))).
    assert (Hperm := merge_sort_Permutation (closer (encode query))
                       (map_to_list (collection self))).
    assert (Hsorted : StronglySorted (closer (encode query))
                        (merge_sort (closer (encode query))
                           (map_to_list (collection self))))
      by (apply StronglySorted_merge_sort; apply _).
    split; [done|]. split; [done|]. split; [by apply search_similar_ranked|].
    split.
    + by rewrite length_take, Hperm, length_map_to_list.
    + intros near far Hnear Hfar.
      rewrite <- (take_drop (Z.to_nat k)) in Hsorted.
      by eapply StronglySorted_app_1_elem_of.
Qed.

(** X6.  What was added is what is found.  After a batch is added to an
    empty index, a search that asks for more hits than the batch has
    chunks returns one hit per chunk, with the chunk's text and
    metadata and the distance between the embeddings of the query and of
    the text, nearest first. *)
Theorem search_finds_what_was_added (name path : string)
    (chunks : list chunk) (self' : t) (query : string) (k : Z) :
  add_documents (Make name path ∅) chunks = Ok self' ->
  Z.of_nat (length chunks) < k ->
  exists hits,
    search_similar self' query k = Ok hits
    /\ hits ≡ₚ map (hit_for query) chunks
    /\ StronglySorted dist_le (map hit_distance hits).
Proof.
  intros Hadd Hk.
  destruct (add_chunks_accepted _ _ _ Hadd) as [Hne Hnodup].
  unfold add_documents in Hadd. rewrite add_chunks_union in Hadd by done.
  inversion Hadd; subst; clear Hadd.
  assert (Hlist : map_to_list (∅ ∪ list_to_map (map keyed chunks) : gmap string entry)
                  ≡ₚ map keyed chunks).
  { rewrite (left_id_L ∅ (∪)). apply map_to_list_to_map. by rewrite keyed_fst. }
  eexists. split; [apply search_similar_ranked; lia|].
  cbn [collection].
  set (ranked := merge_sort _ _).
  assert (Hperm : ranked ≡ₚ map keyed chunks).
  { unfold ranked. by rewrite merge_sort_Permutation. }
  rewrite take_ge.
  2:{ rewrite Hperm, length_map. lia. }
  split.
  - by rewrite Hperm, hits_of_keyed.
  - rewrite <- list_fmap_compose.
    apply (StronglySorted_fmap _ (closer (encode query))); [done|].
    apply StronglySorted_merge_sort; apply _.
Qed.

End adding_and_searching.

(** ** From a document to the index *)
Section indexing.
Import DocumentProcessor VectorStore.
Context `{Files} `{Space}.

(** X7.  Indexing one processed document into an empty index never
    meets the duplicate check: every chunk is stored under its
    identifier, and the count the statistics report is the number of
    chunks. *)
Theorem indexing_a_document (self : DocumentProcessor.t)
    (file_path filename : string) (chunks : list chunk)
    (name path : string) :
  process_document self file_path filename = Ok chunks ->
  chunks <> [] ->
  exists manager col,
    create_vector_store (VectorStore.Make name path ∅) chunks
    = Ok (manager, col)
    /\ col = collection manager
    /\ total_documents (get_collection_stats manager)
       = Z.of_nat (length chunks)
    /\ (forall c, c ∈ chunks ->
          col !! chunk_id (meta c) = Some (entry_for c)).
Proof.
  intros Hrun Hne.
  assert (Hnodup := processed_ids_nodup _ _ _ _ Hrun).
  unfold create_vector_store. rewrite add_chunks_union by done. simpl.
  eexists _, _. split; [done|]. split; [done|].
  rewrite (left_id_L ∅ (∪)). split.
  - unfold get_collection_stats, collection_count. simpl. f_equal.
    rewrite <- length_map_to_list, map_to_list_to_map by (by rewrite keyed_fst).
    by rewrite length_map.
  - intros c Hc. apply elem_of_list_to_map_1; [by rewrite keyed_fst|].
    apply list_elem_of_fmap. by exists c.
Qed.

End indexing.

(** ** The splitter always returns *)
Section splitter_returns.
Import TextSplitter.

Lemma join_docs_nonempty (pieces : list string) (separator : string) :
  Forall (fun c => c <> EmptyString)
    (option_list (_join_docs pieces separator)).
Proof.
  unfold _join_docs. destruct (Py.strip (Py.join separator pieces)) eqn:Hs;
    simpl; constructor; [done|constructor].
Qed.

Lemma merge_loop_returns (sp : t) (splits : list string) (st : merge_state) :
  0 <= chunk_overlap sp ->
  total st = pieces_len (current_doc st) ->
  Forall (fun c => c <> EmptyString) (docs st) ->
  exists st',
    for_each (merge_step sp EmptyString) splits st = Ok st'
    /\ Forall (fun c => c <> EmptyString) (docs st').
Proof.
  intros Hov. revert st. induction splits as [|d splits IH];
    intros st Htot Hdocs; simpl.
  - by exists st.
  - destruct (merge_step_overlap sp st d Hov Htot)
      as (st1 & Hstep & Htot1 & Hcases).
    rewrite Hstep. simpl. apply IH; [done|].
    destruct Hcases as [[-> _]|[-> _]]; [done|].
    apply Forall_app. split; [done|apply join_docs_nonempty].
Qed.

Lemma merge_splits_returns (sp : t) (splits : list string) :
  0 <= chunk_overlap sp ->
  exists merged,
    _merge_splits sp splits EmptyString = Ok merged
    /\ Forall (fun c => c <> EmptyString) merged.
Proof.
  intros Hov. unfold _merge_splits.
  destruct (merge_loop_returns sp splits (MergeState [] [] 0) Hov)
    as (st' & Hrun & Hdocs); [done|constructor|].
  rewrite Hrun. simpl. eexists. split; [done|].
  apply Forall_app. split; [done|apply join_docs_nonempty].
Qed.

Lemma split_pieces_nonempty (text separator : string) :
  Forall (fun c => c <> EmptyString) (_split_text_with_regex text separator).
Proof.
  unfold _split_text_with_regex. apply Forall_forall. intros c Hc.
  by apply list_elem_of_filter in Hc as [Hc _].
Qed.

Lemma split_and_merge_returns (sp : t) (separator : string)
    (deeper : option (string -> result (list string))) (text : string) :
  0 <= chunk_overlap sp ->
  (forall split_deeper s,
     deeper = Some split_deeper ->
     exists r, split_deeper s = Ok r
               /\ Forall (fun c => c <> EmptyString) r) ->
  exists chunks,
    split_and_merge sp separator deeper text = Ok chunks
    /\ Forall (fun c => c <> EmptyString) chunks.
Proof.
  intros Hov Hdeeper. unfold split_and_merge.
  assert (Hflush : forall final_chunks good,
            Forall (fun c => c <> EmptyString) final_chunks ->
            exists r,
              (if (0 <? length good)%nat
               then merged_text ← _merge_splits sp good EmptyString;
                    Ok (final_chunks ++ merged_text)
               else Ok final_chunks) = Ok r
              /\ Forall (fun c => c <> EmptyString) r).
  { intros fc good Hfc. destruct (0 <? length good)%nat; [|by exists fc].
    destruct (merge_splits_returns sp good Hov) as (m & -> & Hm). simpl.
    eexists. split; [done|]. by apply Forall_app. }
  pose proof (split_pieces_nonempty text separator) as Hpieces.
  generalize dependent (_split_text_with_regex text separator).
  intros splits Hpieces.
  assert (Hloop : forall (acc : list string * list string),
            Forall (fun c => c <> EmptyString) acc.1 ->
            exists acc',
              for_each
                (fun '(final_chunks, _good_splits) s =>
                   if Py.len s <? chunk_size sp then
                     Ok (final_chunks, _good_splits ++ [s])
                   else
                     final_chunks ←
                       (if (0 <? length _good_splits)%nat
                        then merged_text ←
                               _merge_splits sp _good_splits EmptyString;
                             Ok (final_chunks ++ merged_text)
                        else Ok final_chunks);
                     match deeper with
                     | None => Ok (final_chunks ++ [s], [])
                     | Some split_deeper =>
                         other_info ← split_deeper s;
                         Ok (final_chunks ++ other_info, [])
                     end)
                splits acc = Ok acc'
              /\ Forall (fun c => c <> EmptyString) acc'.1).
  { induction splits as [|s splits IH]; intros [fc good] Hfc; simpl.
    - by exists (fc, good).
    - inversion Hpieces as [|? ? Hs Hrest]; subst.
      destruct (Py.len s <? chunk_size sp); simpl.
      + by apply IH.
      + destruct (Hflush fc good Hfc) as (fc1 & -> & Hfc1). simpl.
        destruct deeper as [split_deeper|].
        * destruct (Hdeeper split_deeper s eq_refl) as (r & -> & Hr). simpl.
          apply IH; [done|]. by apply Forall_app.
        * simpl. apply IH; [done|]. apply Forall_app. split; [done|].
          by constructor. }
  destruct (Hloop ([], [])) as ([fc good] & Hrun & Hfc); [constructor|].
  rewrite Hrun. simpl. by apply Hflush.
Qed.

Lemma _split_text_returns (sp : t) (separators : list string) (text : string) :
  0 <= chunk_overlap sp ->
  separators <> [] ->
  exists chunks,
    _split_text sp separators text = Ok chunks
    /\ Forall (fun c => c <> EmptyString) chunks.
Proof.
  intros Hov. revert text.
  induction separators as [|_s rest IH]; intros text Hne; [done|].
  simpl.
  assert (Hnone : forall (split_deeper : string -> result (list string)) s,
            None = Some split_deeper ->
            exists r, split_deeper s = Ok r
                      /\ Forall (fun c => c <> EmptyString) r) by done.
  destruct (decide (_s = EmptyString)).
  { by apply split_and_merge_returns. }
  destruct (Py.contains _s text).
  - apply split_and_merge_returns; [done|].
    destruct rest as [|s' rest']; [done|].
    intros f s [= <-]. by apply IH.
  - destruct rest as [|s' rest'].
    + by apply split_and_merge_returns.
    + by apply IH.
Qed.

End splitter_returns.

Lemma bind_ok {A B} (a : A) (k : A -> result B) : (Ok a ≫= k) = k a.
Proof. reflexivity. Qed.

Lemma bind_raise {A B} (e : exn) (k : A -> result B) :
  (Raise e ≫= k) = Raise e.
Proof. reflexivity. Qed.

(** ** document_processor.py: when processing fails *)
Section processing_returns.
Import DocumentProcessor.
Context `{Files}.

Lemma pages_loop_returns (self : t) filename file_ext pages_data acc :
  0 <= TextSplitter.chunk_overlap (text_splitter self) ->
  TextSplitter.separators (text_splitter self) <> [] ->
  Forall (fun c => text c <> EmptyString) acc ->
  exists chunks,
    for_each
      (fun all_chunks page_data =>
         text_chunks ←
           TextSplitter.split_text (text_splitter self) (pd_text page_data);
         Ok (add_page_chunks filename file_ext (pd_page page_data)
               text_chunks all_chunks))
      pages_data acc = Ok chunks
    /\ Forall (fun c => text c <> EmptyString) chunks.
Proof.
  intros Hov Hseps. revert acc.
  induction pages_data as [|pd pages IH]; intros acc Hacc.
  - by exists acc.
  - cbn [for_each].
    destruct (_split_text_returns (text_splitter self)
                (TextSplitter.separators (text_splitter self))
                (pd_text pd) Hov Hseps) as (ts & Hts_eq & Hts).
    unfold TextSplitter.split_text in *. cbv beta. rewrite Hts_eq.
    cbn [mbind result_bind]. apply IH. rewrite add_page_chunks_spec.
    apply Forall_app. split; [done|].
    apply Forall_forall. intros c Hc.
    apply list_elem_of_fmap in Hc as ([n piece] & -> & Hin).
    apply enumerate_elem_of in Hin as (i & Hi & _). simpl.
    rewrite Forall_forall in Hts. apply Hts.
    by apply list_elem_of_lookup_2 in Hi.
Qed.

(** X8.  A processor built by the constructor with an overlap that is
    not negative fails on a document only where the extraction fails
    (an unsupported type, a reader that raises): once the pages are
    extracted the chunks are returned, and none of them has an empty
    text. *)
Theorem process_document_fails_only_in_extraction
    (chunk_size chunk_overlap : Z) (self : t) (file_path filename : string) :
  __init__ chunk_size chunk_overlap = Ok self ->
  0 <= chunk_overlap ->
  (forall pages_data,
     extract (Py.lower (splitext filename).2) file_path = Ok pages_data ->
     exists chunks,
       process_document self file_path filename = Ok chunks
       /\ Forall (fun c => text c <> EmptyString) chunks)
  /\ (forall e,
        process_document self file_path filename = Raise e ->
        extract (Py.lower (splitext filename).2) file_path = Raise e).
Proof.
  intros Hinit Hov.
  assert (Hsp : text_splitter self
                = TextSplitter.Make chunk_size chunk_overlap
                    configured_separators).
  { unfold __init__, TextSplitter.init in Hinit.
    destruct (chunk_overlap >? chunk_size); [done|].
    simpl in Hinit. by inversion Hinit. }
  assert (Hloop : forall pages_data,
            exists chunks,
              for_each
                (fun all_chunks page_data =>
                   text_chunks ←
                     TextSplitter.split_text (text_splitter self)
                       (pd_text page_data);
                   Ok (add_page_chunks filename
                         (Py.lower (splitext filename).2)
                         (pd_page page_data) text_chunks all_chunks))
                pages_data [] = Ok chunks
              /\ Forall (fun c => text c <> EmptyString) chunks).
  { intros pages_data. apply pages_loop_returns; rewrite ?Hsp; simpl; try done. }
  unfold process_document. split.
  - intros pages_data ->. rewrite bind_ok. apply Hloop.
  - intros e. destruct (extract _ file_path) as [pages_data|e'].
    + rewrite bind_ok. destruct (Hloop pages_data) as (chunks & Hrun & _).
      rewrite Hrun. intros Hbad. discriminate Hbad.
    + rewrite bind_raise. intros [= ->]. reflexivity.
Qed.

Lemma extract_failures (file_ext file_path : string) (e : exn) :
  extract file_ext file_path = Raise e
  <-> (file_ext = ".pdf"
       /\ exists e0, pdf_page_texts file_path = Raise e0
                     /\ e = reading_error "PDF" e0)
      \/ (file_ext = ".docx"
          /\ exists e0, docx_paragraph_texts file_path = Raise e0
                        /\ e = reading_error "DOCX" e0)
      \/ (file_ext = ".txt"
          /\ exists e0, read_utf8 file_path = Raise e0
                        /\ e = reading_error "TXT" e0)
      \/ (file_ext <> ".pdf" /\ file_ext <> ".docx" /\ file_ext <> ".txt"
          /\ e = Exn ValueErrorC ("Unsupported file type: " +:+ file_ext)).
Proof.
  unfold extract, extract_text_from_pdf, extract_text_from_docx,
    extract_text_from_txt, reraise, reading_error.
  destruct (decide (file_ext = ".pdf")) as [->|Hpdf].
  { destruct (pdf_page_texts file_path) as [pages|e0]; simpl.
    - split; [done|]. intros [(_ & e0 & ? & _)|[[? _]|[[? _]|(? & _)]]]; done.
    - split.
      + intros [= <-]. left. split; [done|]. by exists e0.
      + intros [(_ & e1 & [= <-] & ->)|[[? _]|[[? _]|(? & _)]]]; done. }
  destruct (decide (file_ext = ".docx")) as [->|Hdocx].
  { destruct (docx_paragraph_texts file_path) as [paragraphs|e0]; simpl.
    - split; [done|]. intros [[? _]|[(_ & e0 & ? & _)|[[? _]|(_ & ? & _)]]]; done.
    - split.
      + intros [= <-]. right. left. split; [done|]. by exists e0.
      + intros [[? _]|[(_ & e1 & [= <-] & ->)|[[? _]|(_ & ? & _)]]]; done. }
  destruct (decide (file_ext = ".txt")) as [->|Htxt].
  { destruct (read_utf8 file_path) as [text|e0]; simpl.
    - split; [done|].
      intros [[? _]|[[? _]|[(_ & e0 & ? & _)|(_ & _ & ? & _)]]]; done.
    - split.
      + intros [= <-]. do 2 right. left. split; [done|]. by exists e0.
      + intros [[? _]|[[? _]|[(_ & e1 & [= <-] & ->)|(_ & _ & ? & _)]]]; done. }
  split.
  - intros [= <-]. by do 3 right.
  - intros [[? _]|[[? _]|[[? _]|(_ & _ & _ & ->)]]]; done.
Qed.

(** X9.  The failures of [process_document], all of them.  A
    processor built by the constructor with an overlap that is not
    negative raises on a document in exactly four cases: the reader of
    a PDF, DOCX or TXT file raises, and the exception is a plain
    [Exception] whose text is ["Error reading PDF: "], ["Error reading
    DOCX: "] or ["Error reading TXT: "] and the text of the reader's
    exception; or the extension, in lower case, is none of the three,
    and the exception is a [ValueError] that names it. *)
Theorem process_document_failures (chunk_size chunk_overlap : Z) (self : t)
    (file_path filename : string) (e : exn) :
  __init__ chunk_size chunk_overlap = Ok self ->
  0 <= chunk_overlap ->
  process_document self file_path filename = Raise e
  <-> (Py.lower (splitext filename).2 = ".pdf"
       /\ exists e0, pdf_page_texts file_path = Raise e0
                     /\ e = reading_error "PDF" e0)
      \/ (Py.lower (splitext filename).2 = ".docx"
          /\ exists e0, docx_paragraph_texts file_path = Raise e0
                        /\ e = reading_error "DOCX" e0)
      \/ (Py.lower (splitext filename).2 = ".txt"
          /\ exists e0, read_utf8 file_path = Raise e0
                        /\ e = reading_error "TXT" e0)
      \/ (Py.lower (splitext filename).2 <> ".pdf"
          /\ Py.lower (splitext filename).2 <> ".docx"
          /\ Py.lower (splitext filename).2 <> ".txt"
          /\ e = Exn ValueErrorC
                   ("Unsupported file type: "
                    +:+ Py.lower (splitext filename).2)).
Proof.
  intros Hinit Hov. rewrite <- extract_failures.
  assert (Hsp : text_splitter self
                = TextSplitter.Make chunk_size chunk_overlap
                    configured_separators).
  { unfold __init__, TextSplitter.init in Hinit.
    destruct (chunk_overlap >? chunk_size); [done|].
    simpl in Hinit. by inversion Hinit. }
  unfold process_document.
  destruct (extract _ file_path) as [pages_data|e'].
  - rewrite bind_ok.
    destruct (pages_loop_returns self filename
                (Py.lower (splitext filename).2) pages_data [])
      as (chunks & Hrun & _); [rewrite ?Hsp; simpl; done..|].
    rewrite Hrun. by split.
  - rewrite bind_raise. split; intros [= ->]; reflexivity.
Qed.

End processing_returns.

(** ** vector_store.py: construction *)
Section construction.
Import DocumentProcessor VectorStore.
Context `{Space} {W : Type} `{!Storage W}.

(** X10.  The recovery chain where it completes.  A store that opens is
    used as it is.  When the first opening fails, the directory is
    removed and a reopening that succeeds gives the client at the fixed
    path.  When the reopening fails too, with the first failure not an
    [InconsistentHashError] or the second one an
    [InconsistentHashError] again, the client is opened in a new
    directory named [./chroma_db_] and the clock's seconds. *)
Theorem recovery_chain_completes (w : W) :
  (forall w1,
     persistent_client db_path w = (Ok tt, w1) ->
     open_client w = (Ok "./chroma_db", w1))
  /\ (forall e1 w1 w2,
        persistent_client db_path w = (Raise e1, w1) ->
        persistent_client db_path (rmtree db_path w1) = (Ok tt, w2) ->
        open_client w = (Ok "./chroma_db", w2))
  /\ (forall e1 e2 w1 w2 w3 w4,
        persistent_client db_path w = (Raise e1, w1) ->
        persistent_client db_path (rmtree db_path w1) = (Raise e2, w2) ->
        is_inconsistent_hash e1 = false \/ is_inconsistent_hash e2 = true ->
        makedirs (fresh_path (unix_time w2)) w2 = (Ok tt, w3) ->
        persistent_client (fresh_path (unix_time w2)) w3 = (Ok tt, w4) ->
        open_client w
        = (Ok ("./chroma_db_" +:+ Py.str_of_int (unix_time w2)), w4)).
Proof.
  split; [|split].
  - intros w1 Ho1. unfold open_client, try_except, open_at.
    unfold mbind at 1, M_bind. by rewrite Ho1.
  - intros e1 w1 w2 Ho1 Ho2. unfold open_client, try_except, open_at.
    unfold mbind at 1, M_bind. rewrite Ho1. simpl.
    destruct (is_inconsistent_hash e1); simpl;
      unfold mbind at 1, M_bind; unfold modify at 1;
      unfold mbind at 1, M_bind; by rewrite Ho2.
  - intros e1 e2 w1 w2 w3 w4 Ho1 Ho2 Hclass Hmk Ho3.
    assert (Hfresh : open_client w = open_fresh w2).
    { destruct (is_inconsistent_hash e1) eqn:Hc1.
      - destruct Hclass as [|Hc2]; [done|].
        by eapply open_client_hash_error_twice.
      - by eapply open_client_other_error. }
    rewrite Hfresh. unfold open_fresh, gets.
    unfold mbind, M_bind, mret, M_ret. by rewrite Hmk, Ho3.
Qed.

(** X11.  After the client is open and the embedding model loaded, a
    collection that exists under the name is taken over with what it
    holds; when [get_collection] raises, the collection is created, and
    an exception of that creation leaves the constructor.  An exception
    of the model loading leaves the constructor too. *)
Theorem collection_is_reused_or_created (name client_path : string)
    (w w1 w2 : W) :
  open_client w = (Ok client_path, w1) ->
  (forall e w2',
     load_embedding_model "all-MiniLM-L6-v2" w1 = (Raise e, w2') ->
     __init__ name w = (Raise e, w2'))
  /\ (load_embedding_model "all-MiniLM-L6-v2" w1 = (Ok tt, w2) ->
      (forall col w3,
         get_collection client_path name w2 = (Ok col, w3) ->
         __init__ name w = (Ok (Make name client_path col), w3))
      /\ (forall e w3 col w4,
            get_collection client_path name w2 = (Raise e, w3) ->
            create_collection client_path name w3 = (Ok col, w4) ->
            __init__ name w = (Ok (Make name client_path col), w4))
      /\ (forall e w3 e' w4,
            get_collection client_path name w2 = (Raise e, w3) ->
            create_collection client_path name w3 = (Raise e', w4) ->
            __init__ name w = (Raise e', w4))).
Proof.
  intros Hopen. unfold __init__, try_except.
  unfold mbind, M_bind, mret, M_ret. rewrite Hopen. split.
  - intros e w2' Hload. by rewrite Hload.
  - intros Hload. rewrite Hload. split; [|split].
    + intros col w3 Hget. by rewrite Hget.
    + intros e w3 col w4 Hget Hcreate. rewrite Hget. simpl. by rewrite Hcreate.
    + intros e w3 e' w4 Hget Hcreate. rewrite Hget. simpl. by rewrite Hcreate.
Qed.

End construction.

(** ** llm_handler.py: the calls *)
Section handler_calls.
Import DocumentProcessor VectorStore LLMHandler.
Context `{Space} {W : Type} `{!Runtime W}.

Lemma create_context_loop_missing_page
    (numbered : list (Z * search_hit)) (parts : list string) :
  (exists i doc, (i, doc) ∈ numbered /\ page (hit_metadata doc) = None) ->
  for_each
    (fun context_parts '(i, doc) =>
       let metadata := hit_metadata doc in
       let text := hit_text doc in
       page ←
         match page metadata with
         | Some p => Ok p
         | None => Raise (Exn KeyErrorC (Py.squote +:+ "page" +:+ Py.squote))
         end;
       Ok (context_parts ++
             [Py.lf +:+ "Source " +:+ Py.str_of_int i +:+ " (Document: "
              +:+ document metadata +:+ ", Page: " +:+ Py.str_of_int page
              +:+ "):" +:+ Py.lf +:+ text +:+ Py.lf]))
    numbered parts
  = Raise (Exn KeyErrorC "'page'").
Proof.
  revert parts. induction numbered as [|[j d] numbered IH]; intros parts.
  - intros (i & doc & Hin & _). by apply elem_of_nil in Hin.
  - intros (i & doc & Hin & Hnone). simpl.
    destruct (page (hit_metadata d)) as [p|] eqn:Hp; simpl; [|done].
    apply IH. apply elem_of_cons in Hin as [Heq|Hin].
    + inversion Heq; subst. congruence.
    + by exists i, doc.
Qed.

Lemma create_context_missing_page (relevant_docs : list search_hit) :
  (exists doc, doc ∈ relevant_docs /\ page (hit_metadata doc) = None) ->
  create_context relevant_docs = Raise (Exn KeyErrorC "'page'").
Proof.
  intros (doc & Hin & Hnone). unfold create_context.
  rewrite create_context_loop_missing_page; [done|].
  apply list_elem_of_lookup in Hin as [i Hi].
  exists (1 + Z.of_nat i), doc. split; [|done].
  apply list_elem_of_lookup. exists i. by apply enumerate_lookup.
Qed.

(** X12.  An available handler that is given a retrieved chunk without a
    page raises [KeyError('page')] while it builds the context, before
    any process is started; the unavailable handler, on the same chunks,
    returns their citations with ["N/A"]. *)
Theorem missing_page_raises_when_available (st : state W) (query : string)
    (relevant_docs : list search_hit) :
  ollama_available (self st) = true ->
  (exists doc, doc ∈ relevant_docs /\ page (hit_metadata doc) = None) ->
  generate_answer query relevant_docs st
  = (Raise (Exn KeyErrorC "'page'"), counted st).
Proof.
  intros Hon Hmissing.
  unfold generate_answer, count_answer_call. unfold_effects. simpl.
  rewrite Hon. simpl. by rewrite (create_context_missing_page _ Hmissing).
Qed.

(** X13.  Whenever [generate_answer] returns, on an available handler
    or not, the sources are the citations of the retrieved chunks, one
    per chunk and in the order of retrieval. *)
Theorem sources_follow_retrieval (st st' : state W) (query : string)
    (relevant_docs : list search_hit) (answer : Json.value)
    (sources : list source) :
  generate_answer query relevant_docs st = (Ok (answer, sources), st') ->
  sources = map citation relevant_docs
  /\ length sources = length relevant_docs.
Proof.
  intros Hrun.
  assert (Hsrc : sources = format_sources relevant_docs).
  { revert Hrun.
    unfold generate_answer, count_answer_call, spawn. unfold_effects. simpl.
    destruct (ollama_available (self st)); simpl.
    - destruct (create_context relevant_docs) as [context|e]; simpl; [|done].
      destruct (subprocess_run _ 60 (world st)) as [[res|e] w']; simpl.
      + destruct (answer_of_output res); simpl; by intros [= _ <- _].
      + by intros [= _ <- _].
    - destruct (Json.str_add _ _); simpl; [|done]. by intros [= _ <- _]. }
  rewrite Hsrc, format_sources_map. by rewrite length_map.
Qed.

End handler_calls.

(** ** llm_handler.py: replies of the worker *)
Section worker_replies.
Import DocumentProcessor VectorStore LLMHandler.
Context `{Space} {W : Type} `{!Runtime W}.

(** X14.  An available handler returns from [generate_summary] on every
    outcome of the summary process, having started that one process.
    A process that raises gives the error text with the hint; no output
    at all gives the fixed message; output on the error stream alone is
    reported as an error; output that is not JSON is returned stripped,
    even when nothing is left of it. *)
Theorem summary_returns (st : state W) (text : string)
    (outcome : result completed) (w' : W) :
  ollama_available (self st) = true ->
  subprocess_run (summary_argv (self st) text) 60 (world st) = (outcome, w') ->
  exists summary,
    generate_summary text st
    = (Ok summary,
       State (self st) w' (spawned st ++ [summary_argv (self st) text])
         (answer_calls st))
    /\ match outcome with
       | Raise e =>
           summary
           = Json.Str ("Error generating summary: " +:+ exn_str e +:+ Py.lf
                       +:+ "Please ensure the Ollama worker venv is configured.")
       | Ok res =>
           (stdout res = EmptyString -> stderr res = EmptyString ->
            summary = Json.Str "No response from Ollama worker.")
           /\ (stdout res = EmptyString -> stderr res <> EmptyString ->
               summary
               = Json.Str ("Error generating summary: "
                           +:+ Py.strip (stderr res)))
           /\ (stdout res <> EmptyString ->
               is_ok (json_loads (Py.strip (stdout res))) = false ->
               summary = Json.Str (Py.strip (stdout res)))
       end.
Proof.
  intros Hon Hrun.
  unfold generate_summary, spawn. unfold_effects. simpl.
  rewrite Hon. simpl. rewrite Hrun.
  destruct outcome as [[out err]|e]; simpl; [|by eexists].
  unfold summary_of_output. simpl.
  destruct out as [|c out']; simpl.
  - destruct err as [|c err']; simpl; eexists; (split; [done|]);
      repeat split; try done.
  - unfold read_summary.
    destruct (json_loads (Py.strip (String c out'))) as [payload|e] eqn:Hload;
      simpl.
    + destruct (Json.get payload "ok" Json.Null) as [ok_field|e]; simpl.
      * destruct (Json.truthy ok_field); simpl.
        -- destruct (Json.get payload "answer" (Json.Str EmptyString)); simpl;
             eexists; (split; [done|]); repeat split; try done.
        -- destruct (Json.get payload "error" (Json.Str "Unknown error")); simpl;
             eexists; (split; [done|]); repeat split; try done.
      * eexists. split; [done|]. repeat split; try done.
    + eexists. split; [done|]. repeat split; try done.
Qed.

(** X15.  Replies that follow the worker's protocol.  When the chat
    process prints an object whose ["ok"] is true and whose ["answer"]
    is a non-empty text, that text is the answer; when ["ok"] is false
    or missing, the answer is ["Error generating response: "] and the
    reported error, or ["Unknown error"] when none is reported. *)
Theorem protocol_replies (st : state W) (query context : string)
    (relevant_docs : list search_hit) (res : completed) (w' : W)
    (fields : list (string * Json.value)) :
  ollama_available (self st) = true ->
  create_context relevant_docs = Ok context ->
  subprocess_run (chat_argv (self st) (user_prompt context query)) 60 (world st)
  = (Ok res, w') ->
  stdout res <> EmptyString ->
  json_loads (Py.strip (stdout res)) = Ok (Json.Dict fields) ->
  exists answer st',
    generate_answer query relevant_docs st
    = (Ok (answer, format_sources relevant_docs), st')
    /\ (forall text,
          Json.truthy (default Json.Null (Json.assoc fields "ok")) = true ->
          Json.assoc fields "answer" = Some (Json.Str text) ->
          text <> EmptyString ->
          answer = Json.Str text)
    /\ (Json.truthy (default Json.Null (Json.assoc fields "ok")) = false ->
        answer
        = Json.Str ("Error generating response: "
                    +:+ format (default (Json.Str "Unknown error")
                                  (Json.assoc fields "error")))).
Proof.
  intros Hon Hctx Hrun Hout Hload. eexists _, _.
  split; [by eapply generate_answer_available|].
  simpl. unfold answer_of_output.
  destruct (stdout res) as [|c out'] eqn:Hstdout; [done|].
  simpl Py.nonempty. cbv iota. unfold read_answer. rewrite Hload. simpl.
  split.
  - intros text Hok Hanswer Htext. rewrite Hok, Hanswer. simpl.
    by destruct text.
  - intros Hok. rewrite Hok. simpl. done.
Qed.

End worker_replies.

(** ** llm_handler.py: construction *)
Section handler_construction.
Import DocumentProcessor VectorStore LLMHandler.
Context `{Space} {W : Type} `{!Runtime W}.

(** X16.  The handler is available after construction exactly when the
    check passed: an interpreter is configured, the check process ran
    and printed something, and its output decodes to an object whose
    ["ok"] is true.  The interpreter recorded is the argument when it is
    a non-empty path and the environment's [OLLAMA_PY] otherwise. *)
Theorem available_iff_check_passed (model_name : string)
    (ollama_python_path : option string) (w : W) :
  (ollama_available (self (__init__ model_name ollama_python_path w).2) = true
   <-> check_passed (chosen_python ollama_python_path w) w)
  /\ ollama_python (self (__init__ model_name ollama_python_path w).2)
     = match ollama_python_path with
       | Some p => if Py.nonempty p then p
                   else default EmptyString (environ_get "OLLAMA_PY" w)
       | None => default EmptyString (environ_get "OLLAMA_PY" w)
       end.
Proof.
  destruct (available_is_check_passes model_name ollama_python_path w)
    as (Hav & Hpy & _).
  split; [|exact Hpy]. rewrite Hav. apply check_passes_iff.
Qed.

(** The reason recorded by the constructor is a text, unless it is the
    ["error"] field of the check's reply taken as it came. *)
Lemma recorded_reason (model_name : string)
    (ollama_python_path : option string) (w : W) :
  (exists reason,
     ollama_error_message (self (__init__ model_name ollama_python_path w).2)
     = Json.Str reason)
  \/ (exists res w' data,
        subprocess_run (check_argv (chosen_python ollama_python_path w)) 8 w
        = (Ok res, w')
        /\ json_loads (Py.strip (stdout res)) = Ok data
        /\ Json.get data "error" (Json.Str "Unknown error")
           = Ok (ollama_error_message
                   (self (__init__ model_name ollama_python_path w).2))).
Proof.
  unfold __init__, probe, read_check, spawn.
  fold (chosen_python ollama_python_path w).
  generalize (chosen_python ollama_python_path w). intros python.
  unfold set_error_message, set_available. unfold_effects. simpl.
  repeat (case_match; simpl in *; simplify_eq; eauto 10).
Qed.

End handler_construction.

Section handler_reason.
Import DocumentProcessor VectorStore LLMHandler.
Context `{Space} {W : Type} `{!Runtime W}.

(** X17.  A handler constructed against a check that reports its error,
    if any, as a text (as [ollama_worker.py] does) and found
    unavailable has a text as its reason, and answers every query and
    every request for a summary with ["LLM is unavailable. "] and that
    text, without raising. *)
Theorem constructed_handler_always_answers (model_name : string)
    (ollama_python_path : option string) (w : W) :
  (forall res w' data v,
     subprocess_run (check_argv (chosen_python ollama_python_path w)) 8 w
     = (Ok res, w') ->
     json_loads (Py.strip (stdout res)) = Ok data ->
     Json.get data "error" (Json.Str "Unknown error") = Ok v ->
     exists text, v = Json.Str text) ->
  ollama_available (self (__init__ model_name ollama_python_path w).2) = false ->
  exists reason,
    ollama_error_message (self (__init__ model_name ollama_python_path w).2)
    = Json.Str reason
    /\ (forall query relevant_docs,
          exists sources st',
            generate_answer query relevant_docs
              (__init__ model_name ollama_python_path w).2
            = (Ok (Json.Str ("LLM is unavailable. " +:+ reason), sources), st'))
    /\ (forall text,
          generate_summary text (__init__ model_name ollama_python_path w).2
          = (Ok (Json.Str ("LLM is unavailable. " +:+ reason)),
             (__init__ model_name ollama_python_path w).2)).
Proof.
  intros Htext Hoff.
  assert (Hreason : exists reason,
            ollama_error_message
              (self (__init__ model_name ollama_python_path w).2)
            = Json.Str reason).
  { destruct (recorded_reason model_name ollama_python_path w)
      as [Hr|(res & w' & data & Hrun & Hload & Hget)]; [done|].
    by destruct (Htext res w' data _ Hrun Hload Hget) as [text ->]; eexists. }
  destruct Hreason as [reason Hreason]. exists reason.
  split; [done|]. split.
  - intros query relevant_docs. eexists _, _.
    by apply generate_answer_unavailable.
  - intros text. by apply generate_summary_unavailable.
Qed.

(** X18.  When the recorded reason is not a text (the check reported a
    number, say, as its error), an unavailable handler raises a
    [TypeError] on every question and every request for a summary, and
    starts no process. *)
Theorem non_text_reason_raises (st : state W) (query text : string)
    (relevant_docs : list search_hit) :
  ollama_available (self st) = false ->
  (forall reason, ollama_error_message (self st) <> Json.Str reason) ->
  (exists e,
     generate_answer query relevant_docs st = (Raise e, counted st)
     /\ exn_cls e = TypeErrorC)
  /\ (exists e,
        generate_summary text st = (Raise e, st) /\ exn_cls e = TypeErrorC).
Proof.
  intros Hoff Hnot. split.
  - unfold generate_answer, count_answer_call. unfold_effects. simpl.
    rewrite Hoff. simpl.
    destruct (ollama_error_message (self st)) eqn:Hmsg; simpl;
      try (eexists; split; reflexivity).
    by destruct (Hnot s).
  - unfold generate_summary. unfold_effects. simpl. rewrite Hoff. simpl.
    destruct (ollama_error_message (self st)) eqn:Hmsg; simpl;
      try (eexists; split; reflexivity).
    by destruct (Hnot s).
Qed.

End handler_reason.

(** ** ollama_worker.py *)
Section worker.
Import OllamaWorker.
Context {O : Type} `{!Ollama O}.

(** The reply is an object of one of the two shapes of the protocol. *)
Lemma reply_shape (a : args) (o : O) :
  exists fields o',
    reply a o = (Ok (Json.Dict fields), o')
    /\ ((fields = [("ok", Json.Bool true)] /\ check a = true)
        \/ (exists content,
              fields = [("ok", Json.Bool true); ("answer", content)]
              /\ check a = false)
        \/ (exists text,
              fields = [("ok", Json.Bool false); ("error", Json.Str text)])).
Proof.
  assert (Hfail : forall text (o' : O),
            exists fields o'',
              (Ok (failure text), o') = (Ok (Json.Dict fields), o'')
              /\ ((fields = [("ok", Json.Bool true)] /\ check a = true)
                  \/ (exists content,
                        fields = [("ok", Json.Bool true); ("answer", content)]
                        /\ check a = false)
                  \/ (exists text,
                        fields
                        = [("ok", Json.Bool false); ("error", Json.Str text)]))).
  { intros text o'. eexists. eexists. split; [reflexivity|].
    right. right. by eexists. }
  unfold reply. destruct (check a) eqn:Hcheck; unfold_effects; simpl.
  - destruct (ollama_list o) as [[u|e] o']; simpl; [|apply Hfail].
    eexists. eexists. split; [reflexivity|]. by left.
  - destruct (ollama_chat _ _ _ _ o) as [[response|e] o']; simpl;
      [|apply Hfail].
    destruct (Json.get response "message" (Json.Dict [])) as [message|e];
      simpl; [|apply Hfail].
    destruct (Json.get message "content" (Json.Str EmptyString))
      as [content|e]; simpl; [|apply Hfail].
    eexists. eexists. split; [reflexivity|]. right. left. by eexists.
Qed.

(** X19.  Every run of the worker ends without a traceback, and what
    it prints is settled by the import and the command line.  When the
    import of [ollama] fails, the run prints the failure as one JSON
    object and ends with status 0, whatever the command line.
    Otherwise a command line that the parser refuses ends the run with
    status 2 and nothing on the standard output, and [-h] prints the
    help.  For a command line that is accepted the run ends with
    status 0 and prints one line, the JSON text of an object with a
    Boolean ["ok"], whatever [ollama.list()] and [ollama.chat()] do:
    when ["ok"] is false the object carries the error as a text and no
    answer; when it is true, a check carries nothing else, and a chat
    carries an ["answer"]. *)
Theorem worker_prints_one_object (argv : list string) (o : O) :
  exists fin o',
    run argv o = (Ok fin, o')
    /\ match import_ollama, parse_args argv with
       | Raise e, _ =>
           status fin = 0
           /\ out fin
              = json_dumps
                  (Json.Dict
                     [("ok", Json.Bool false);
                      ("error",
                       Json.Str ("Failed to import ollama: " +:+ exn_str e))])
                +:+ Py.lf
       | Ok _, Refused => status fin = 2 /\ out fin = EmptyString
       | Ok _, Helped help => status fin = 0 /\ out fin = help
       | Ok _, Parsed a =>
           status fin = 0
           /\ exists fields,
                out fin = json_dumps (Json.Dict fields) +:+ Py.lf
                /\ ((Json.assoc fields "ok" = Some (Json.Bool true)
                     /\ Json.assoc fields "error" = None
                     /\ (check a = true -> Json.assoc fields "answer" = None)
                     /\ (check a = false ->
                         is_Some (Json.assoc fields "answer")))
                    \/ (Json.assoc fields "ok" = Some (Json.Bool false)
                        /\ Json.assoc fields "answer" = None
                        /\ exists text,
                             Json.assoc fields "error" = Some (Json.Str text)))
       end.
Proof.
  unfold run, main. destruct import_ollama as [[]|e].
  - destruct (parse_args argv) as [a| |help].
    + destruct (reply_shape a o) as (fields & o' & Hreply & Hshape).
      unfold mbind, M_bind, mret, M_ret. rewrite Hreply. unfold printed.
      eexists _, _. split; [reflexivity|]. simpl. split; [done|].
      exists fields. split; [done|].
      destruct Hshape as [[-> Hc]|[(content & -> & Hc)|(text & ->)]].
      * left. simpl. split; [done|]. split; [done|]. split; [done|].
        intros Hn. congruence.
      * left. simpl. split; [done|]. split; [done|]. split.
        -- intros Hy. congruence.
        -- intros _. by eexists.
      * right. simpl. split; [done|]. split; [done|]. by eexists.
    + by eexists _, _.
    + by eexists _, _.
  - by eexists _, _.
Qed.

End worker.

(** ** app.py: the sidebar *)
Section sidebar.
Import DocumentProcessor VectorStore LLMHandler App VectorStoreManager Sidebar.
Context `{Files} `{Space} {W S : Type} `{!Runtime W}
        `{!Storage S} `{!Clearing S}.

Lemma default_processor_built :
  DocumentProcessor.__init__ default_chunk_size default_chunk_overlap
  = Ok default_processor.
Proof. reflexivity. Qed.

Lemma remember_document_fields (name : string) (s : @session _) :
  remember_document name s
  = Session (vector_store s) (chat_history s)
      (remember (documents_indexed s) name).
Proof.
  unfold remember_document, remember.
  destruct (decide (name ∈ documents_indexed s)); by destruct s.
Qed.

Lemma process_uploads_run (uploaded_files : list upload)
    (all_chunks : list chunk) (pg : @page _ W S) :
  process_uploads default_processor uploaded_files all_chunks pg
  = (Ok (all_chunks ++ batch uploaded_files), after_uploads uploaded_files pg).
Proof.
  revert all_chunks pg.
  induction uploaded_files as [|f files IH]; intros all_chunks pg.
  - unfold after_uploads, batch, processed_names. simpl.
    rewrite !app_nil_r. by destruct pg as [[vm lh [vs ch di]] d errs].
  - cbn [process_uploads]. unfold mbind at 1, M_bind.
    unfold process_upload, after_uploads, batch, processed_names,
      chunks_of_upload, error_lines.
    rewrite filter_cons. cbn [map concat].
    fold (processed f). destruct (processed f) as [chunks|e] eqn:Hf.
    + unfold modify_session, modify. unfold_effects. 
      rewrite IH. unfold after_uploads, batch. cbn.
      rewrite <- app_assoc. do 3 f_equal.
      rewrite decide_True by done. by rewrite remember_document_fields.
    + unfold show_error, modify. unfold_effects.
      rewrite IH. unfold after_uploads, batch. cbn.
      rewrite <- app_assoc. rewrite decide_False by done. done.
Qed.


Lemma fold_remember_elem (l names : list string) (x : string) :
  x ∈ fold_left remember l names <-> x ∈ names \/ x ∈ l.
Proof.
  revert names. induction l as [|n l IH]; intros names; simpl.
  - rewrite elem_of_nil. tauto.
  - rewrite IH, elem_of_cons. unfold remember.
    destruct (decide (n ∈ names)) as [Hin|Hout].
    + split; [tauto|]. intros [?|[->|?]]; tauto.
    + rewrite elem_of_app, list_elem_of_singleton. tauto.
Qed.

Lemma fold_remember_prefix (l names : list string) :
  names `prefix_of` fold_left remember l names.
Proof.
  revert names. induction l as [|n l IH]; intros names; simpl; [done|].
  etrans; [|apply IH]. unfold remember.
  destruct (decide (n ∈ names)); [done|]. by apply prefix_app_r.
Qed.

Lemma fold_remember_nodup (l names : list string) :
  NoDup names -> NoDup (fold_left remember l names).
Proof.
  revert names. induction l as [|n l IH]; intros names Hnd; simpl; [done|].
  apply IH. unfold remember. destruct (decide (n ∈ names)); [done|].
  apply NoDup_app. split; [done|]. split; [|apply NoDup_singleton].
  intros x Hx Hn. apply list_elem_of_singleton in Hn. by subst.
Qed.

Lemma processed_names_elem (uploaded_files : list upload) (name : string) :
  name ∈ processed_names uploaded_files
  <-> exists f, f ∈ uploaded_files /\ up_name f = name
                /\ is_ok (processed f) = true.
Proof.
  unfold processed_names. rewrite list_elem_of_fmap. split.
  - intros (f & -> & Hf). apply list_elem_of_filter in Hf as [Hok Hf].
    by exists f.
  - intros (f & Hf & <- & Hok). exists f. split; [done|].
    by apply list_elem_of_filter.
Qed.

(** The button, after the loop. *)
Lemma process_documents_run (uploaded_files : list upload)
    (pg : @page _ W S) :
  process_documents uploaded_files pg
  = match batch uploaded_files with
    | [] => (Ok tt, after_uploads uploaded_files pg)
    | _ :: _ =>
        match add_chunks (vector_manager (core pg)) (batch uploaded_files) with
        | Ok vm' =>
            (Ok tt,
             Page
               (App.Make vm' (llm_handler (core pg))
                  (Session (Some (collection vm'))
                     (chat_history (session_state (core pg)))
                     (documents_indexed
                        (session_state
                           (core (after_uploads uploaded_files pg))))))
               (disk pg)
               (errors (after_uploads uploaded_files pg)))
        | Raise e => (Raise e, after_uploads uploaded_files pg)
        end
    end.
Proof.
  unfold process_documents. rewrite default_processor_built.
  unfold mbind at 1, M_bind. unfold lift_result at 1. cbv iota beta.
  unfold mbind at 1, M_bind. rewrite process_uploads_run, app_nil_l.
  destruct (batch uploaded_files) as [|c rest] eqn:Hbatch; [done|].
  cbn [length Nat.ltb Nat.leb]. unfold gets, lift_result, create_vector_store.
  unfold_effects. cbn [after_uploads core vector_manager].
  destruct (add_chunks (vector_manager (core pg)) (c :: rest)) as [vm'|e];
    done.
Qed.

(** X20.  One file that cannot be processed does not stop the batch:
    every upload is attempted, each failure shows one line that names
    the file and carries the text of the exception, and each upload
    that is processed is listed as indexed, once, after the names
    already listed.  Neither the history nor the handler is touched. *)
Theorem every_upload_is_attempted (uploaded_files : list upload)
    (pg : @page _ W S) :
  exists r pg',
    process_documents uploaded_files pg = (r, pg')
    /\ errors pg' = errors pg ++ concat (map error_lines uploaded_files)
    /\ (forall name,
          name ∈ documents_indexed (session_state (core pg'))
          <-> name ∈ documents_indexed (session_state (core pg))
              \/ exists f, f ∈ uploaded_files /\ up_name f = name
                           /\ is_ok (processed f) = true)
    /\ documents_indexed (session_state (core pg))
       `prefix_of` documents_indexed (session_state (core pg'))
    /\ (NoDup (documents_indexed (session_state (core pg))) ->
        NoDup (documents_indexed (session_state (core pg'))))
    /\ chat_history (session_state (core pg'))
       = chat_history (session_state (core pg))
    /\ llm_handler (core pg') = llm_handler (core pg).
Proof.
  rewrite process_documents_run.
  assert (Hnames : forall name,
            name ∈ fold_left remember (processed_names uploaded_files)
                     (documents_indexed (session_state (core pg)))
            <-> name ∈ documents_indexed (session_state (core pg))
                \/ exists f, f ∈ uploaded_files /\ up_name f = name
                             /\ is_ok (processed f) = true).
  { intros name. by rewrite fold_remember_elem, processed_names_elem. }
  destruct (batch uploaded_files) as [|c rest];
    [|destruct (add_chunks _ _) as [vm'|e]];
    eexists _, _; (split; [reflexivity|]); cbn;
    (split; [done|]); (split; [exact Hnames|]);
    (split; [apply fold_remember_prefix|]);
    (split; [apply fold_remember_nodup|]); done.
Qed.

(** X21.  What the button does with the chunks of the batch.  With no
    chunk at all the index and the session's store are left as they
    were.  Chunks whose identifiers are pairwise distinct are added to
    the index, entries already there being kept, and the session's
    store is the collection.  A batch in which an identifier occurs
    twice is refused as a whole with a [DuplicateIDError]: the
    exception leaves the button, nothing is added and the session's
    store stays as it was. *)
Theorem batch_is_indexed_or_refused (uploaded_files : list upload)
    (pg : @page _ W S) :
  (batch uploaded_files = [] ->
   exists pg',
     process_documents uploaded_files pg = (Ok tt, pg')
     /\ vector_manager (core pg') = vector_manager (core pg)
     /\ vector_store (session_state (core pg'))
        = vector_store (session_state (core pg)))
  /\ (batch uploaded_files <> [] ->
      NoDup (map (fun c => chunk_id (meta c)) (batch uploaded_files)) ->
      exists pg',
        process_documents uploaded_files pg = (Ok tt, pg')
        /\ collection (vector_manager (core pg'))
           = collection (vector_manager (core pg))
             ∪ list_to_map (map keyed (batch uploaded_files))
        /\ vector_store (session_state (core pg'))
           = Some (collection (vector_manager (core pg'))))
  /\ (batch uploaded_files <> [] ->
      ~ NoDup (map (fun c => chunk_id (meta c)) (batch uploaded_files)) ->
      exists e pg',
        process_documents uploaded_files pg = (Raise e, pg')
        /\ exn_cls e = OtherError "DuplicateIDError"
        /\ vector_manager (core pg') = vector_manager (core pg)
        /\ vector_store (session_state (core pg'))
           = vector_store (session_state (core pg))).
Proof.
  rewrite process_documents_run. split; [|split].
  - intros ->. by eexists.
  - intros Hne Hnodup. rewrite add_chunks_union by done.
    destruct (batch uploaded_files); [done|]. by eexists.
  - intros Hne Hdup.
    destruct (add_chunks_duplicate (vector_manager (core pg)) _ Hne Hdup)
      as (e & -> & Hcls).
    destruct (batch uploaded_files); [done|]. by eexists _, _.
Qed.

Lemma batch_app (l1 l2 : list upload) : batch (l1 ++ l2) = batch l1 ++ batch l2.
Proof. unfold batch. by rewrite map_app, concat_app. Qed.

(** X22.  The same document twice in one batch.  When two uploads of a
    batch give the same chunks, and at least one, the button fails
    with a [DuplicateIDError] and indexes nothing of the batch, not
    even the other documents; the name is listed as indexed all the
    same. *)
Theorem same_document_twice_is_refused
    (before between after : list upload) (f1 f2 : upload)
    (chunks : list chunk) (pg : @page _ W S) :
  processed f1 = Ok chunks ->
  processed f2 = Ok chunks ->
  chunks <> [] ->
  exists e pg',
    process_documents (before ++ f1 :: between ++ f2 :: after) pg
    = (Raise e, pg')
    /\ exn_cls e = OtherError "DuplicateIDError"
    /\ vector_manager (core pg') = vector_manager (core pg)
    /\ vector_store (session_state (core pg'))
       = vector_store (session_state (core pg))
    /\ up_name f1 ∈ documents_indexed (session_state (core pg')).
Proof.
  intros Hf1 Hf2 Hne. rewrite process_documents_run.
  set (files := before ++ f1 :: between ++ f2 :: after).
  assert (Hbatch : batch files
                   = batch before ++ chunks ++ batch between ++ chunks
                     ++ batch after).
  { unfold files. rewrite batch_app. f_equal.
    change (f1 :: between ++ f2 :: after)
      with ([f1] ++ between ++ [f2] ++ after).
    rewrite !batch_app. unfold batch at 1 3. simpl.
    unfold chunks_of_upload. rewrite Hf1, Hf2. by rewrite !app_nil_r. }
  destruct chunks as [|c chunks']; [done|].
  assert (Hdup : ~ NoDup (map (fun c => chunk_id (meta c)) (batch files))).
  { rewrite Hbatch, !map_app. intros Hnd.
    apply NoDup_app in Hnd as (_ & _ & Hnd).
    apply NoDup_app in Hnd as (_ & Hdisj & _).
    apply (Hdisj (chunk_id (meta c))); [by left|].
    apply elem_of_app. right. apply elem_of_app. left. by left. }
  assert (Hnonempty : batch files <> []).
  { rewrite Hbatch. by destruct (batch before). }
  destruct (add_chunks_duplicate (vector_manager (core pg)) _ Hnonempty Hdup)
    as (e & -> & Hcls).
  destruct (batch files); [done|]. eexists _, _. split; [reflexivity|].
  cbn. split; [done|]. split; [done|]. split; [done|].
  apply fold_remember_elem. right. apply processed_names_elem.
  exists f1. split; [|by rewrite Hf1].
  unfold files. apply elem_of_app. right. by left.
Qed.

End sidebar.

(** ** vector_store.py: clearing *)
Section clearing.
Import DocumentProcessor VectorStore VectorStoreManager.
Context `{Space} {W : Type} `{!Storage W} `{!Clearing W}.

Lemma clear_vector_store_returns (self : t) (w : W) :
  exists self' w',
    clear_vector_store self w = (Ok self', w')
    /\ collection_name self' = collection_name self
    /\ client self' = client self.
Proof.
  unfold clear_vector_store. unfold_effects. simpl.
  destruct (delete_collection _ _ w) as [[[]|e] w1]; simpl; [|by eexists _, _].
  destruct (create_collection _ _ w1) as [[col|e] w2]; simpl; by eexists _, _.
Qed.

(** X23.  [clear_vector_store] never raises and keeps the client and
    the name.  When the collection is deleted and created anew, the
    manager holds the new collection.  When the deletion raises, or the
    creation after it, the manager is left holding the collection it
    had (in the second case one that the client has deleted), and the
    only trace is a line on the standard output. *)
Theorem clear_vector_store_never_raises (self : t) (w : W) :
  exists self' w',
    clear_vector_store self w = (Ok self', w')
    /\ collection_name self' = collection_name self
    /\ client self' = client self
    /\ (forall e w1,
          delete_collection (client self) (collection_name self) w
          = (Raise e, w1) ->
          self' = self
          /\ w' = print ("Error clearing vector store: " +:+ exn_str e) w1)
    /\ (forall w1 e w2,
          delete_collection (client self) (collection_name self) w
          = (Ok tt, w1) ->
          create_collection (client self) (collection_name self) w1
          = (Raise e, w2) ->
          self' = self
          /\ w' = print ("Error clearing vector store: " +:+ exn_str e) w2)
    /\ (forall w1 col w2,
          delete_collection (client self) (collection_name self) w
          = (Ok tt, w1) ->
          create_collection (client self) (collection_name self) w1
          = (Ok col, w2) ->
          collection self' = col /\ w' = w2).
Proof.
  unfold clear_vector_store. unfold_effects. simpl.
  destruct (delete_collection _ _ w) as [[[]|e] w1] eqn:Hdel; simpl.
  - destruct (create_collection _ _ w1) as [[col|e] w2] eqn:Hcre; simpl;
      eexists _, _; (split; [reflexivity|]); simpl;
      (split; [done|]); (split; [done|]);
      repeat split; intros; simplify_eq; try done; congruence.
  - eexists _, _. split; [reflexivity|]. split; [done|]. split; [done|].
    repeat split; intros; simplify_eq; try done; congruence.
Qed.

End clearing.

(** ** app.py: clearing the data *)
Section clearing_the_page.
Import DocumentProcessor VectorStore LLMHandler App VectorStoreManager Sidebar.
Context `{Files} `{Space} {W S : Type} `{!Runtime W}
        `{!Storage S} `{!Clearing S}.

(** X24.  The [Clear All Data] button never fails, whatever the store
    does: the session is left with no store, no history and no
    document name, and the chat input that follows takes no question,
    adding nothing to the history and starting no search. *)
Theorem clear_all_data_locks_the_chat (pg : @page _ W S)
    (typed : option string) :
  exists pg',
    clear_all_data pg = (Ok tt, pg')
    /\ session_state (core pg') = Session None [] []
    /\ llm_handler (core pg') = llm_handler (core pg)
    /\ errors pg' = errors pg
    /\ chat_on_page typed pg' = (Ok tt, pg').
Proof.
  unfold clear_all_data, modify_session, on_disk. unfold_effects. simpl.
  destruct (clear_vector_store_returns (vector_manager (core pg)) (disk pg))
    as (vm' & d' & Hclear & _).
  rewrite Hclear. eexists. split; [reflexivity|]. simpl.
  repeat split; try done.
Qed.

End clearing_the_page.

(** ** document_processor.py: statistics *)
Section statistics.
Import DocumentProcessor DocumentStats.
Context `{Files} `{Division}.

Lemma processed_texts_nonempty (chunk_size chunk_overlap : Z) (self : t)
    (file_path filename : string) (chunks : list chunk) :
  __init__ chunk_size chunk_overlap = Ok self ->
  0 <= chunk_overlap ->
  process_document self file_path filename = Ok chunks ->
  Forall (fun c => text c <> EmptyString) chunks.
Proof.
  intros Hinit Hov Hrun.
  assert (Hsp : text_splitter self
                = TextSplitter.Make chunk_size chunk_overlap
                    configured_separators).
  { unfold __init__, TextSplitter.init in Hinit.
    destruct (chunk_overlap >? chunk_size); [done|].
    simpl in Hinit. by inversion Hinit. }
  unfold process_document in Hrun.
  destruct (extract _ file_path) as [pages_data|e]; [|done].
  rewrite bind_ok in Hrun.
  destruct (pages_loop_returns self filename (Py.lower (splitext filename).2)
              pages_data []) as (chunks' & Hrun' & Hall);
    rewrite ?Hsp; simpl; try done.
  rewrite Hrun' in Hrun. by inversion Hrun; subst.
Qed.

Lemma processed_documents_named (self : t) (file_path filename : string)
    (chunks : list chunk) :
  process_document self file_path filename = Ok chunks ->
  Forall (fun c => document (meta c) = filename) chunks.
Proof.
  unfold process_document. intros Hrun.
  destruct (extract _ file_path) as [pages_data|e]; [|done].
  rewrite bind_ok in Hrun.
  apply process_pages_spec in Hrun as (splits & _ & ->). simpl.
  apply Forall_forall. intros c Hc.
  apply zip_with_concat_elem in Hc as (q & pd & ts & _ & _ & Hc).
  unfold page_chunks in Hc. by apply list_elem_of_fmap in Hc as (ic & -> & _).
Qed.

Lemma sum_of_lengths_from (chunks : list chunk) (start : Z) :
  fold_left (fun total c => total + Py.len (text c)) chunks start
  = start + sum_of_lengths chunks.
Proof.
  unfold sum_of_lengths. revert start.
  induction chunks as [|c chunks IH]; intros start; simpl; [lia|].
  rewrite IH, (IH (0 + Py.len (text c))). lia.
Qed.

Lemma sum_of_lengths_at_least (chunks : list chunk) :
  Forall (fun c => text c <> EmptyString) chunks ->
  Z.of_nat (length chunks) <= sum_of_lengths chunks.
Proof.
  induction 1 as [|c chunks Hc _ IH]; [done|].
  unfold sum_of_lengths. simpl. rewrite sum_of_lengths_from.
  assert (1 <= Py.len (text c)).
  { unfold Py.len. destruct (text c); [done|]. simpl. lia. }
  lia.
Qed.

(** X25.  The statistics of one processed document.  The chunks are
    counted, there is at least one character per chunk, and the
    document count is 1 when there is a chunk, the average then being
    the quotient of the two totals, a division by a positive number.
    With no chunk every figure is the integer 0 and nothing is
    divided. *)
Theorem stats_of_a_processed_document (chunk_size chunk_overlap : Z)
    (self : t) (file_path filename : string) (chunks : list chunk) :
  __init__ chunk_size chunk_overlap = Ok self ->
  0 <= chunk_overlap ->
  process_document self file_path filename = Ok chunks ->
  total_chunks (get_document_stats chunks) = Z.of_nat (length chunks)
  /\ total_chunks (get_document_stats chunks)
     <= total_characters (get_document_stats chunks)
  /\ (chunks = [] -> get_document_stats chunks = Stats 0 0 (IntNumber 0) 0)
  /\ (chunks <> [] ->
      documents (get_document_stats chunks) = 1
      /\ 0 < total_chunks (get_document_stats chunks)
      /\ avg_chunk_size (get_document_stats chunks)
         = FloatNumber
             (true_divide (total_characters (get_document_stats chunks))
                (total_chunks (get_document_stats chunks)))).
Proof.
  intros Hinit Hov Hrun. split; [done|]. split; [|split].
  - simpl. apply sum_of_lengths_at_least. by eapply processed_texts_nonempty.
  - by intros ->.
  - intros Hne. apply processed_documents_named in Hrun.
    destruct chunks as [|c chunks]; [done|]. split; [|split].
    + unfold get_document_stats, documents.
      assert (Hset : (list_to_set (map (fun c => document (meta c)) (c :: chunks))
                      : gset string) = {[ filename ]}).
      { apply set_eq. intros x. rewrite elem_of_list_to_set, list_elem_of_fmap.
        rewrite elem_of_singleton. split.
        - intros (c' & -> & Hc'). rewrite Forall_forall in Hrun. by apply Hrun.
        - intros ->. exists c. split; [|by left].
          by inversion Hrun. }
      by rewrite Hset, size_singleton.
    + simpl. lia.
    + done.
Qed.

End statistics.

(** ** llm_handler.py: when the answer is returned *)
Section handler_returns.
Import DocumentProcessor VectorStore LLMHandler.
Context `{Space} {W : Type} `{!Runtime W}.

Lemma create_context_loop_builds (numbered : list (Z * search_hit))
    (parts : list string) :
  Forall (fun id : Z * search_hit => is_Some (page (hit_metadata id.2)))
    numbered ->
  exists parts',
    for_each
      (fun context_parts '(i, doc) =>
         let metadata := hit_metadata doc in
         let text := hit_text doc in
         page ←
           match page metadata with
           | Some p => Ok p
           | None => Raise (Exn KeyErrorC (Py.squote +:+ "page" +:+ Py.squote))
           end;
         Ok (context_parts ++
               [Py.lf +:+ "Source " +:+ Py.str_of_int i +:+ " (Document: "
                +:+ document metadata +:+ ", Page: " +:+ Py.str_of_int page
                +:+ "):" +:+ Py.lf +:+ text +:+ Py.lf]))
      numbered parts
    = Ok parts'.
Proof.
  intros Hall. revert parts.
  induction Hall as [|[i d] numbered [p Hp] _ IH]; intros parts; simpl.
  - by eexists.
  - simpl in Hp. rewrite Hp. simpl. apply IH.
Qed.

Lemma create_context_builds (relevant_docs : list search_hit) :
  Forall (fun d => is_Some (page (hit_metadata d))) relevant_docs ->
  exists context, create_context relevant_docs = Ok context.
Proof.
  intros Hall. unfold create_context.
  destruct (create_context_loop_builds (Py.enumerate 1 relevant_docs) [])
    as (parts & Hparts).
  - apply Forall_forall. intros [i d] Hin.
    apply enumerate_elem_of in Hin as (n & Hn & _). simpl.
    rewrite Forall_forall in Hall. apply Hall.
    by apply list_elem_of_lookup_2 in Hn.
  - cbv zeta in Hparts. rewrite Hparts. by eexists.
Qed.

(** With a page on every chunk, and a text as the reason of a handler
    that is unavailable, [generate_answer] returns. *)
Lemma generate_answer_returns (st : state W) (query : string)
    (relevant_docs : list search_hit) :
  Forall (fun d => is_Some (page (hit_metadata d))) relevant_docs ->
  ollama_available (self st) = true
  \/ (exists reason, ollama_error_message (self st) = Json.Str reason) ->
  exists answer st',
    generate_answer query relevant_docs st
    = (Ok (answer, format_sources relevant_docs), st')
    /\ self st' = self st
    /\ answer_calls st' = S (answer_calls st).
Proof.
  intros Hpages Hready.
  destruct (ollama_available (self st)) eqn:Hav.
  - destruct (create_context_builds _ Hpages) as (context & Hctx).
    destruct (subprocess_run (chat_argv (self st) (user_prompt context query))
                60 (world st)) as [outcome w'] eqn:Hrun.
    rewrite (generate_answer_available _ _ _ _ _ _ Hav Hctx Hrun).
    by eexists _, _.
  - destruct Hready as [|[reason Hreason]]; [done|].
    rewrite (generate_answer_unavailable _ _ _ _ Hav Hreason).
    by eexists _, _.
Qed.

End handler_returns.

(** ** From the upload to the answer *)
Section asking_after_processing.
Import DocumentProcessor VectorStore LLMHandler App VectorStoreManager Sidebar.
Context `{Files} `{Space} {W S : Type} `{!Runtime W}
        `{!Storage S} `{!Clearing S}.

Lemma processed_have_pages (self : DocumentProcessor.t)
    (file_path filename : string) (chunks : list chunk) :
  process_document self file_path filename = Ok chunks ->
  Forall (fun c => is_Some (DocumentProcessor.page (meta c))) chunks.
Proof.
  unfold process_document. intros Hrun.
  destruct (extract _ file_path) as [pages_data|e]; [|done].
  rewrite bind_ok in Hrun.
  apply process_pages_spec in Hrun as (splits & _ & ->). simpl.
  apply Forall_forall. intros c Hc.
  apply zip_with_concat_elem in Hc as (q & pd & ts & _ & _ & Hc).
  unfold page_chunks in Hc. by apply list_elem_of_fmap in Hc as (ic & -> & _).
Qed.

Lemma batch_have_pages (uploaded_files : list upload) :
  Forall (fun c => is_Some (DocumentProcessor.page (meta c))) (batch uploaded_files).
Proof.
  unfold batch. apply Forall_concat, Forall_fmap, Forall_forall.
  intros f _. unfold compose, chunks_of_upload. cbv beta.
  destruct (processed f) as [chunks|e] eqn:Hf; [|constructor].
  by eapply processed_have_pages.
Qed.

Lemma ranked_chunks (query : string) (chunks : list chunk)
    (ranked : list (string * entry)) :
  ranked ≡ₚ map keyed chunks ->
  StronglySorted (closer (encode query)) ranked ->
  exists ranked_chunks,
    ranked = map keyed ranked_chunks
    /\ ranked_chunks ≡ₚ chunks
    /\ StronglySorted (nearer query) ranked_chunks.
Proof.
  intros Hperm Hsorted.
  apply Permutation_map_inv in Hperm as (ranked_chunks & -> & Hperm).
  exists ranked_chunks. split; [done|]. split; [done|].
  clear Hperm. induction ranked_chunks as [|c l IH]; [constructor|].
  simpl in Hsorted. inversion Hsorted as [|? ? Hl Hc]; subst.
  constructor; [by apply IH|].
  apply Forall_forall. intros c' Hc'. rewrite Forall_forall in Hc.
  apply (Hc (keyed c')). apply list_elem_of_fmap. by exists c'.
Qed.

(** X26.  From the upload to the answer.  After a batch with pairwise
    distinct identifiers is processed into an empty index, a question
    is always answered: neither the search nor the handler raises (the
    chunks of processed documents all carry a page), and the history
    grows by the question and one answer.  The sources of the answer
    cite the first four chunks of a ranking of the whole batch by
    distance to the question, nearest first: four different chunks, or
    every chunk of the batch when it has fewer, and no chunk that is
    left out is nearer to the question than one that is cited.  The
    handler is taken to be available, or unavailable for a reason that
    is a text. *)
Theorem question_after_processing (uploaded_files : list upload)
    (pg : @page _ W S) (query : string) :
  collection (vector_manager (core pg)) = ∅ ->
  batch uploaded_files <> [] ->
  NoDup (map (fun c => chunk_id (meta c)) (batch uploaded_files)) ->
  query <> EmptyString ->
  ollama_available (self (llm_handler (core pg))) = true
  \/ (exists reason,
        ollama_error_message (self (llm_handler (core pg))) = Json.Str reason) ->
  exists pg1 pg2 answer ranked,
    process_documents uploaded_files pg = (Ok tt, pg1)
    /\ chat_on_page (Some query) pg1 = (Ok tt, pg2)
    /\ ranked ≡ₚ batch uploaded_files
    /\ StronglySorted (nearer query) ranked
    /\ chat_history (session_state (core pg2))
       = chat_history (session_state (core pg))
         ++ [ Turn "user" (Json.Str query) None;
              Turn "assistant" answer
                (Some (map citation
                         (map (hit_for query) (take 4 ranked)))) ]
    /\ length (take 4 ranked) = Nat.min 4 (length (batch uploaded_files))
    /\ (forall cited left_out,
          cited ∈ take 4 ranked -> left_out ∈ drop 4 ranked ->
          nearer query cited left_out).
Proof.
  intros Hempty Hne Hnodup Hquery Hready.
  set (ranked := merge_sort (closer (encode query))
                   (map_to_list
                      (collection (vector_manager (core pg))
                       ∪ list_to_map (map keyed (batch uploaded_files))))).
  assert (Hperm : ranked ≡ₚ map keyed (batch uploaded_files)).
  { unfold ranked. rewrite merge_sort_Permutation, Hempty, (left_id_L ∅ (∪)).
    apply map_to_list_to_map. by rewrite keyed_fst. }
  assert (Hall : StronglySorted (closer (encode query)) ranked)
    by (apply StronglySorted_merge_sort; apply _).
  destruct (ranked_chunks query _ _ Hperm Hall)
    as (chunks & Hranked & Hchunks & Hsorted).
  set (hits := map (hit_of (encode query)) (take 4 ranked)).
  assert (Hhits : hits = map (hit_for query) (take 4 chunks)).
  { unfold hits. rewrite Hranked. change (map keyed chunks) with (keyed <$> chunks).
    rewrite <- fmap_take. apply hits_of_keyed. }
  assert (Hlen : length (take 4 chunks)
                 = Nat.min 4 (length (batch uploaded_files))).
  { by rewrite length_take, Hchunks. }
  assert (Hpages : Forall (fun d => is_Some (DocumentProcessor.page
                                               (hit_metadata d))) hits).
  { rewrite Hhits. apply Forall_forall. intros h Hh.
    apply list_elem_of_fmap in Hh as (c & -> & Hc). simpl.
    apply elem_of_take in Hc as (i & Hc & _).
    apply list_elem_of_lookup_2 in Hc. rewrite Hchunks in Hc.
    pose proof (batch_have_pages uploaded_files) as Hbatch.
    rewrite Forall_forall in Hbatch. by apply Hbatch. }
  destruct (generate_answer_returns (llm_handler (core pg)) query hits
              Hpages Hready) as (answer & st' & Hanswer & _).
  assert (Hsome : (0 <? length hits)%nat = true).
  { rewrite Hhits, length_map, Hlen. destruct (batch uploaded_files); [done|].
    simpl. apply Nat.ltb_lt. lia. }
  assert (Hrun :
    process_documents uploaded_files pg
    = (Ok tt,
       Page
         (App.Make
            (VectorStore.Make (collection_name (vector_manager (core pg)))
               (client (vector_manager (core pg)))
               (collection (vector_manager (core pg))
                ∪ list_to_map (map keyed (batch uploaded_files))))
            (llm_handler (core pg))
            (Session
               (Some (collection (vector_manager (core pg))
                      ∪ list_to_map (map keyed (batch uploaded_files))))
               (chat_history (session_state (core pg)))
               (documents_indexed
                  (session_state (core (after_uploads uploaded_files pg))))))
         (disk pg) (errors (after_uploads uploaded_files pg)))).
  { rewrite process_documents_run, add_chunks_union by done.
    by destruct (batch uploaded_files). }
  eexists _, _, answer, chunks.
  split; [exact Hrun|].
  split; [|split; [done|split; [done|split; [|split; [done|]]]]].
  - unfold chat_on_page, chat, answer_query, append_turn, on_llm_handler.
    unfold_effects. cbn [core session_state vector_store vector_manager
                         llm_handler fst snd].
    assert (Hq : Py.nonempty query = true) by (by destruct query).
    rewrite Hq, search_similar_ranked by lia.
    cbn [collection vector_manager llm_handler].
    change (Z.to_nat 4) with 4%nat. fold ranked. fold hits.
    rewrite Hsome. cbv beta iota. cbn [llm_handler].
    rewrite Hanswer. reflexivity.
  - cbn. by rewrite <- app_assoc, format_sources_map, Hhits.
  - intros cited left_out Hcited Hleft.
    rewrite <- (take_drop 4 chunks) in Hsorted.
    by eapply StronglySorted_app_1_elem_of.
Qed.

End asking_after_processing.

(** * Further examples of the properties *)
Section document_examples.
Import DocumentProcessor.

(** The theorem at the three-page PDF of the examples. *)
Lemma pdf_pages_keep_their_numbers_witness :
  exists pages_data,
    @extract_text_from_pdf Examples.files "/tmp/upload1.pdf" = Ok pages_data
    /\ (forall pd,
          pd ∈ pages_data <->
          exists i : nat,
            MoreExamples.report_pages !! i = Some (pd_text pd)
            /\ Py.strip (pd_text pd) <> EmptyString
            /\ pd_page pd = Z.of_nat i + 1
            /\ pd_total_pages pd
               = Z.of_nat (length MoreExamples.report_pages))
    /\ StronglySorted Z.lt (map pd_page pages_data).
Proof.
  apply (@pdf_pages_keep_their_numbers Examples.files "/tmp/upload1.pdf"
           MoreExamples.report_pages).
  reflexivity.
Defined.

(** The chunks of that PDF. *)
Lemma chunk_ids_distinct_witness :
  NoDup (map (fun c => chunk_id (meta c)) Examples.report_chunks).
Proof.
  apply (@chunk_ids_distinct Examples.files Examples.processor
           "/tmp/upload1.pdf" "Report.PDF").
  vm_compute. reflexivity.
Defined.

(** The processor of the examples on that PDF. *)
Lemma process_document_fails_only_in_extraction_witness :
  (forall pages_data,
     @extract Examples.files (Py.lower (@splitext Examples.files "Report.PDF").2)
       "/tmp/upload1.pdf" = Ok pages_data ->
     exists chunks,
       @process_document Examples.files Examples.processor
         "/tmp/upload1.pdf" "Report.PDF" = Ok chunks
       /\ Forall (fun c => text c <> EmptyString) chunks)
  /\ (forall e,
        @process_document Examples.files Examples.processor
          "/tmp/upload1.pdf" "Report.PDF" = Raise e ->
        @extract Examples.files (Py.lower (@splitext Examples.files "Report.PDF").2)
          "/tmp/upload1.pdf" = Raise e).
Proof.
  apply (@process_document_fails_only_in_extraction Examples.files 20 5
           Examples.processor "/tmp/upload1.pdf" "Report.PDF").
  - reflexivity.
  - lia.
Defined.

(** A text file that is not there. *)
Lemma process_document_failures_witness :
  @process_document Examples.files Examples.processor
    "/tmp/upload2.txt" "notes.txt"
  = Raise (reading_error "TXT" MoreExamples.not_found)
  <-> (Py.lower (@splitext Examples.files "notes.txt").2 = ".pdf"
       /\ exists e0, @pdf_page_texts Examples.files "/tmp/upload2.txt" = Raise e0
                     /\ reading_error "TXT" MoreExamples.not_found
                        = reading_error "PDF" e0)
      \/ (Py.lower (@splitext Examples.files "notes.txt").2 = ".docx"
          /\ exists e0,
               @docx_paragraph_texts Examples.files "/tmp/upload2.txt" = Raise e0
               /\ reading_error "TXT" MoreExamples.not_found
                  = reading_error "DOCX" e0)
      \/ (Py.lower (@splitext Examples.files "notes.txt").2 = ".txt"
          /\ exists e0, @read_utf8 Examples.files "/tmp/upload2.txt" = Raise e0
                        /\ reading_error "TXT" MoreExamples.not_found
                           = reading_error "TXT" e0)
      \/ (Py.lower (@splitext Examples.files "notes.txt").2 <> ".pdf"
          /\ Py.lower (@splitext Examples.files "notes.txt").2 <> ".docx"
          /\ Py.lower (@splitext Examples.files "notes.txt").2 <> ".txt"
          /\ reading_error "TXT" MoreExamples.not_found
             = Exn ValueErrorC
                 ("Unsupported file type: "
                  +:+ Py.lower (@splitext Examples.files "notes.txt").2)).
Proof.
  apply (@process_document_failures Examples.files 20 5 Examples.processor
           "/tmp/upload2.txt" "notes.txt"
           (reading_error "TXT" MoreExamples.not_found)).
  - reflexivity.
  - lia.
Defined.

End document_examples.

Section store_examples.
Import DocumentProcessor VectorStore.

(** A revised note and a new memo are added to the index of the
    examples: the first draft stays, the memo is stored. *)
Lemma add_documents_only_adds_witness :
  exists self',
    @add_documents Examples.by_length Examples.store
      [Examples.note_revised; MoreExamples.memo] = Ok self'
    /\ collection_name self' = collection_name Examples.store
    /\ client self' = client Examples.store
    /\ (forall id e,
          collection Examples.store !! id = Some e ->
          collection self' !! id = Some e)
    /\ (forall c,
          c ∈ [Examples.note_revised; MoreExamples.memo] ->
          collection Examples.store !! chunk_id (meta c) = None ->
          collection self' !! chunk_id (meta c) = Some (entry_for c))
    /\ (forall id,
          collection Examples.store !! id = None ->
          id ∉ map (fun c => chunk_id (meta c))
                 [Examples.note_revised; MoreExamples.memo] ->
          collection self' !! id = None).
Proof.
  apply (@add_documents_only_adds Examples.by_length Examples.store
           [Examples.note_revised; MoreExamples.memo]).
  - discriminate.
  - apply (bool_decide_unpack _). vm_compute. reflexivity.
Defined.

(** The same chunk twice in one batch. *)
Lemma add_documents_refusals_witness :
  exists e,
    @add_documents Examples.by_length Examples.store
      [MoreExamples.memo; MoreExamples.memo] = Raise e
    /\ exn_cls e = OtherError "DuplicateIDError".
Proof.
  apply (proj2 (@add_documents_refusals Examples.by_length Examples.store
                  [MoreExamples.memo; MoreExamples.memo])).
  - discriminate.
  - intros Hnodup. apply (bool_decide_pack _) in Hnodup.
    vm_compute in Hnodup. exact Hnodup.
Defined.

(** One hit is asked for from the index of the examples, which holds
    two entries. *)
Lemma search_similar_top_k_witness :
  exists ranked,
    ranked ≡ₚ map_to_list (collection Examples.store)
    /\ StronglySorted (closer (@encode Examples.by_length "a memo")) ranked
    /\ search_similar Examples.store "a memo" 1
       = Ok (map (hit_of (@encode Examples.by_length "a memo"))
               (take (Z.to_nat 1) ranked))
    /\ length (take (Z.to_nat 1) ranked)
       = Nat.min (Z.to_nat 1) (size (collection Examples.store))
    /\ (forall near far,
          near ∈ take (Z.to_nat 1) ranked ->
          far ∈ drop (Z.to_nat 1) ranked ->
          closer (@encode Examples.by_length "a memo") near far).
Proof.
  apply (proj2 (@search_similar_top_k Examples.by_length Examples.store
                  "a memo" 1)).
  lia.
Defined.

(** The two notes are added to an empty index and five hits asked
    for. *)
Lemma search_finds_what_was_added_witness :
  exists hits,
    search_similar Examples.store "a memo" 5 = Ok hits
    /\ hits ≡ₚ map (hit_for "a memo") [Examples.other_note; Examples.note]
    /\ StronglySorted (@dist_le Examples.by_length) (map hit_distance hits).
Proof.
  apply (@search_finds_what_was_added Examples.by_length
           default_collection_name db_path
           [Examples.other_note; Examples.note] Examples.store "a memo" 5).
  - vm_compute. reflexivity.
  - vm_compute. reflexivity.
Defined.

(** The PDF of the examples is indexed into an empty index. *)
Lemma indexing_a_document_witness :
  exists manager col,
    @create_vector_store Examples.by_length
      (VectorStore.Make default_collection_name db_path ∅)
      Examples.report_chunks
    = Ok (manager, col)
    /\ col = collection manager
    /\ total_documents (get_collection_stats manager)
       = Z.of_nat (length Examples.report_chunks)
    /\ (forall c, c ∈ Examples.report_chunks ->
          col !! chunk_id (meta c) = Some (entry_for c)).
Proof.
  apply (@indexing_a_document Examples.files Examples.by_length
           Examples.processor "/tmp/upload1.pdf" "Report.PDF"
           Examples.report_chunks default_collection_name db_path).
  - vm_compute. reflexivity.
  - discriminate.
Defined.

(** On a disk where every call succeeds and no collection exists yet,
    the collection is created. *)
Lemma collection_is_reused_or_created_witness :
  (forall e w2',
     @load_embedding_model _ _ Examples.scripted_storage "all-MiniLM-L6-v2"
       (Examples.Disk [] 0) = (Raise e, w2') ->
     @__init__ _ _ Examples.scripted_storage default_collection_name
       (Examples.Disk [] 0) = (Raise e, w2'))
  /\ (@load_embedding_model _ _ Examples.scripted_storage "all-MiniLM-L6-v2"
        (Examples.Disk [] 0) = (Ok tt, Examples.Disk [] 0) ->
      (forall col w3,
         @get_collection _ _ Examples.scripted_storage "./chroma_db"
           default_collection_name (Examples.Disk [] 0) = (Ok col, w3) ->
         @__init__ _ _ Examples.scripted_storage default_collection_name
           (Examples.Disk [] 0)
         = (Ok (Make default_collection_name "./chroma_db" col), w3))
      /\ (forall e w3 col w4,
            @get_collection _ _ Examples.scripted_storage "./chroma_db"
              default_collection_name (Examples.Disk [] 0) = (Raise e, w3) ->
            @create_collection _ _ Examples.scripted_storage "./chroma_db"
              default_collection_name w3 = (Ok col, w4) ->
            @__init__ _ _ Examples.scripted_storage default_collection_name
              (Examples.Disk [] 0)
            = (Ok (Make default_collection_name "./chroma_db" col), w4))
      /\ (forall e w3 e' w4,
            @get_collection _ _ Examples.scripted_storage "./chroma_db"
              default_collection_name (Examples.Disk [] 0) = (Raise e, w3) ->
            @create_collection _ _ Examples.scripted_storage "./chroma_db"
              default_collection_name w3 = (Raise e', w4) ->
            @__init__ _ _ Examples.scripted_storage default_collection_name
              (Examples.Disk [] 0) = (Raise e', w4))).
Proof.
  apply (@collection_is_reused_or_created _ _ Examples.scripted_storage
           default_collection_name "./chroma_db"
           (Examples.Disk [] 0) (Examples.Disk [] 0) (Examples.Disk [] 0)).
  reflexivity.
Defined.

End store_examples.

Section handler_examples.
Import DocumentProcessor VectorStore LLMHandler.

(** The second hit of the examples has no page. *)
Lemma missing_page_raises_when_available_witness :
  @generate_answer _ _ Examples.scripted_runtime "What changed?" Examples.hits
    (Examples.on_host Examples.ready (Examples.Host [] None))
  = (Raise (Exn KeyErrorC "'page'"),
     counted (Examples.on_host Examples.ready (Examples.Host [] None))).
Proof.
  apply (@missing_page_raises_when_available _ _ Examples.scripted_runtime).
  - reflexivity.
  - exists (@SearchHit Examples.by_length "loose sheet"
              (Metadata "sheet.txt" None "sheet.txt_page1_chunk0" "txt") 9).
    split; [|reflexivity]. right. left.
Defined.

(** The handler whose check was refused answers with the citations of
    the two hits. *)
Lemma sources_follow_retrieval_witness :
  map citation Examples.hits = map citation Examples.hits
  /\ length (map citation Examples.hits) = length Examples.hits.
Proof.
  apply (@sources_follow_retrieval _ _ Examples.scripted_runtime
           (Examples.on_host Examples.refused (Examples.Host [] None))
           (counted (Examples.on_host Examples.refused (Examples.Host [] None)))
           "What changed?" Examples.hits
           (Json.Str "LLM is unavailable. connection refused")
           (map citation Examples.hits)).
  vm_compute. reflexivity.
Defined.

(** The summary process prints a traceback. *)
Lemma summary_returns_witness :
  exists summary,
    @generate_summary _ Examples.scripted_runtime "A long text."
      (Examples.on_host Examples.ready Examples.crashing)
    = (Ok summary,
       State Examples.ready (Examples.Host [] None)
         ([] ++ [@summary_argv _ Examples.scripted_runtime Examples.ready
                   "A long text."])
         0)
    /\ (Examples.reply_traceback = EmptyString ->
        EmptyString = EmptyString ->
        summary = Json.Str "No response from Ollama worker.")
    /\ (Examples.reply_traceback = EmptyString ->
        EmptyString <> EmptyString ->
        summary
        = Json.Str ("Error generating summary: " +:+ Py.strip EmptyString))
    /\ (Examples.reply_traceback <> EmptyString ->
        is_ok (Examples.decode (Py.strip Examples.reply_traceback)) = false ->
        summary = Json.Str (Py.strip Examples.reply_traceback)).
Proof.
  apply (@summary_returns _ Examples.scripted_runtime
           (Examples.on_host Examples.ready Examples.crashing) "A long text."
           (Ok (Completed Examples.reply_traceback EmptyString))
           (Examples.Host [] None)).
  - reflexivity.
  - reflexivity.
Defined.

(** The chat process answers as the protocol has it. *)
Lemma protocol_replies_witness :
  exists answer st',
    @generate_answer _ _ Examples.scripted_runtime "What changed?"
      [@SearchHit Examples.by_length "first draft" (meta Examples.note) 6]
      (Examples.on_host Examples.ready MoreExamples.answering)
    = (Ok (answer,
           format_sources
             [@SearchHit Examples.by_length "first draft"
                (meta Examples.note) 6]),
       st')
    /\ (forall text,
          Json.truthy
            (default Json.Null
               (Json.assoc [("ok", Json.Bool true);
                            ("answer", Json.Str "See Source 1.")] "ok"))
          = true ->
          Json.assoc [("ok", Json.Bool true);
                      ("answer", Json.Str "See Source 1.")] "answer"
          = Some (Json.Str text) ->
          text <> EmptyString ->
          answer = Json.Str text)
    /\ (Json.truthy
          (default Json.Null
             (Json.assoc [("ok", Json.Bool true);
                          ("answer", Json.Str "See Source 1.")] "ok"))
        = false ->
        answer
        = Json.Str ("Error generating response: "
                    +:+ @format _ Examples.scripted_runtime
                          (default (Json.Str "Unknown error")
                             (Json.assoc
                                [("ok", Json.Bool true);
                                 ("answer", Json.Str "See Source 1.")]
                                "error")))).
Proof.
  apply (@protocol_replies _ _ Examples.scripted_runtime
           (Examples.on_host Examples.ready MoreExamples.answering)
           "What changed?" Examples.first_hit_context
           [@SearchHit Examples.by_length "first draft" (meta Examples.note) 6]
           (Completed Examples.reply_answer EmptyString)
           (Examples.Host [] None)
           [("ok", Json.Bool true); ("answer", Json.Str "See Source 1.")]).
  - reflexivity.
  - vm_compute. reflexivity.
  - vm_compute. reflexivity.
  - discriminate.
  - vm_compute. reflexivity.
Defined.

(** The check is refused with a text, as the worker reports it. *)
Lemma constructed_handler_always_answers_witness :
  exists reason,
    ollama_error_message
      (self (@__init__ _ Examples.scripted_runtime default_model
               (Some Examples.python) MoreExamples.refusing).2)
    = Json.Str reason
    /\ (forall query (relevant_docs : list (@search_hit Examples.by_length)),
          exists sources st',
            @generate_answer _ _ Examples.scripted_runtime query relevant_docs
              (@__init__ _ Examples.scripted_runtime default_model
                 (Some Examples.python) MoreExamples.refusing).2
            = (Ok (Json.Str ("LLM is unavailable. " +:+ reason), sources), st'))
    /\ (forall text,
          @generate_summary _ Examples.scripted_runtime text
            (@__init__ _ Examples.scripted_runtime default_model
               (Some Examples.python) MoreExamples.refusing).2
          = (Ok (Json.Str ("LLM is unavailable. " +:+ reason)),
             (@__init__ _ Examples.scripted_runtime default_model
                (Some Examples.python) MoreExamples.refusing).2)).
Proof.
  apply (@constructed_handler_always_answers Examples.by_length _
           Examples.scripted_runtime default_model (Some Examples.python)
           MoreExamples.refusing).
  - intros res w' data v Hrun Hload Hget.
    vm_compute in Hrun. inversion Hrun; subst; clear Hrun.
    vm_compute in Hload. inversion Hload; subst; clear Hload.
    vm_compute in Hget. inversion Hget; subst. by eexists.
  - vm_compute. reflexivity.
Defined.

(** The reason is the number 42. *)
Lemma non_text_reason_raises_witness :
  (exists e,
     @generate_answer _ _ Examples.scripted_runtime "What changed?"
       Examples.hits
       (Examples.on_host MoreExamples.numbered_reason (Examples.Host [] None))
     = (Raise e,
        counted (Examples.on_host MoreExamples.numbered_reason
                   (Examples.Host [] None)))
     /\ exn_cls e = TypeErrorC)
  /\ (exists e,
        @generate_summary _ Examples.scripted_runtime "A long text."
          (Examples.on_host MoreExamples.numbered_reason
             (Examples.Host [] None))
        = (Raise e,
           Examples.on_host MoreExamples.numbered_reason
             (Examples.Host [] None))
        /\ exn_cls e = TypeErrorC).
Proof.
  apply (@non_text_reason_raises Examples.by_length _
           Examples.scripted_runtime).
  - reflexivity.
  - intros reason. discriminate.
Defined.

End handler_examples.

Section construction_examples.
Import DocumentProcessor VectorStore.

(** The database file is locked at the first opening and at the
    reopening: the client is opened in a new directory. *)
Lemma recovery_chain_completes_witness :
  @open_client _ _ Examples.scripted_storage
    (Examples.Disk [Raise Examples.locked_error; Raise Examples.locked_error]
       1730000000)
  = (Ok ("./chroma_db_" +:+ Py.str_of_int 1730000000),
     Examples.Disk [] 1730000000).
Proof.
  apply (proj2 (proj2 (@recovery_chain_completes _ _ Examples.scripted_storage
                         (Examples.Disk [Raise Examples.locked_error;
                                         Raise Examples.locked_error]
                            1730000000)))
           Examples.locked_error Examples.locked_error
           (Examples.Disk [Raise Examples.locked_error] 1730000000)
           (Examples.Disk [] 1730000000) (Examples.Disk [] 1730000000)
           (Examples.Disk [] 1730000000)).
  - reflexivity.
  - reflexivity.
  - left. reflexivity.
  - reflexivity.
  - reflexivity.
Defined.

End construction_examples.

Section sidebar_examples.
Import DocumentProcessor VectorStore LLMHandler App VectorStoreManager Sidebar.

(** The PDF of the examples is processed into the empty index. *)
Lemma batch_is_indexed_or_refused_witness :
  exists pg',
    @process_documents Examples.files _ _ _ [MoreExamples.report_upload]
      MoreExamples.fresh_page
    = (Ok tt, pg')
    /\ collection (vector_manager (core pg'))
       = collection (vector_manager (core MoreExamples.fresh_page))
         ∪ list_to_map
             (map keyed (@batch Examples.files [MoreExamples.report_upload]))
    /\ vector_store (session_state (core pg'))
       = Some (collection (vector_manager (core pg'))).
Proof.
  apply (proj1 (proj2 (@batch_is_indexed_or_refused Examples.files _ _ _
                         [MoreExamples.report_upload]
                         MoreExamples.fresh_page))).
  - intros Hbatch. vm_compute in Hbatch. discriminate Hbatch.
  - apply (bool_decide_unpack _). vm_compute. reflexivity.
Defined.

(** The PDF of the examples is uploaded twice. *)
Lemma same_document_twice_is_refused_witness :
  exists e pg',
    @process_documents Examples.files _ _ _
      ([] ++ MoreExamples.report_upload
          :: [] ++ MoreExamples.report_upload :: [])
      MoreExamples.fresh_page
    = (Raise e, pg')
    /\ exn_cls e = OtherError "DuplicateIDError"
    /\ vector_manager (core pg')
       = vector_manager (core MoreExamples.fresh_page)
    /\ vector_store (session_state (core pg'))
       = vector_store (session_state (core MoreExamples.fresh_page))
    /\ up_name MoreExamples.report_upload
       ∈ documents_indexed (session_state (core pg')).
Proof.
  apply (@same_document_twice_is_refused Examples.files _ _ _ [] [] []
           MoreExamples.report_upload MoreExamples.report_upload
           MoreExamples.report_whole_chunks MoreExamples.fresh_page).
  - vm_compute. reflexivity.
  - vm_compute. reflexivity.
  - discriminate.
Defined.

(** The PDF of the examples is processed and a question asked, with a
    handler whose check was refused. *)
Lemma question_after_processing_witness :
  exists pg1 pg2 answer ranked,
    @process_documents Examples.files _ _ _ [MoreExamples.report_upload]
      MoreExamples.fresh_page
    = (Ok tt, pg1)
    /\ @chat_on_page _ _ _ Examples.scripted_runtime (Some "Which letters?")
         pg1
       = (Ok tt, pg2)
    /\ ranked ≡ₚ @batch Examples.files [MoreExamples.report_upload]
    /\ StronglySorted (@nearer Examples.by_length "Which letters?") ranked
    /\ chat_history (session_state (core pg2))
       = chat_history (session_state (core MoreExamples.fresh_page))
         ++ [ Turn "user" (Json.Str "Which letters?") None;
              Turn "assistant" answer
                (Some (map citation
                         (map (@hit_for Examples.by_length "Which letters?")
                            (take 4 ranked)))) ]
    /\ length (take 4 ranked)
       = Nat.min 4
           (length (@batch Examples.files [MoreExamples.report_upload]))
    /\ (forall cited left_out,
          cited ∈ take 4 ranked -> left_out ∈ drop 4 ranked ->
          @nearer Examples.by_length "Which letters?" cited left_out).
Proof.
  apply (@question_after_processing Examples.files _ _ _
           Examples.scripted_runtime [MoreExamples.report_upload]
           MoreExamples.fresh_page "Which letters?").
  - reflexivity.
  - intros Hbatch. vm_compute in Hbatch. discriminate Hbatch.
  - apply (bool_decide_unpack _). vm_compute. reflexivity.
  - discriminate.
  - right. exists "connection refused". reflexivity.
Defined.

End sidebar_examples.

Section statistics_examples.
Import DocumentProcessor DocumentStats.

(** The statistics of the PDF of the examples. *)
Lemma stats_of_a_processed_document_witness :
  total_chunks (@get_document_stats MoreExamples.float_division
                  Examples.report_chunks)
  = Z.of_nat (length Examples.report_chunks)
  /\ total_chunks (@get_document_stats MoreExamples.float_division
                     Examples.report_chunks)
     <= total_characters (@get_document_stats MoreExamples.float_division
                            Examples.report_chunks)
  /\ (Examples.report_chunks = [] ->
      @get_document_stats MoreExamples.float_division Examples.report_chunks
      = Stats 0 0 (IntNumber 0) 0)
  /\ (Examples.report_chunks <> [] ->
      documents (@get_document_stats MoreExamples.float_division
                   Examples.report_chunks) = 1
      /\ 0 < total_chunks (@get_document_stats MoreExamples.float_division
                             Examples.report_chunks)
      /\ avg_chunk_size (@get_document_stats MoreExamples.float_division
                           Examples.report_chunks)
         = FloatNumber
             (@true_divide MoreExamples.float_division
                (total_characters
                   (@get_document_stats MoreExamples.float_division
                      Examples.report_chunks))
                (total_chunks
                   (@get_document_stats MoreExamples.float_division
                      Examples.report_chunks)))).
Proof.
  apply (@stats_of_a_processed_document Examples.files
           MoreExamples.float_division 20 5 Examples.processor
           "/tmp/upload1.pdf" "Report.PDF" Examples.report_chunks).
  - reflexivity.
  - lia.
  - vm_compute. reflexivity.
Defined.

End statistics_examples.
